(** * flutter_document_capture: the capture engine, checked against its specification

    A shallow embedding of the C++ sources under [src/]:

    - [document_detector.cpp]    : [DocumentDetector]
    - [perspective_corrector.cpp]: [PerspectiveCorrector]
    - [quality_assessor.cpp]     : [QualityAssessor]
    - [image_enhancer.cpp]       : [ImageEnhancer]
    - [capture_engine.cpp]       : [CaptureEngine]

    Number model.  The C++ [float] and [double] values are embedded as real
    numbers ([R]): every arithmetic operator is the exact one, so rounding,
    NaN and overflow are outside this model.  C++ comparisons between them
    are the boolean tests [x <? y], [x <=? y] below.  C++ [int] and
    [size_t] values are [Z] and [nat]; no claim depends on their wrap-around.

    Objects with mutable members ([QualityAssessor::corner_history_],
    [CaptureEngine::last_analysis_]) are explicit state records, and every
    member function that writes a member returns the new state next to its
    result. *)

From Stdlib Require Import Reals Lra Lia ZArith List Bool String.
From Stdlib Require Import Permutation.
Import ListNotations.
Open Scope R_scope.

(* ================================================================== *)
(** * Part I: the model                                                *)
(* ================================================================== *)

(** ** Numbers *)

Module Num.

(** [a < b] and [a <= b] on [float]/[double], as C++ [bool]s. *)
Definition ltb (a b : R) : bool := if Rlt_dec a b then true else false.
Definition leb (a b : R) : bool := if Rle_dec a b then true else false.

(** [std::max(a, b)] is [(a < b) ? b : a]; [std::min(a, b)] is
    [(b < a) ? b : a]. *)
Definition std_max (a b : R) : R := if ltb a b then b else a.
Definition std_min (a b : R) : R := if ltb b a then b else a.

(** [std::max] and [std::min] on [int]. *)
Definition zmax (a b : Z) : Z := if (a <? b)%Z then b else a.
Definition zmin (a b : Z) : Z := if (b <? a)%Z then b else a.

(** [std::abs] on [float]. *)
Definition fabs (a : R) : R := if ltb a 0 then - a else a.

End Num.

Infix "<?" := Num.ltb : R_scope.
Infix "<=?" := Num.leb : R_scope.
Notation "a >? b" := (Num.ltb b a) (at level 70, no associativity) : R_scope.
Notation "a >=? b" := (Num.leb b a) (at level 70, no associativity) : R_scope.

(** ** Geometry: [cv::Point2f], [cv::Size], [cv::Rect] *)

Record Point2f : Type := mkPoint { px : R; py : R }.

Definition origin : Point2f := mkPoint 0 0.

Definition padd (a b : Point2f) : Point2f := mkPoint (px a + px b) (py a + py b).
Definition psub (a b : Point2f) : Point2f := mkPoint (px a - px b) (py a - py b).
Definition pscale (k : R) (a : Point2f) : Point2f := mkPoint (k * px a) (k * py a).

(** [cv::norm(p)] for a point: the Euclidean length. *)
Definition norm (p : Point2f) : R := sqrt (px p * px p + py p * py p).

Record Size : Type := mkSize { width : Z; height : Z }.

Record Rect : Type := mkRect { rx : Z; ry : Z; rw : Z; rh : Z }.

(** [std::vector<T>::operator[]] on an index in range, and a store
    [v[i] = x]; an index out of range leaves the vector as it is (the
    sources only store into vectors of fixed size 4). *)
Definition at_ {A : Type} (d : A) (v : list A) (i : nat) : A := nth i v d.

Fixpoint store {A : Type} (v : list A) (i : nat) (x : A) : list A :=
  match v, i with
  | [], _ => []
  | _ :: t, O => x :: t
  | h :: t, S j => h :: store t j x
  end.

(** The four slots of an ordered corner set. *)
Inductive Quadrant : Type := TL | TR | BR | BL.

Definition slot (q : Quadrant) : nat :=
  match q with TL => 0 | TR => 1 | BR => 2 | BL => 3 end%nat.

(** The centre both [orderCorners] routines compute:
    [center += pt] over the corners, then [center *= 0.25f]. *)
Definition centroid (corners : list Point2f) : Point2f :=
  pscale 0.25 (fold_left padd corners origin).

(** The if/else-if chain both routines use to pick a slot. *)
Definition classify (center pt : Point2f) : Quadrant :=
  if (px pt <? px center) && (py pt <? py center) then TL
  else if (px pt >=? px center) && (py pt <? py center) then TR
  else if (px pt >=? px center) && (py pt >=? py center) then BR
  else BL.

(** ** Images: [cv::Mat] and the OpenCV operations the sources call *)

(** A dense 8-bit image: its header and the channel values, addressed as
    [pix y x c] (row, column, channel). *)
Record Mat : Type := mkMat {
  rows : Z;
  cols : Z;
  channels : Z;
  pix : Z -> Z -> Z -> Z
}.

Module cv.

(** A default-constructed [cv::Mat]. *)
Definition noMat : Mat := mkMat 0 0 0 (fun _ _ _ => 0%Z).

(** [m.empty()]: no element. *)
Definition empty (m : Mat) : bool := (rows m <=? 0)%Z || (cols m <=? 0)%Z.

(** [m.size()]: width is the number of columns. *)
Definition size (m : Mat) : Size := mkSize (cols m) (rows m).

(** [cv::Mat(height, width, CV_8UC<ch>, data)]: a header over a packed
    row-major buffer. *)
Definition ofBuffer (h w ch : Z) (data : list Z) : Mat :=
  mkMat h w ch
    (fun y x c => nth (Z.to_nat (((y * w + x) * ch + c))) data 0%Z).

(** [m(cv::Rect(x, y, w, h))]: the sub-image. *)
Definition roi (m : Mat) (r : Rect) : Mat :=
  mkMat (rh r) (rw r) (channels m)
    (fun y x c => pix m (y + ry r) (x + rx r) c).

(** [a & b] on [cv::Rect]: the intersection, the default rectangle when
    it is empty. *)
Definition rect_and (a b : Rect) : Rect :=
  let x1 := Num.zmax (rx a) (rx b) in
  let y1 := Num.zmax (ry a) (ry b) in
  let w := (Num.zmin (rx a + rw a) (rx b + rw b) - x1)%Z in
  let h := (Num.zmin (ry a + rh a) (ry b + rh b) - y1)%Z in
  if (w <=? 0)%Z || (h <=? 0)%Z then mkRect 0 0 0 0 else mkRect x1 y1 w h.

(** [cv::cvtColor(m, out, cv::COLOR_GRAY2BGR)]: the grey value in each of
    the three channels. *)
Definition gray2bgr (m : Mat) : Mat :=
  mkMat (rows m) (cols m) 3 (fun y x _ => pix m y x 0%Z).

(** [cv::contourArea(pts)] (not oriented): half the absolute value of
    the sum of the cross products of consecutive vertices, the first
    one taken against the last vertex. *)
Fixpoint cross_sum (prev : Point2f) (pts : list Point2f) : R :=
  match pts with
  | [] => 0
  | p :: t => (px prev * py p - py prev * px p) + cross_sum p t
  end.

Definition contourArea (pts : list Point2f) : R :=
  match pts with
  | [] => 0
  | _ => Rabs (cross_sum (last pts origin) pts * 0.5)
  end.

(** The colour conversions whose weights no claim needs. *)
Inductive ColorCode : Type :=
  COLOR_RGB2BGR | COLOR_BGR2GRAY | COLOR_BGRA2GRAY | COLOR_BGRA2BGR.

Inductive RotateCode : Type :=
  ROTATE_90_CLOCKWISE | ROTATE_180 | ROTATE_90_COUNTERCLOCKWISE.

End cv.

(** [(int) x] for a [float] [x]: truncation toward zero.  The source's
    conversion is defined only for a value inside the [int] range; the
    properties that read a converted value stay inside it. *)
Definition float_to_int (x : R) : Z :=
  if 0 <=? x then Int_part x else (- Int_part (- x))%Z.

(** [std::numeric_limits<float>::max()]. *)
Definition FLT_MAX : R := (2 - / 2 ^ 23) * 2 ^ 127.

(** Results of the text-region heuristic ([quality_assessor.hpp]); only the
    members the engine reads are kept. *)
Record TextRegion : Type := mkTextRegion {
  tr_bounds : Rect;
  tr_area : R
}.

Record TextRegionsResult : Type := mkTextRegions {
  trs_found : bool;
  regions : list TextRegion;
  overallBounds : Rect;
  overallCorners : list Point2f;
  regionCount : Z;
  coverageRatio : R
}.

(** The image-processing service the sources call and do not implement:
    OpenCV operations, and the member functions of this repository that
    are chains of such operations and about whose pixels no claim speaks.
    Each is a total function of its arguments. *)
Class ImagePrimitives : Type := {
  (** [cv::cvtColor] for the codes of [cv.ColorCode] *)
  cvtColor : cv.ColorCode -> Mat -> Mat;
  (** [cv::rotate] *)
  rotate : cv.RotateCode -> Mat -> Mat;
  (** [cv::resize(frame, resized, cv::Size(), scale, scale)] *)
  resize : R -> Mat -> Mat;
  (** [findLargestQuadrilateral(findContours(preprocess(resized)),
      resized.size())] of [DocumentDetector] *)
  largestQuadrilateral : Mat -> list Point2f;
  (** [cv::Laplacian] then [cv::meanStdDev]: [stddev.val[0]] *)
  laplacianStdDev : Mat -> R;
  (** [cv::mean(gray).val[0]] *)
  meanIntensity : Mat -> R;
  (** [QualityAssessor::detectTextRegions] *)
  detectTextRegions : Mat -> TextRegionsResult;
  (** [cv::getPerspectiveTransform]: the nine entries of the matrix *)
  getPerspectiveTransform : list Point2f -> list Point2f -> list R;
  (** [cv::warpPerspective(image, out, M, outputSize)] *)
  warpPerspective : Mat -> list R -> Size -> Mat;
  (** [ImageEnhancer::applyCLAHE], [adjustBrightness], [sharpen],
      [whitenBackground], [stretchContrast], [adaptiveBinarize] *)
  applyCLAHE : Mat -> R -> Z -> Mat;
  adjustBrightness : Mat -> R -> Mat;
  sharpen : Mat -> R -> Mat;
  whitenBackground : Mat -> Z -> Mat;
  stretchContrast : Mat -> Mat;
  adaptiveBinarize : Mat -> Z -> R -> Mat
}.

(** The grey-scale conversion written out in [QualityAssessor] and
    [CaptureEngine]: by channel count, the frame itself otherwise. *)
Definition toGray `{ImagePrimitives} (frame : Mat) : Mat :=
  if (channels frame =? 3)%Z then cvtColor cv.COLOR_BGR2GRAY frame
  else if (channels frame =? 4)%Z then cvtColor cv.COLOR_BGRA2GRAY frame
  else frame.

(** ** DocumentDetector *)

Module DocumentDetector.

(** [DocumentDetector::orderCorners], document_detector.cpp:160-187.
    [ordered] starts as four default points [(0,0)]; every point is
    stored into its slot, a later point overwriting an earlier one, and
    [ordered] is returned whatever was filled. *)
Definition orderCorners (corners : list Point2f) : list Point2f :=
  if negb (List.length corners =? 4)%nat then corners
  else
    let center := centroid corners in
    fold_left
      (fun ordered pt => store ordered (slot (classify center pt)) pt)
      corners
      (repeat origin 4).

(** The six distances of the double loop [i < 4], [j = i+1 .. 3], in
    the order the loop visits them. *)
Definition pairDistances (corners : list Point2f) : list R :=
  let c := at_ origin corners in
  [ norm (psub (c 0%nat) (c 1%nat)); norm (psub (c 0%nat) (c 2%nat));
    norm (psub (c 0%nat) (c 3%nat)); norm (psub (c 1%nat) (c 2%nat));
    norm (psub (c 1%nat) (c 3%nat)); norm (psub (c 2%nat) (c 3%nat)) ].

(** [DocumentDetector::calculateConfidence],
    document_detector.cpp:189-220.  The [int] product
    [imageSize.width * imageSize.height] is the product in [Z]: the two
    agree while it is below [2^31], and the quotients by the area are the
    source's while it is positive. *)
Definition calculateConfidence (corners : list Point2f) (imageSize : Size)
    : R :=
  if negb (List.length corners =? 4)%nat then 0
  else
    let area := cv.contourArea corners in
    let imageArea := IZR (width imageSize * height imageSize) in
    let areaRatio := area / imageArea in
    let areaScore :=
      if (areaRatio >=? 0.2) && (areaRatio <=? 0.8)
      then 1 - Num.fabs (areaRatio - 0.5)
      else if areaRatio >? 0.1 then 0.5
      else 0 in
    let minDist :=
      fold_left (fun minDist dist => Num.std_min minDist dist)
                (pairDistances corners) FLT_MAX in
    let minExpectedDist := sqrt imageArea * 0.1 in
    let distScore := Num.std_min 1 (minDist / minExpectedDist) in
    areaScore * 0.6 + distScore * 0.4.

Record DetectionResult : Type := mkDetection {
  found : bool;
  corners : list Point2f;
  confidence : R
}.

(** [DocumentDetector::detect], document_detector.cpp:18-60. *)
Definition detect `{ImagePrimitives} (frame : Mat) : DetectionResult :=
  if cv.empty frame then mkDetection false [] 0
  else
    let TARGET_WIDTH := 480%Z in
    let scale :=
      if (TARGET_WIDTH <? cols frame)%Z
      then IZR TARGET_WIDTH / IZR (cols frame) else 1 in
    let resized :=
      if (TARGET_WIDTH <? cols frame)%Z then resize scale frame else frame in
    let quad := largestQuadrilateral resized in
    if (List.length quad =? 4)%nat then
      let quad := map (fun pt => mkPoint (px pt / scale) (py pt / scale)) quad in
      let ordered := orderCorners quad in
      mkDetection true ordered (calculateConfidence ordered (cv.size frame))
    else mkDetection false [] 0.

End DocumentDetector.

(** ** PerspectiveCorrector *)

Module PerspectiveCorrector.

(** One iteration of the classification loop: the point is stored only
    when its slot is still unassigned. *)
Definition assign (center : Point2f)
    (st : list Point2f * list bool) (pt : Point2f)
    : list Point2f * list bool :=
  let '(ordered, assigned) := st in
  let idx := slot (classify center pt) in
  if negb (at_ false assigned idx)
  then (store ordered idx pt, store assigned idx true)
  else (ordered, assigned).

(** The classification loop: [ordered] and [assigned] after all corners
    were visited. *)
Definition classified (corners : list Point2f) : list Point2f * list bool :=
  let center := centroid corners in
  fold_left (assign center) corners (repeat origin 4, repeat false 4).

(** [PerspectiveCorrector::orderCorners],
    perspective_corrector.cpp:69-116. *)
Definition orderCorners (corners : list Point2f) : list Point2f :=
  if negb (List.length corners =? 4)%nat then corners
  else
    let '(ordered, assigned) := classified corners in
    let allAssigned := forallb (fun a => a) assigned in
    if negb allAssigned then corners else ordered.

(** [PerspectiveCorrector::calculateOutputSize],
    perspective_corrector.cpp:49-67. *)
Definition calculateOutputSize (corners : list Point2f) : Size :=
  let c := at_ origin corners in
  let topWidth := norm (psub (c 1%nat) (c 0%nat)) in
  let bottomWidth := norm (psub (c 2%nat) (c 3%nat)) in
  let width := (topWidth + bottomWidth) / 2 in
  let leftHeight := norm (psub (c 3%nat) (c 0%nat)) in
  let rightHeight := norm (psub (c 2%nat) (c 1%nat)) in
  let height := (leftHeight + rightHeight) / 2 in
  let width := Num.std_max width 100 in
  let height := Num.std_max height 100 in
  mkSize (float_to_int width) (float_to_int height).

Record CorrectionResult : Type := mkCorrection {
  image : Mat;
  success : bool;
  cwidth : Z;
  cheight : Z
}.

(** [PerspectiveCorrector::correct], perspective_corrector.cpp:9-47.
    The only failure exits are the two tests of the first [if]. *)
Definition correct `{ImagePrimitives}
    (img : Mat) (corners : list Point2f) (outputSize : Size)
    : CorrectionResult :=
  if cv.empty img || negb (List.length corners =? 4)%nat
  then mkCorrection cv.noMat false 0 0
  else
    let ordered := orderCorners corners in
    let outputSize :=
      if (width outputSize =? 0)%Z || (height outputSize =? 0)%Z
      then calculateOutputSize ordered else outputSize in
    let dst :=
      [ mkPoint 0 0;
        mkPoint (IZR (width outputSize - 1)) 0;
        mkPoint (IZR (width outputSize - 1)) (IZR (height outputSize - 1));
        mkPoint 0 (IZR (height outputSize - 1)) ] in
    let M := getPerspectiveTransform ordered dst in
    mkCorrection (warpPerspective img M outputSize) true
                 (width outputSize) (height outputSize).

End PerspectiveCorrector.

(** ** QualityAssessor *)

Module QualityAssessor.

Record QualityScore : Type := mkQuality {
  blur_score : R;
  brightness_score : R;
  stability_score : R;
  corner_confidence : R
}.

(** [QualityScore::overall], quality_assessor.hpp:42-47. *)
Definition overall (q : QualityScore) : R :=
  blur_score q * 0.3 + brightness_score q * 0.2 +
  stability_score q * 0.3 + corner_confidence q * 0.2.

(** The one data member: [std::deque<std::vector<cv::Point2f>>
    corner_history_], front first. *)
Definition History : Type := list (list Point2f).

Definition MAX_HISTORY : nat := 5.

(** A freshly constructed assessor. *)
Definition fresh : History := [].

(** [QualityAssessor::reset], quality_assessor.cpp:9-11. *)
Definition reset (corner_history : History) : History := [].

(** The body of the loop over [corner_history_]: a retained set that
    does not have 4 points is skipped, otherwise the four corner
    distances are added and [comparisons] grows by 4. *)
Definition accumulate (corners : list Point2f)
    (acc : R * Z) (prevCorners : list Point2f) : R * Z :=
  let '(totalDisplacement, comparisons) := acc in
  if negb (List.length prevCorners =? 4)%nat then acc
  else
    (fold_left
       (fun total i =>
          total + norm (psub (at_ origin corners i) (at_ origin prevCorners i)))
       (seq 0 4) totalDisplacement,
     (comparisons + 4)%Z).

(** [QualityAssessor::checkStability], quality_assessor.cpp:353-390:
    the score and the history it leaves. *)
Definition checkStability (corners : list Point2f) (corner_history : History)
    : R * History :=
  if negb (List.length corners =? 4)%nat then (0, corner_history)
  else if (List.length corner_history <? 3)%nat
  then (0, corner_history ++ [corners])
  else
    let '(totalDisplacement, comparisons) :=
      fold_left (accumulate corners) corner_history (0, 0%Z) in
    let avgDisplacement :=
      if (0 <? comparisons)%Z then totalDisplacement / IZR comparisons else 0 in
    let pushed := corner_history ++ [corners] in
    let corner_history' :=
      if (MAX_HISTORY <? List.length pushed)%nat then tl pushed else pushed in
    (Num.std_max 0 (1 - avgDisplacement / 20), corner_history').

(** [QualityAssessor::detectBlur], quality_assessor.cpp:300-315. *)
Definition detectBlur `{ImagePrimitives} (gray : Mat) : R :=
  let variance := laplacianStdDev gray * laplacianStdDev gray in
  Num.std_min (variance / 500) 1.

(** [QualityAssessor::checkBrightness], quality_assessor.cpp:317-329. *)
Definition checkBrightness `{ImagePrimitives} (gray : Mat) : R :=
  let brightness := meanIntensity gray / 255 in
  let distance := Num.fabs (brightness - 0.5) in
  let score := 1 - distance * 2 in
  Num.std_max 0 score.

(** [detectBlurInRegion] and [checkBrightnessInRegion],
    quality_assessor.cpp:331-351. *)
Definition detectBlurInRegion `{ImagePrimitives} (gray : Mat) (region : Rect)
    : R :=
  let safeRegion := cv.rect_and region (mkRect 0 0 (cols gray) (rows gray)) in
  if (rw safeRegion <? 10)%Z || (rh safeRegion <? 10)%Z
  then detectBlur gray
  else detectBlur (cv.roi gray safeRegion).

Definition checkBrightnessInRegion `{ImagePrimitives}
    (gray : Mat) (region : Rect) : R :=
  let safeRegion := cv.rect_and region (mkRect 0 0 (cols gray) (rows gray)) in
  if (rw safeRegion <? 10)%Z || (rh safeRegion <? 10)%Z
  then checkBrightness gray
  else checkBrightness (cv.roi gray safeRegion).

(** [QualityAssessor::assess], quality_assessor.cpp:267-298. *)
Definition assess `{ImagePrimitives}
    (frame : Mat) (corners : list Point2f) (cornerConfidence : R)
    (corner_history : History) : QualityScore * History :=
  if cv.empty frame then (mkQuality 0 0 0 cornerConfidence, corner_history)
  else
    let gray := toGray frame in
    let blur := detectBlur gray in
    let brightness := checkBrightness gray in
    if negb (List.length corners =? 0)%nat && (List.length corners =? 4)%nat
    then
      let '(stability, corner_history') :=
        checkStability corners corner_history in
      (mkQuality blur brightness stability cornerConfidence, corner_history')
    else (mkQuality blur brightness 0 cornerConfidence, corner_history).

End QualityAssessor.

(** ** ImageEnhancer *)

Module ImageEnhancer.

Record EnhanceConfig : Type := mkEnhanceConfig {
  apply_clahe : bool;
  apply_brightness_adjust : bool;
  apply_sharpening : bool;
  clahe_clip_limit : R;
  clahe_tile_size : Z;
  target_brightness : R;
  sharpening_strength : R
}.

(** [ImageEnhancer::enhance], image_enhancer.cpp:8-32. *)
Definition enhance `{ImagePrimitives} (input : Mat) (config : EnhanceConfig)
    : Mat :=
  if cv.empty input then input
  else
    let result := input in
    let result :=
      if apply_clahe config
      then applyCLAHE result (clahe_clip_limit config) (clahe_tile_size config)
      else result in
    let result :=
      if apply_brightness_adjust config
      then adjustBrightness result (target_brightness config) else result in
    if apply_sharpening config
    then sharpen result (sharpening_strength config) else result.

(** Sum of [f 0 .. f (n-1)]. *)
Fixpoint sum_n (f : nat -> R) (n : nat) : R :=
  match n with
  | O => 0
  | S m => sum_n f m + f m
  end.

Definition sum_below (f : Z -> R) (n : Z) : R :=
  sum_n (fun i => f (Z.of_nat i)) (Z.to_nat n).

(** [cv::integral(src, sum, sqsum, CV_64F)]: entry [(Y, X)] of [sum] is
    the sum of [src(y, x)] over [y < Y], [x < X]; [sqsum] is the same
    over the squares. *)
Definition integral (src : Z -> Z -> R) (Y X : Z) : R :=
  sum_below (fun y => sum_below (fun x => src y x) X) Y.

Definition integralSq (src : Z -> Z -> R) (Y X : Z) : R :=
  integral (fun y x => src y x * src y x) Y X.

(** The window the loop body clips around pixel [(y, x)]:
    [(x1, y1, x2, y2)]. *)
Definition window (gray : Mat) (halfWindow y x : Z) : Z * Z * Z * Z :=
  (Num.zmax 0 (x - halfWindow), Num.zmax 0 (y - halfWindow),
   Num.zmin (cols gray - 1) (x + halfWindow),
   Num.zmin (rows gray - 1) (y + halfWindow)).

(** The threshold the loop body computes for pixel [(y, x)].  The [int]
    window area is the product in [Z] (the same below [2^31]); the
    quotient [stddev / R_] is the source's for [R_ <> 0]. *)
Definition sauvolaThreshold (gray : Mat) (halfWindow : Z) (k R_ : R)
    (y x : Z) : R :=
  let floatGray := fun y x => IZR (pix gray y x 0%Z) in
  let '(x1, y1, x2, y2) := window gray halfWindow y x in
  let area := ((x2 - x1 + 1) * (y2 - y1 + 1))%Z in
  let sum :=
    integral floatGray (y2 + 1) (x2 + 1) - integral floatGray y1 (x2 + 1)
    - integral floatGray (y2 + 1) x1 + integral floatGray y1 x1 in
  let sqSum :=
    integralSq floatGray (y2 + 1) (x2 + 1) - integralSq floatGray y1 (x2 + 1)
    - integralSq floatGray (y2 + 1) x1 + integralSq floatGray y1 x1 in
  let mean := sum / IZR area in
  let variance := sqSum / IZR area - mean * mean in
  let stddev := sqrt (Num.std_max 0 variance) in
  mean * (1 + k * (stddev / R_ - 1)).

(** [ImageEnhancer::sauvolaBinarize], image_enhancer.cpp:221-290.
    [%] and [/] on [int] truncate toward zero; the range parameter [R]
    of the source is [R_] here. *)
Definition sauvolaBinarize `{ImagePrimitives}
    (input : Mat) (windowSize : Z) (k R_ : R) : Mat :=
  if cv.empty input then input
  else
    let gray :=
      if (channels input =? 1)%Z then input
      else cvtColor cv.COLOR_BGR2GRAY input in
    let windowSize :=
      if (Z.rem windowSize 2 =? 0)%Z then (windowSize + 1)%Z else windowSize in
    let halfWindow := Z.quot windowSize 2 in
    let binary :=
      mkMat (rows gray) (cols gray) 1
        (fun y x _ =>
           if IZR (pix gray y x 0%Z) >? sauvolaThreshold gray halfWindow k R_ y x
           then 255%Z else 0%Z) in
    cv.gray2bgr binary.

End ImageEnhancer.

(** ** CaptureEngine *)

Module CaptureEngine.

Import DocumentDetector PerspectiveCorrector.

Record FrameAnalysisResult : Type := mkAnalysis {
  document_found : bool;
  table_found : bool;
  text_region_found : bool;
  corners : list R;              (* float corners[8] *)
  corner_confidence : R;
  blur_score : R;
  brightness_score : R;
  stability_score : R;
  overall_score : R;
  capture_ready : bool;
  is_trapezoid : bool;
  skew_ratio : R;
  top_width : R;
  bottom_width : R;
  left_height : R;
  right_height : R;
  vertical_skew : R;
  horizontal_skew : R;
  text_region_count : Z;
  text_regions_bounds : list R;  (* float text_regions_bounds[32] *)
  overall_bounds : list R;       (* float overall_bounds[4] *)
  coverage_ratio : R
}.

(** The constructor [FrameAnalysisResult()], capture_engine.hpp:41-64. *)
Definition noAnalysis : FrameAnalysisResult :=
  mkAnalysis false false false (repeat 0 8) 0 0 0 0 0 false
             false 0 0 0 0 0 0 0 0%Z (repeat 0 32) (repeat 0 4) 0.

Inductive EnhanceMode : Type :=
| ENHANCE_NONE | ENHANCE_WHITEN_BG | ENHANCE_CONTRAST_STRETCH
| ENHANCE_ADAPTIVE_BINARIZE | ENHANCE_SAUVOLA.

Record EnhancementOptions : Type := mkOptions {
  apply_crop : bool;
  apply_perspective_correction : bool;
  apply_deskew : bool;
  apply_auto_enhance : bool;
  apply_sharpening : bool;
  sharpening_strength : R;
  enhance_mode : EnhanceMode;
  output_width : Z;
  output_height : Z
}.

Record EnhancementResult : Type := mkEnhancement {
  image_data : option (list Z);  (* None is the null pointer *)
  ewidth : Z;
  eheight : Z;
  echannels : Z;
  stride : Z;
  esuccess : bool;
  error_message : string
}.

(** The constructor [EnhancementResult()] with [error_message] set. *)
Definition failed (msg : string) : EnhancementResult :=
  mkEnhancement None 0 0 0 0 false msg.

(** The engine's mutable members: the assessor's history and
    [last_analysis_].  The four [unique_ptr] members are set once by the
    constructor and never null afterwards. *)
Record Engine : Type := mkEngine {
  assessor_ : QualityAssessor.History;
  last_analysis_ : FrameAnalysisResult
}.

(** [CaptureEngine::CaptureEngine]. *)
Definition new : Engine := mkEngine QualityAssessor.fresh noAnalysis.

(** [CaptureEngine::reset], capture_engine.cpp:17-21. *)
Definition reset (e : Engine) : Engine :=
  mkEngine (QualityAssessor.reset (assessor_ e)) (last_analysis_ e).

(** [CaptureEngine::getLastAnalysis], capture_engine.hpp:164. *)
Definition getLastAnalysis (e : Engine) : FrameAnalysisResult :=
  last_analysis_ e.

(** [CaptureEngine::bufferToMat], capture_engine.cpp:23-46. *)
Definition bufferToMat `{ImagePrimitives}
    (data : list Z) (width height format : Z) : Mat :=
  if (format =? 0)%Z then cv.ofBuffer height width 4 data
  else if (format =? 1)%Z then cv.ofBuffer height width 3 data
  else if (format =? 2)%Z
  then cvtColor cv.COLOR_RGB2BGR (cv.ofBuffer height width 3 data)
  else cv.ofBuffer height width 3 data.

(** The rotation step shared by [analyzeFrame] and
    [enhanceImageWithGuideFrame]. *)
Definition applyRotation `{ImagePrimitives} (rotation : Z) (frame : Mat)
    : Mat :=
  if (rotation =? 90)%Z then rotate cv.ROTATE_90_CLOCKWISE frame
  else if (rotation =? 180)%Z then rotate cv.ROTATE_180 frame
  else if (rotation =? 270)%Z then rotate cv.ROTATE_90_COUNTERCLOCKWISE frame
  else frame.

(** The crop after rotation, capture_engine.cpp:81-90. *)
Definition applyCrop (crop_x crop_y crop_w crop_h : Z) (frame : Mat) : Mat :=
  if (0 <? crop_w)%Z && (0 <? crop_h)%Z then
    let x := Num.zmax 0 crop_x in
    let y := Num.zmax 0 crop_y in
    let w := Num.zmin crop_w (cols frame - x) in
    let h := Num.zmin crop_h (rows frame - y) in
    if (0 <? w)%Z && (0 <? h)%Z then cv.roi frame (mkRect x y w h) else frame
  else frame.

(** [x0, y0, x1, y1, x2, y2, x3, y3] of four points. *)
Definition flatten4 (pts : list Point2f) : list R :=
  flat_map (fun i => [px (at_ origin pts i); py (at_ origin pts i)]) (seq 0 4).

Record TrapezoidMetrics : Type := mkMetrics {
  m_top_width : R;
  m_bottom_width : R;
  m_left_height : R;
  m_right_height : R;
  m_vertical_skew : R;
  m_horizontal_skew : R;
  m_skew_ratio : R;
  m_is_trapezoid : bool
}.

(** [sqrt(pow(a.x - b.x, 2) + pow(a.y - b.y, 2))]. *)
Definition edge (a b : Point2f) : R :=
  sqrt ((px a - px b) ^ 2 + (py a - py b) ^ 2).

(** The trapezoid block of [analyzeFrame], capture_engine.cpp:129-165,
    on [detection.corners] (TL=0, TR=1, BR=2, BL=3). *)
Definition trapezoidMetrics (corners : list Point2f) : TrapezoidMetrics :=
  let c := at_ origin corners in
  let topWidth := edge (c 1%nat) (c 0%nat) in
  let bottomWidth := edge (c 2%nat) (c 3%nat) in
  let leftHeight := edge (c 3%nat) (c 0%nat) in
  let rightHeight := edge (c 2%nat) (c 1%nat) in
  let avgWidth := (topWidth + bottomWidth) / 2 in
  let vertical_skew :=
    if avgWidth >? 0 then Num.fabs (topWidth - bottomWidth) / avgWidth else 0 in
  let avgHeight := (leftHeight + rightHeight) / 2 in
  let horizontal_skew :=
    if avgHeight >? 0
    then Num.fabs (leftHeight - rightHeight) / avgHeight else 0 in
  let skew_ratio := Num.std_max vertical_skew horizontal_skew in
  mkMetrics topWidth bottomWidth leftHeight rightHeight
            vertical_skew horizontal_skew skew_ratio (skew_ratio >? 0.05).

(** [x, y, width, height] of a rectangle as floats. *)
Definition rectFloats (r : Rect) : list R :=
  [IZR (rx r); IZR (ry r); IZR (rw r); IZR (rh r)].

(** The loop copying the first [count] region bounds into
    [text_regions_bounds]. *)
Definition copyRegionBounds (count : Z) (regions : list TextRegion) : list R :=
  fold_left
    (fun bounds i =>
       let region := nth i regions (mkTextRegion (mkRect 0 0 0 0) 0) in
       let b := tr_bounds region in
       store (store (store (store bounds (i * 4 + 0) (IZR (rx b)))
                           (i * 4 + 1) (IZR (ry b)))
                    (i * 4 + 2) (IZR (rw b)))
             (i * 4 + 3) (IZR (rh b)))
    (seq 0 (Z.to_nat count)) (repeat 0 32).

(** [CaptureEngine::analyzeFrame], capture_engine.cpp:48-255: the
    result and the engine after the call.  [image_data] is [None] for a
    null pointer. *)
Definition analyzeFrame `{ImagePrimitives}
    (image_data : option (list Z)) (width height format rotation : Z)
    (crop_x crop_y crop_w crop_h : Z) (e : Engine)
    : FrameAnalysisResult * Engine :=
  match image_data with
  | None => (noAnalysis, e)
  | Some data =>
    if (width <=? 0)%Z || (height <=? 0)%Z then (noAnalysis, e)
    else
      let frame := bufferToMat data width height format in
      if cv.empty frame then (noAnalysis, e)
      else
        let frame := applyRotation rotation frame in
        let frame := applyCrop crop_x crop_y crop_w crop_h frame in
        let detection := detect frame in
        if found detection
           && (List.length (DocumentDetector.corners detection) =? 4)%nat
        then
          let m := trapezoidMetrics (DocumentDetector.corners detection) in
          let '(quality, history) :=
            QualityAssessor.assess frame (DocumentDetector.corners detection)
              (confidence detection) (assessor_ e) in
          let result :=
            mkAnalysis
              (found detection) true false
              (flatten4 (DocumentDetector.corners detection))
              (confidence detection)
              (QualityAssessor.blur_score quality)
              (QualityAssessor.brightness_score quality)
              (QualityAssessor.stability_score quality)
              (QualityAssessor.overall quality)
              ((QualityAssessor.blur_score quality >? 0.6)
               && (QualityAssessor.brightness_score quality >? 0.5)
               && (QualityAssessor.stability_score quality >? 0.8))
              (m_is_trapezoid m) (m_skew_ratio m)
              (m_top_width m) (m_bottom_width m)
              (m_left_height m) (m_right_height m)
              (m_vertical_skew m) (m_horizontal_skew m)
              0%Z (repeat 0 32) (repeat 0 4) 0 in
          (result, mkEngine history result)
        else
          let textRegions := detectTextRegions frame in
          if trs_found textRegions then
            let count := Num.zmin (regionCount textRegions) 8 in
            let corners :=
              if (List.length (overallCorners textRegions) =? 4)%nat
              then flatten4 (overallCorners textRegions) else repeat 0 8 in
            let gray := toGray frame in
            let blur :=
              QualityAssessor.detectBlurInRegion gray (overallBounds textRegions) in
            let brightness :=
              QualityAssessor.checkBrightnessInRegion gray
                (overallBounds textRegions) in
            let '(stability, history) :=
              if (List.length (overallCorners textRegions) =? 4)%nat then
                let '(tempScore, history) :=
                  QualityAssessor.assess frame (overallCorners textRegions)
                    (coverageRatio textRegions) (assessor_ e) in
                (QualityAssessor.stability_score tempScore, history)
              else (0, assessor_ e) in
            let conf := coverageRatio textRegions in
            let result :=
              mkAnalysis
                (found detection) false true corners conf
                blur brightness stability
                (blur * 0.4 + brightness * 0.2 + stability * 0.2 + conf * 0.2)
                ((blur >? 0.6) && (brightness >? 0.5) && (stability >? 0.9))
                false 0 0 0 0 0 0 0
                count (copyRegionBounds count (regions textRegions))
                (rectFloats (overallBounds textRegions))
                (coverageRatio textRegions) in
            (result, mkEngine history result)
          else
            let gray :=
              if (channels frame =? 3)%Z
              then cvtColor cv.COLOR_BGR2GRAY frame else frame in
            let blur := QualityAssessor.detectBlur gray in
            let brightness := QualityAssessor.checkBrightness gray in
            let stability := 0 in
            let result :=
              mkAnalysis
                (found detection) false false (repeat 0 8)
                (confidence detection)
                blur brightness stability 0
                ((blur >? 0.6) && (brightness >? 0.5) && (stability >? 0.9))
                false 0 0 0 0 0 0 0 0%Z (repeat 0 32) (repeat 0 4) 0 in
            (result, mkEngine (assessor_ e) result)
  end.

(** [std::min({a, b, c, d})] and [std::max({a, b, c, d})]. *)
Definition min4 (a b c d : R) : R :=
  fold_left (fun m v => Num.std_min m v) [b; c; d] a.
Definition max4 (a b c d : R) : R :=
  fold_left (fun m v => Num.std_max m v) [b; c; d] a.

(** The rectangular crop to the bounding box of the corners, shared by
    both enhance routines (capture_engine.cpp:289-304 and 508-521). *)
Definition cropToCorners (corners : list R) (frame : Mat) : Mat :=
  let c := at_ 0 corners in
  let minX := min4 (c 0%nat) (c 2%nat) (c 4%nat) (c 6%nat) in
  let maxX := max4 (c 0%nat) (c 2%nat) (c 4%nat) (c 6%nat) in
  let minY := min4 (c 1%nat) (c 3%nat) (c 5%nat) (c 7%nat) in
  let maxY := max4 (c 1%nat) (c 3%nat) (c 5%nat) (c 7%nat) in
  let x := Num.zmax 0 (float_to_int minX) in
  let y := Num.zmax 0 (float_to_int minY) in
  let w := Num.zmin (cols frame - x) (float_to_int (maxX - minX)) in
  let h := Num.zmin (rows frame - y) (float_to_int (maxY - minY)) in
  if (0 <? w)%Z && (0 <? h)%Z then cv.roi frame (mkRect x y w h) else frame.

(** The four [cv::Point2f] built from [corners[0..7]]. *)
Definition cornerPoints (corners : list R) : list Point2f :=
  let c := at_ 0 corners in
  [ mkPoint (c 0%nat) (c 1%nat); mkPoint (c 2%nat) (c 3%nat);
    mkPoint (c 4%nat) (c 5%nat); mkPoint (c 6%nat) (c 7%nat) ].

(** The [switch (options.enhance_mode)] of both enhance routines. *)
Definition applyEnhanceMode `{ImagePrimitives}
    (mode : EnhanceMode) (processed : Mat) : Mat :=
  match mode with
  | ENHANCE_WHITEN_BG => whitenBackground processed 200
  | ENHANCE_CONTRAST_STRETCH => stretchContrast processed
  | ENHANCE_ADAPTIVE_BINARIZE => adaptiveBinarize processed 11 2
  | ENHANCE_SAUVOLA => ImageEnhancer.sauvolaBinarize processed 15 0.2 128
  | ENHANCE_NONE => processed
  end.

(** The bytes [memcpy] copies out of [processed]: row-major, channels
    interleaved. *)
Definition matBytes (m : Mat) : list Z :=
  map (fun i =>
         let i := Z.of_nat i in
         pix m (i / (cols m * channels m)) ((i / channels m) mod cols m)
               (i mod channels m))%Z
      (seq 0 (Z.to_nat (rows m * cols m * channels m))).

(** The tail of both enhance routines: allocate and fill the output.
    The stride is the row length in bytes, which the source narrows to
    [int]: the same below [2^31]. *)
Definition output (processed : Mat) : EnhancementResult :=
  mkEnhancement (Some (matBytes processed)) (cols processed) (rows processed)
                (channels processed) (cols processed * channels processed)
                true "".

(** Everything both enhance routines do after the perspective block:
    four channels to three, auto enhancement ([enhanceImage] only:
    [auto_enhance] is [false] for the guide-frame routine, which has no
    such step), sharpening, the enhancement mode, the output buffer. *)
Definition postProcess `{ImagePrimitives} (auto_enhance : bool)
    (options : EnhancementOptions) (processed : Mat) : EnhancementResult :=
  let processed :=
    if (channels processed =? 4)%Z
    then cvtColor cv.COLOR_BGRA2BGR processed else processed in
  let processed :=
    if auto_enhance
    then ImageEnhancer.enhance processed
           (ImageEnhancer.mkEnhanceConfig true true false 2 8 0.5 0.5)
    else processed in
  let processed :=
    if apply_sharpening options
    then sharpen processed (sharpening_strength options)
    else processed in
  output (applyEnhanceMode (enhance_mode options) processed).

(** [CaptureEngine::enhanceImage], capture_engine.cpp:257-383.
    [image_data] and [corners] are [None] for null pointers. *)
Definition enhanceImage `{ImagePrimitives}
    (image_data : option (list Z)) (width height format : Z)
    (corners : option (list R)) (options : EnhancementOptions)
    : EnhancementResult :=
  match image_data with
  | None => failed "Invalid image data"
  | Some data =>
    if (width <=? 0)%Z || (height <=? 0)%Z then failed "Invalid image data"
    else
      match corners with
      | None => failed "Corners not provided"
      | Some corners =>
        let frame := bufferToMat data width height format in
        if cv.empty frame then failed "Failed to create image from buffer"
        else
          let processed :=
            if apply_crop options && negb (apply_perspective_correction options)
            then cropToCorners corners frame else frame in
          let finish := postProcess (apply_auto_enhance options) options in
          if apply_perspective_correction options then
            let correction :=
              correct processed (cornerPoints corners)
                      (mkSize (output_width options) (output_height options)) in
            if success correction then finish (image correction)
            else failed "Perspective correction failed"
          else finish processed
      end
  end.

(** [CaptureEngine::calculateVirtualTrapezoid],
    capture_engine.cpp:392-457: the eight floats written to
    [out_corners]. *)
Definition calculateVirtualTrapezoid (e : Engine)
    (guide_left guide_top guide_right guide_bottom : R) : list R :=
  let last := last_analysis_ e in
  let guide_width := guide_right - guide_left in
  let guide_height := guide_bottom - guide_top in
  (* tl_x, tl_y, tr_x, tr_y, br_x, br_y, bl_x, bl_y *)
  let rectangle :=
    (guide_left, guide_top, guide_right, guide_top,
     guide_right, guide_bottom, guide_left, guide_bottom) in
  let '(tl_x, tl_y, tr_x, tr_y, br_x, br_y, bl_x, bl_y) :=
    if table_found last && is_trapezoid last then
      let '(tl_x, tl_y, tr_x, tr_y, br_x, br_y, bl_x, bl_y) :=
        let '(tl_x, tl_y, tr_x, tr_y, br_x, br_y, bl_x, bl_y) := rectangle in
        if vertical_skew last >? 0.01 then
          let topW := top_width last in
          let bottomW := bottom_width last in
          let avgW := (topW + bottomW) / 2 in
          if avgW >? 0 then
            let skewDiff := (bottomW - topW) / avgW in
            let h_adjustment := guide_width * Num.fabs skewDiff / 2 in
            if bottomW >? topW
            then (tl_x + h_adjustment, tl_y, tr_x - h_adjustment, tr_y,
                  br_x, br_y, bl_x, bl_y)
            else (tl_x, tl_y, tr_x, tr_y,
                  br_x - h_adjustment, br_y, bl_x + h_adjustment, bl_y)
          else rectangle
        else rectangle in
      if horizontal_skew last >? 0.01 then
        let leftH := left_height last in
        let rightH := right_height last in
        let avgH := (leftH + rightH) / 2 in
        if avgH >? 0 then
          let skewDiff := (rightH - leftH) / avgH in
          let v_adjustment := guide_height * Num.fabs skewDiff / 2 in
          if rightH >? leftH
          then (tl_x, tl_y + v_adjustment, tr_x, tr_y,
                br_x, br_y, bl_x, bl_y - v_adjustment)
          else (tl_x, tl_y, tr_x, tr_y + v_adjustment,
                br_x, br_y - v_adjustment, bl_x, bl_y)
        else (tl_x, tl_y, tr_x, tr_y, br_x, br_y, bl_x, bl_y)
      else (tl_x, tl_y, tr_x, tr_y, br_x, br_y, bl_x, bl_y)
    else rectangle in
  [tl_x; tl_y; tr_x; tr_y; br_x; br_y; bl_x; bl_y].

(** [CaptureEngine::enhanceImageWithGuideFrame],
    capture_engine.cpp:459-587. *)
Definition enhanceImageWithGuideFrame `{ImagePrimitives} (e : Engine)
    (image_data : option (list Z)) (width height format : Z)
    (guide_left guide_top guide_right guide_bottom : R)
    (options : EnhancementOptions) (rotation : Z) : EnhancementResult :=
  match image_data with
  | None => failed "Invalid image data"
  | Some data =>
    if (width <=? 0)%Z || (height <=? 0)%Z then failed "Invalid image data"
    else
      let frame := bufferToMat data width height format in
      if cv.empty frame then failed "Failed to create image from buffer"
      else
        let frame := applyRotation rotation frame in
        let corners :=
          calculateVirtualTrapezoid e
            guide_left guide_top guide_right guide_bottom in
        (* adjusted_options *)
        let perspective :=
          table_found (last_analysis_ e) && is_trapezoid (last_analysis_ e) in
        let crop := negb perspective in
        let processed :=
          if crop && negb perspective
          then cropToCorners corners frame else frame in
        let finish := postProcess false options in
        if perspective then
          let correction :=
            correct processed (cornerPoints corners)
                    (mkSize (output_width options) (output_height options)) in
          if success correction then finish (image correction)
          else failed "Perspective correction failed"
        else finish processed
  end.

(** The frame [analyzeFrame] hands to the detector: [None] when the input
    is rejected before that (null buffer, non-positive size, empty image). *)
Definition preparedFrame `{ImagePrimitives}
    (image_data : option (list Z)) (width height format rotation : Z)
    (crop_x crop_y crop_w crop_h : Z) : option Mat :=
  match image_data with
  | None => None
  | Some data =>
    if (width <=? 0)%Z || (height <=? 0)%Z then None
    else
      let frame := bufferToMat data width height format in
      if cv.empty frame then None
      else Some (applyCrop crop_x crop_y crop_w crop_h
                   (applyRotation rotation frame))
  end.

(** The test of the outer [if] of [analyzeFrame], capture_engine.cpp:109:
    the detector found a quadrilateral with 4 corners. *)
Definition quadrilateralFound `{ImagePrimitives} (frame : option Mat) : bool :=
  match frame with
  | None => false
  | Some frame =>
      found (detect frame)
      && (List.length (DocumentDetector.corners (detect frame)) =? 4)%nat
  end.

End CaptureEngine.

(** ** The specification's side of the comparisons *)

Module Spec.

Import DocumentDetector.

(** Two of the four points fall into the same quadrant around the
    centroid. *)
Definition collision (corners : list Point2f) : Prop :=
  exists i j : nat,
    (i < j < 4)%nat /\
    classify (centroid corners) (at_ origin corners i)
    = classify (centroid corners) (at_ origin corners j).

(** First-seen wins: the first point of a quadrant, if any. *)
Definition firstOf (q : Quadrant) (center : Point2f) (pts : list Point2f)
    : option Point2f :=
  find (fun pt => (slot (classify center pt) =? slot q)%nat) pts.

(** Area-fit score as the specification words it: [1 - |ratio - 0.5|] on
    [[0.2, 0.8]], [0.5] on [(0.1, 0.2)], [0] everywhere else. *)
Definition areaFitScore (ratio : R) : R :=
  if (0.2 <=? ratio) && (ratio <=? 0.8) then 1 - Rabs (ratio - 0.5)
  else if (0.1 <? ratio) && (ratio <? 0.2) then 0.5
  else 0.

(** Area-fit score with the second interval open to the right:
    [0.5] for every ratio above [0.1] that is outside [[0.2, 0.8]]. *)
Definition areaFitScore_open (ratio : R) : R :=
  if (0.2 <=? ratio) && (ratio <=? 0.8) then 1 - Rabs (ratio - 0.5)
  else if 0.1 <? ratio then 0.5
  else 0.

(** Minimum of the pairwise corner distances. *)
Definition minPairwiseDistance (corners : list Point2f) : R :=
  match pairDistances corners with
  | [] => 0
  | d :: ds => fold_left Rmin ds d
  end.

Definition frameArea (frame : Size) : R := IZR (width frame * height frame).

Definition cornerSeparationScore (corners : list Point2f) (frame : Size) : R :=
  Rmin 1 (minPairwiseDistance corners / (0.1 * sqrt (frameArea frame))).

(** [0.6 * area-fit + 0.4 * corner-separation], for a given area-fit
    score. *)
Definition confidence (areaFit : R -> R)
    (corners : list Point2f) (frame : Size) : R :=
  0.6 * areaFit (cv.contourArea corners / frameArea frame)
  + 0.4 * cornerSeparationScore corners frame.

(** Sum of [f a .. f b]. *)
Definition sum_range (f : Z -> R) (a b : Z) : R :=
  ImageEnhancer.sum_n (fun i => f (a + Z.of_nat i)%Z) (Z.to_nat (b - a + 1)).

(** The window of half-width [half] centred at [(y, x)], clipped to a
    [rows] x [cols] image: the columns [x1 .. x2] and the rows [y1 .. y2]. *)
Record Window : Type := mkWindow { x1 : Z; x2 : Z; y1 : Z; y2 : Z }.

Definition clippedWindow (rows cols half y x : Z) : Window :=
  mkWindow (Z.max 0 (x - half)) (Z.min (cols - 1) (x + half))
           (Z.max 0 (y - half)) (Z.min (rows - 1) (y + half)).

(** Number of pixels in a window, and the sum of [g] over its pixels. *)
Definition count (w : Window) : R :=
  IZR ((x2 w - x1 w + 1) * (y2 w - y1 w + 1)).

Definition windowSum (img : Mat) (w : Window) (g : R -> R) : R :=
  sum_range
    (fun y => sum_range (fun x => g (IZR (pix img y x 0%Z))) (x1 w) (x2 w))
    (y1 w) (y2 w).

(** Mean and standard deviation of the intensities in a window. *)
Definition windowMean (img : Mat) (w : Window) : R :=
  windowSum img w (fun p => p) / count w.

Definition windowStdDev (img : Mat) (w : Window) : R :=
  sqrt (windowSum img w (fun p => (p - windowMean img w) ^ 2) / count w).

(** Half-width of a window whose size was forced odd. *)
Definition halfWidth (windowSize : Z) : Z :=
  ((if Z.even windowSize then windowSize + 1 else windowSize) / 2)%Z.

(** The Sauvola threshold at pixel [(y, x)]. *)
Definition sauvola (img : Mat) (windowSize : Z) (k R_ : R) (y x : Z) : R :=
  let w := clippedWindow (rows img) (cols img) (halfWidth windowSize) y x in
  windowMean img w * (1 + k * (windowStdDev img w / R_ - 1)).

(** A call on the assessor, and the history after a sequence of calls on
    a fresh assessor. *)
Inductive Call : Type :=
| CheckStability (corners : list Point2f)
| Reset.

Definition step (h : QualityAssessor.History) (c : Call)
    : QualityAssessor.History :=
  match c with
  | CheckStability corners => snd (QualityAssessor.checkStability corners h)
  | Reset => QualityAssessor.reset h
  end.

Definition run (calls : list Call) : QualityAssessor.History :=
  fold_left step calls QualityAssessor.fresh.

(** The scores of successive [checkStability] calls, from history [h]. *)
Fixpoint scores (h : QualityAssessor.History) (inputs : list (list Point2f))
    : list R :=
  match inputs with
  | [] => []
  | corners :: rest =>
      let '(score, h') := QualityAssessor.checkStability corners h in
      score :: scores h' rest
  end.

(** Displacement of [corners] against one retained set: the four corner
    distances; and the mean over all corners of all retained sets. *)
Definition displacement (corners prev : list Point2f) : R :=
  norm (psub (at_ origin corners 0) (at_ origin prev 0))
  + norm (psub (at_ origin corners 1) (at_ origin prev 1))
  + norm (psub (at_ origin corners 2) (at_ origin prev 2))
  + norm (psub (at_ origin corners 3) (at_ origin prev 3)).

Definition avgDisplacement (corners : list Point2f)
    (retained : list (list Point2f)) : R :=
  fold_right (fun prev acc => displacement corners prev + acc) 0 retained
  / INR (4 * List.length retained).

(** The sets retained when call number [n] (from 0) is made after a
    reset: the last five of the first [n] inputs. *)
Definition retained (n : nat) (inputs : list (list Point2f))
    : list (list Point2f) :=
  skipn (n - 5) (firstn n inputs).



End Spec.

(** One inhabitant of the primitives interface, to instantiate the
    theorems at concrete inputs: images pass through unchanged, a warp
    yields a black image of the requested size, nothing is detected. *)
Definition nullPrimitives : ImagePrimitives := {|
  cvtColor := fun _ m => m;
  rotate := fun _ m => m;
  resize := fun _ m => m;
  largestQuadrilateral := fun _ => [];
  laplacianStdDev := fun _ => 0;
  meanIntensity := fun _ => 0;
  detectTextRegions := fun _ => mkTextRegions false [] (mkRect 0 0 0 0) [] 0 0;
  getPerspectiveTransform := fun _ _ => repeat 0 9;
  warpPerspective := fun img _ sz =>
    mkMat (height sz) (width sz) (channels img) (fun _ _ _ => 0%Z);
  applyCLAHE := fun m _ _ => m;
  adjustBrightness := fun m _ => m;
  sharpen := fun m _ => m;
  whitenBackground := fun m _ => m;
  stretchContrast := fun m => m;
  adaptiveBinarize := fun m _ _ => m
|}.

(** Concrete inputs at which the properties below are evaluated. *)
Module Sample.

(** A 100 x 90 rectangle in the corner of a 100 x 100 frame: it covers
    90% of the frame. *)
Definition wide : list Point2f :=
  [mkPoint 0 0; mkPoint 100 0; mkPoint 100 90; mkPoint 0 90].

Definition frame : Size := mkSize 100 100.

(** A 10 x 10 square whose left edge is at [x = k]. *)
Definition shifted (k : R) : list Point2f :=
  [mkPoint k 0; mkPoint (k + 10) 0; mkPoint (k + 10) 10; mkPoint k 10].

(** A trapezoid: top edge 100 wide, bottom edge 80 wide. *)
Definition trapezoid : list Point2f :=
  [mkPoint 0 0; mkPoint 100 0; mkPoint 90 50; mkPoint 10 50].

(** An analysis result of a table seen tilted: bottom edge wider than the
    top edge by 20% of their average. *)
Definition tilted : CaptureEngine.FrameAnalysisResult :=
  CaptureEngine.mkAnalysis true true false (repeat 0 8) 0.9 0.9 0.9 0.9 0.9 true
    true 0.2 90 110 50 50 0.2 0 0%Z (repeat 0 32) (repeat 0 4) 0.

(** An analysis result of a table seen almost straight on: found, but
    not a trapezoid. *)
Definition upright : CaptureEngine.FrameAnalysisResult :=
  CaptureEngine.mkAnalysis true true false (repeat 0 8) 0.9 0.9 0.9 0.9 0.9 true
    false 0.02 100 102 50 50 0.02 0 0%Z (repeat 0 32) (repeat 0 4) 0.

(** One BGR pixel, as a 1 x 1 frame buffer, and four coinciding corners. *)
Definition pixel : list Z := [10; 20; 30]%Z.

Definition coinciding : list R := repeat 0 8.

(** A 2 x 2 single-channel image. *)
Definition gray : Mat :=
  mkMat 2 2 1 (fun y x _ => (100 + 50 * y + 10 * x)%Z).

(** [EnhancementOptions()]: the defaults, perspective correction on. *)
Definition options : CaptureEngine.EnhancementOptions :=
  CaptureEngine.mkOptions false true false false false 0.5
    CaptureEngine.ENHANCE_NONE 0 0.

(** Six successive detections of a square drifting to the right. *)
Definition drift : list (list Point2f) :=
  [shifted 1; shifted 2; shifted 3; shifted 4; shifted 5; shifted 6].

End Sample.

(** ** Further members of the sources *)

(** The pixel loops of [ImageEnhancer] written out. *)
Module Pixels.

(** [ImageEnhancer::whitenBackground], image_enhancer.cpp:127-164: every
    pixel whose grey value is above the threshold becomes white (the one
    channel of a grey image, the three channels of a colour image); the
    other pixels are those of the input. *)
Definition whitenBackground `{ImagePrimitives} (input : Mat) (threshold : Z)
    : Mat :=
  if cv.empty input then input
  else
    let gray :=
      if (channels input =? 1)%Z then input
      else cvtColor cv.COLOR_BGR2GRAY input in
    mkMat (rows input) (cols input) (channels input)
      (fun y x c =>
         if (threshold <? pix gray y x 0)%Z then 255%Z else pix input y x c).

End Pixels.

(** The C entry points of [ffi_bridge.cpp].  A [void*] engine or result
    is an [option]: [None] is the null pointer. *)
Module FFI.

Import CaptureEngine.

(** [static_cast<EnhanceMode>(enhance_mode)]: a value outside [0 .. 4]
    takes the [default] branch of the engine's [switch], as
    [ENHANCE_NONE] does. *)
Definition modeOf (enhance_mode : Z) : EnhanceMode :=
  if (enhance_mode =? 1)%Z then ENHANCE_WHITEN_BG
  else if (enhance_mode =? 2)%Z then ENHANCE_CONTRAST_STRETCH
  else if (enhance_mode =? 3)%Z then ENHANCE_ADAPTIVE_BINARIZE
  else if (enhance_mode =? 4)%Z then ENHANCE_SAUVOLA
  else ENHANCE_NONE.

(** [capture_engine_reset], ffi_bridge.cpp:46-50. *)
Definition capture_engine_reset (engine : option Engine) : option Engine :=
  match engine with
  | Some e => Some (reset e)
  | None => None
  end.

(** The options [enhance_image] builds, ffi_bridge.cpp:174-183. *)
Definition enhanceOptions
    (apply_perspective apply_deskew apply_enhance apply_sharpening : Z)
    (sharpening_strength : R) (enhance_mode output_width output_height : Z)
    : EnhancementOptions :=
  mkOptions (apply_perspective =? 0)%Z (negb (apply_perspective =? 0)%Z)
            (negb (apply_deskew =? 0)%Z) (negb (apply_enhance =? 0)%Z)
            (negb (apply_sharpening =? 0)%Z) sharpening_strength
            (modeOf enhance_mode) output_width output_height.

(** [enhance_image], ffi_bridge.cpp:149-188. *)
Definition enhance_image `{ImagePrimitives}
    (engine : option Engine) (image_data : option (list Z))
    (width height format : Z) (corners : option (list R))
    (apply_perspective apply_deskew apply_enhance apply_sharpening : Z)
    (sharpening_strength : R) (enhance_mode output_width output_height : Z)
    : EnhancementResult :=
  match engine, image_data with
  | Some _, Some _ =>
      enhanceImage image_data width height format corners
        (enhanceOptions apply_perspective apply_deskew apply_enhance
           apply_sharpening sharpening_strength enhance_mode
           output_width output_height)
  | _, _ => failed "Invalid parameters"
  end.

(** [enhance_image_with_guide_frame], ffi_bridge.cpp:192-235. *)
Definition enhance_image_with_guide_frame `{ImagePrimitives}
    (engine : option Engine) (image_data : option (list Z))
    (width height format : Z)
    (guide_left guide_top guide_right guide_bottom : R)
    (apply_sharpening : Z) (sharpening_strength : R)
    (enhance_mode rotation : Z) : EnhancementResult :=
  match engine, image_data with
  | Some e, Some _ =>
      enhanceImageWithGuideFrame e image_data width height format
        guide_left guide_top guide_right guide_bottom
        (mkOptions false false false false (negb (apply_sharpening =? 0)%Z)
                   sharpening_strength (modeOf enhance_mode) 0 0)
        rotation
  | _, _ => failed "Invalid parameters"
  end.

(** [get_enhancement_success] and [get_enhancement_image_data],
    ffi_bridge.cpp:239-248. *)
Definition get_enhancement_success (result : option EnhancementResult) : Z :=
  match result with
  | None => 0
  | Some r => if esuccess r then 1 else 0
  end%Z.

Definition get_enhancement_image_data (result : option EnhancementResult)
    : option (list Z) :=
  match result with
  | None => None
  | Some r => image_data r
  end.

End FFI.

(** Further inputs for the properties of Part III. *)
Module Scene.

(** A 3 x 3 single-channel image of intensity 200 everywhere. *)
Definition flat : Mat := mkMat 3 3 1 (fun _ _ _ => 200%Z).

(** Two text regions. *)
Definition regions : list TextRegion :=
  [mkTextRegion (mkRect 10 20 30 40) 1200; mkTextRegion (mkRect 5 6 7 8) 56].

End Scene.

(* ================================================================== *)
(** * Part II: properties                                              *)
(* ================================================================== *)

(** ** Comparisons, [std::min], [std::max], [std::abs] *)

Lemma ltb_true (a b : R) : (a <? b) = true <-> a < b.
Proof. unfold Num.ltb; destruct (Rlt_dec a b); split; intros; try discriminate; tauto. Qed.

Lemma ltb_false (a b : R) : (a <? b) = false <-> b <= a.
Proof.
  unfold Num.ltb; destruct (Rlt_dec a b); split; intros; try discriminate;
    try reflexivity; lra.
Qed.

Lemma leb_true (a b : R) : (a <=? b) = true <-> a <= b.
Proof. unfold Num.leb; destruct (Rle_dec a b); split; intros; try discriminate; tauto. Qed.

Lemma leb_false (a b : R) : (a <=? b) = false <-> b < a.
Proof.
  unfold Num.leb; destruct (Rle_dec a b); split; intros; try discriminate;
    try reflexivity; lra.
Qed.

(** Decide every comparison in sight and leave linear arithmetic. *)
Ltac cmp :=
  repeat match goal with
  | |- context [Rlt_dec ?a ?b] => destruct (Rlt_dec a b)
  | |- context [Rle_dec ?a ?b] => destruct (Rle_dec a b)
  | H : context [Rlt_dec ?a ?b] |- _ => destruct (Rlt_dec a b)
  | H : context [Rle_dec ?a ?b] |- _ => destruct (Rle_dec a b)
  end.

Ltac unfold_num :=
  unfold Num.std_max, Num.std_min, Num.fabs, Num.ltb, Num.leb in *.

Lemma std_max_Rmax (a b : R) : Num.std_max a b = Rmax a b.
Proof. unfold_num; unfold Rmax; cmp; lra. Qed.

Lemma std_min_Rmin (a b : R) : Num.std_min a b = Rmin a b.
Proof. unfold_num; unfold Rmin; cmp; lra. Qed.

Lemma fabs_Rabs (a : R) : Num.fabs a = Rabs a.
Proof. unfold_num; unfold Rabs; destruct (Rcase_abs a); cmp; lra. Qed.

Lemma norm_nonneg (p : Point2f) : 0 <= norm p.
Proof. apply sqrt_pos. Qed.

(** ** Corner ordering *)

Section OrderCorners.

Import Spec.

Lemma classified_first_seen (a b c d : Point2f) (q : Quadrant) :
  let corners := [a; b; c; d] in
  let '(ordered, assigned) := PerspectiveCorrector.classified corners in
  match firstOf q (centroid corners) corners with
  | Some pt => at_ origin ordered (slot q) = pt
               /\ at_ false assigned (slot q) = true
  | None => at_ false assigned (slot q) = false
  end.
Proof.
  cbv zeta. unfold PerspectiveCorrector.classified, firstOf.
  generalize (centroid [a; b; c; d]) as ctr; intro ctr.
  cbn [fold_left find].
  unfold PerspectiveCorrector.assign.
  destruct (classify ctr a), (classify ctr b), (classify ctr c),
    (classify ctr d), q; cbn; auto.
Qed.

(** Whenever two of the four points share a quadrant,
    [PerspectiveCorrector::orderCorners] hands the input back. *)
Lemma PerspectiveCorrector_orderCorners_fallback (corners : list Point2f) :
  List.length corners = 4%nat -> collision corners ->
  PerspectiveCorrector.orderCorners corners = corners.
Proof.
  intros Hlen (i & j & Hij & Hq).
  destruct corners as [|a [|b [|c [|d [|]]]]]; try discriminate.
  unfold PerspectiveCorrector.orderCorners, PerspectiveCorrector.classified.
  revert Hq. generalize (centroid [a; b; c; d]) as ctr; intros ctr Hq.
  cbn [List.length Nat.eqb negb fold_left].
  unfold PerspectiveCorrector.assign.
  assert (Hcases :
    ((i = 0 /\ j = 1) \/ (i = 0 /\ j = 2) \/ (i = 0 /\ j = 3) \/
     (i = 1 /\ j = 2) \/ (i = 1 /\ j = 3) \/ (i = 2 /\ j = 3))%nat) by lia.
  unfold at_ in Hq.
  destruct Hcases as [H|[H|[H|[H|[H|H]]]]]; destruct H as [-> ->];
    cbn [nth] in Hq;
    destruct (classify ctr a), (classify ctr b), (classify ctr c),
      (classify ctr d); try discriminate Hq; reflexivity.
Qed.

End OrderCorners.

(** Evaluate [classify] at concrete points. *)
Ltac classify_eval :=
  unfold classify, centroid, pscale, padd, origin; cbn [fold_left px py];
  unfold Num.ltb, Num.leb; cmp; try lra; cbn [andb]; try reflexivity.

(** C2 (defect in [DocumentDetector::orderCorners]).  A square standing on
    a corner, [(1,0) (2,1) (1,2) (0,1)], has two points in the bottom-right
    quadrant and none in the top-left one.
    [PerspectiveCorrector::orderCorners] returns this input unchanged, as
    the claim asks; [DocumentDetector::orderCorners] lets the later point
    [(1,2)] overwrite [(2,1)], leaves the default point [(0,0)] in the
    unfilled slot and returns that sequence instead of the input. *)
Theorem orderCorners_diamond :
  let input := [mkPoint 1 0; mkPoint 2 1; mkPoint 1 2; mkPoint 0 1] in
  Spec.collision input /\
  PerspectiveCorrector.orderCorners input = input /\
  DocumentDetector.orderCorners input
    = [mkPoint 0 0; mkPoint 1 0; mkPoint 1 2; mkPoint 0 1] /\
  DocumentDetector.orderCorners input <> input.
Proof.
  cbv zeta.
  assert (Ha : classify (centroid [mkPoint 1 0; mkPoint 2 1; mkPoint 1 2; mkPoint 0 1])
                        (mkPoint 1 0) = TR) by classify_eval.
  assert (Hb : classify (centroid [mkPoint 1 0; mkPoint 2 1; mkPoint 1 2; mkPoint 0 1])
                        (mkPoint 2 1) = BR) by classify_eval.
  assert (Hc : classify (centroid [mkPoint 1 0; mkPoint 2 1; mkPoint 1 2; mkPoint 0 1])
                        (mkPoint 1 2) = BR) by classify_eval.
  assert (Hd : classify (centroid [mkPoint 1 0; mkPoint 2 1; mkPoint 1 2; mkPoint 0 1])
                        (mkPoint 0 1) = BL) by classify_eval.
  assert (Hcol : Spec.collision [mkPoint 1 0; mkPoint 2 1; mkPoint 1 2; mkPoint 0 1]).
  { exists 1%nat, 2%nat. split; [lia|]. unfold at_; cbn [nth].
    rewrite Hb, Hc; reflexivity. }
  assert (Hdd : DocumentDetector.orderCorners
                  [mkPoint 1 0; mkPoint 2 1; mkPoint 1 2; mkPoint 0 1]
                = [mkPoint 0 0; mkPoint 1 0; mkPoint 1 2; mkPoint 0 1]).
  { unfold DocumentDetector.orderCorners.
    cbn [List.length Nat.eqb negb fold_left].
    rewrite Ha, Hb, Hc, Hd. reflexivity. }
  split; [exact Hcol|]. split.
  - apply PerspectiveCorrector_orderCorners_fallback; [reflexivity | exact Hcol].
  - split; [exact Hdd|].
    rewrite Hdd. intro H. injection H as H _; lra.
Qed.

(** ** Detection confidence *)

Section Confidence.

Import DocumentDetector.

Lemma fold_std_min (ds : list R) (m : R) :
  fold_left (fun minDist dist => Num.std_min minDist dist) ds m
  = fold_left Rmin ds m.
Proof.
  revert m; induction ds as [|d ds IH]; intro m; cbn; [reflexivity|].
  rewrite std_min_Rmin; apply IH.
Qed.

Lemma fold_Rmin_init (ds : list R) (a b : R) :
  fold_left Rmin ds (Rmin a b) = Rmin a (fold_left Rmin ds b).
Proof.
  revert b; induction ds as [|d ds IH]; intro b; cbn; [reflexivity|].
  rewrite <- Rmin_assoc; apply IH.
Qed.

Lemma fold_Rmin_lower (ds : list R) (m lo : R) :
  lo <= m -> Forall (fun d => lo <= d) ds -> lo <= fold_left Rmin ds m.
Proof.
  intros Hm H; revert m Hm; induction H as [|d ds Hd _ IH]; intros m Hm; cbn.
  - exact Hm.
  - apply IH. apply Rmin_glb; assumption.
Qed.

Lemma fold_Rmin_upper (ds : list R) (m : R) : fold_left Rmin ds m <= m.
Proof.
  revert m; induction ds as [|d ds IH]; intro m; cbn; [lra|].
  eapply Rle_trans; [apply IH | apply Rmin_l].
Qed.

(** The code against the formula with the right-open second interval. *)
Lemma calculateConfidence_refines (corners : list Point2f) (frame : Size) :
  List.length corners = 4%nat ->
  Spec.minPairwiseDistance corners <= FLT_MAX ->
  calculateConfidence corners frame
  = Spec.confidence Spec.areaFitScore_open corners frame.
Proof.
  intros Hlen Hmax.
  unfold calculateConfidence, Spec.confidence, Spec.cornerSeparationScore,
    Spec.areaFitScore_open, Spec.frameArea.
  rewrite Hlen; cbn [Nat.eqb negb].
  rewrite fold_std_min, std_min_Rmin, fabs_Rabs.
  unfold Spec.minPairwiseDistance in *.
  assert (E : exists d ds, pairDistances corners = d :: ds)
    by (unfold pairDistances; eauto).
  destruct E as (d & ds & E); rewrite E in *.
  cbn [fold_left]. rewrite fold_Rmin_init, (Rmin_right _ _ Hmax).
  rewrite (Rmult_comm (sqrt _) 0.1).
  ring.
Qed.

End Confidence.

(** C3 (amended).  For a 4-corner quadrilateral whose corner distances are
    [float] values (at most [FLT_MAX]) in a frame of positive width and
    height whose pixel count fits an [int], the confidence is
    [0.6 * area-fit + 0.4 * corner-separation] where the area-fit score is
    [1 - |ratio - 0.5|] for a ratio in [[0.2, 0.8]], [0.5] for every other
    ratio above [0.1] (so also above [0.8]) and [0] otherwise, and the
    corner-separation score is
    [min(1, minimum pairwise distance / (0.1 * sqrt(frame area)))]. *)
Theorem calculateConfidence_formula (corners : list Point2f) (frame : Size) :
  List.length corners = 4%nat ->
  Spec.minPairwiseDistance corners <= FLT_MAX ->
  (0 < width frame)%Z -> (0 < height frame)%Z ->
  (width frame * height frame < 2 ^ 31)%Z ->
  DocumentDetector.calculateConfidence corners frame
  = 0.6 * Spec.areaFitScore_open (cv.contourArea corners / Spec.frameArea frame)
    + 0.4 * Rmin 1 (Spec.minPairwiseDistance corners
                    / (0.1 * sqrt (Spec.frameArea frame))).
Proof.
  intros Hlen Hmax _ _ _. apply calculateConfidence_refines; assumption.
Qed.

(** *** The confidence of a quadrilateral covering 90% of the frame *)

Lemma sqrt_eq (x y : R) : 0 <= y -> x = y * y -> sqrt x = y.
Proof. intros Hy ->; apply sqrt_square, Hy. Qed.

Lemma sqrt_lower (x y : R) : 0 <= y -> y * y <= x -> y <= sqrt x.
Proof.
  intros Hy H. rewrite <- (sqrt_square y Hy). apply sqrt_le_1_alt, H.
Qed.

Lemma FLT_MAX_large : 1000 <= FLT_MAX.
Proof.
  unfold FLT_MAX.
  assert (H23 : 1 <= 2 ^ 23) by (apply pow_R1_Rle; lra).
  assert (Hinv : / 2 ^ 23 <= 1).
  { rewrite <- Rinv_1. apply Rinv_le_contravar; lra. }
  assert (H127 : 2 ^ 10 <= 2 ^ 127) by (apply Rle_pow; [lra | lia]).
  assert (H10 : 2 ^ 10 = 1024) by (simpl; lra).
  nra.
Qed.

Lemma wide_area : cv.contourArea Sample.wide / Spec.frameArea Sample.frame = 0.9.
Proof.
  unfold cv.contourArea, Sample.wide, Spec.frameArea, Sample.frame.
  cbn [last cv.cross_sum px py width height].
  replace ((0 * 0 - 90 * 0 + (0 * 0 - 0 * 100 +
            (100 * 90 - 0 * 100 + (100 * 90 - 90 * 0 + 0)))) * 0.5)
    with 9000 by lra.
  rewrite Rabs_pos_eq by lra.
  change (IZR (100 * 100)) with 10000. lra.
Qed.

Lemma wide_distances :
  Forall (fun d => 10 <= d) (DocumentDetector.pairDistances Sample.wide).
Proof.
  unfold DocumentDetector.pairDistances, Sample.wide, at_, norm, psub.
  cbn [nth px py].
  repeat (apply Forall_cons; [apply sqrt_lower; lra|]); apply Forall_nil.
Qed.

Lemma wide_min_lower : 10 <= Spec.minPairwiseDistance Sample.wide.
Proof.
  pose proof wide_distances as H.
  unfold Spec.minPairwiseDistance, DocumentDetector.pairDistances in *.
  inversion H; subst. apply fold_Rmin_lower; assumption.
Qed.

Lemma wide_min_upper : Spec.minPairwiseDistance Sample.wide <= FLT_MAX.
Proof.
  unfold Spec.minPairwiseDistance, DocumentDetector.pairDistances.
  eapply Rle_trans; [apply fold_Rmin_upper|].
  unfold Sample.wide, at_, norm, psub; cbn [nth px py].
  rewrite (sqrt_eq _ 100) by lra.
  pose proof FLT_MAX_large; lra.
Qed.

Lemma wide_separation :
  Spec.cornerSeparationScore Sample.wide Sample.frame = 1.
Proof.
  unfold Spec.cornerSeparationScore, Spec.frameArea, Sample.frame.
  cbn [width height]. change (IZR (100 * 100)) with 10000.
  rewrite (sqrt_eq 10000 100) by lra.
  pose proof wide_min_lower as H.
  apply Rmin_left.
  apply (Rmult_le_reg_r (0.1 * 100)); [lra|].
  unfold Rdiv. rewrite Rmult_assoc, Rinv_l by lra. lra.
Qed.

(** C3 (counterexample).  On the 100 x 90 rectangle in a 100 x 100 frame
    the ratio is [0.9]: the code scores the area [0.5] and returns [0.7],
    the formula of the claim scores it [0] and gives [0.4]. *)
Lemma calculateConfidence_above_80_percent :
  DocumentDetector.calculateConfidence Sample.wide Sample.frame = 0.7 /\
  Spec.confidence Spec.areaFitScore Sample.wide Sample.frame = 0.4 /\
  DocumentDetector.calculateConfidence Sample.wide Sample.frame
  <> Spec.confidence Spec.areaFitScore Sample.wide Sample.frame.
Proof.
  assert (Hcode :
    DocumentDetector.calculateConfidence Sample.wide Sample.frame = 0.7).
  { rewrite calculateConfidence_refines;
      [| reflexivity | apply wide_min_upper].
    unfold Spec.confidence. rewrite wide_area, wide_separation.
    unfold Spec.areaFitScore_open, Num.ltb, Num.leb; cmp; try lra;
      cbn [andb]; lra. }
  assert (Hspec :
    Spec.confidence Spec.areaFitScore Sample.wide Sample.frame = 0.4).
  { unfold Spec.confidence. rewrite wide_area, wide_separation.
    unfold Spec.areaFitScore, Num.ltb, Num.leb; cmp; try lra;
      cbn [andb]; lra. }
  rewrite Hcode, Hspec. repeat split; lra.
Qed.

(** The formula of C3 at the same quadrilateral. *)
Lemma calculateConfidence_formula_witness :
  List.length Sample.wide = 4%nat /\
  Spec.minPairwiseDistance Sample.wide <= FLT_MAX /\
  (0 < width Sample.frame)%Z /\ (0 < height Sample.frame)%Z /\
  (width Sample.frame * height Sample.frame < 2 ^ 31)%Z /\
  DocumentDetector.calculateConfidence Sample.wide Sample.frame
  = 0.6 * Spec.areaFitScore_open
            (cv.contourArea Sample.wide / Spec.frameArea Sample.frame)
    + 0.4 * Rmin 1 (Spec.minPairwiseDistance Sample.wide
                    / (0.1 * sqrt (Spec.frameArea Sample.frame))).
Proof.
  split; [reflexivity|]. split; [apply wide_min_upper|].
  split; [reflexivity|]. split; [reflexivity|]. split; [reflexivity|].
  apply (calculateConfidence_formula Sample.wide Sample.frame);
    [reflexivity | apply wide_min_upper
     | reflexivity | reflexivity | reflexivity].
Defined.

(** ** Stability history *)

Section Stability.

Import QualityAssessor.

Lemma checkStability_warmup (corners : list Point2f) (h : History) :
  List.length corners = 4%nat -> (List.length h < 3)%nat ->
  checkStability corners h = (0, h ++ [corners]).
Proof.
  intros Hc Hh. unfold checkStability.
  rewrite Hc; cbn [Nat.eqb negb].
  apply Nat.ltb_lt in Hh; rewrite Hh. reflexivity.
Qed.

Lemma checkStability_length (corners : list Point2f) (h : History) :
  (List.length h <= 5)%nat ->
  (List.length (snd (checkStability corners h)) <= 5)%nat.
Proof.
  intro Hh. unfold checkStability.
  destruct (negb _); [exact Hh|].
  destruct (Nat.ltb_spec (List.length h) 3) as [H3|H3]; cbn [snd].
  - rewrite length_app; cbn; lia.
  - destruct (fold_left _ _ _) as [total comparisons]; cbn [snd].
    unfold MAX_HISTORY.
    destruct (Nat.ltb_spec 5 (List.length (h ++ [corners]))) as [H5|H5].
    + assert (Hl : List.length (h ++ [corners]) = S (List.length h))
        by (rewrite length_app; cbn; lia).
      destruct (h ++ [corners]) as [|x rest]; cbn in *; lia.
    + exact H5.
Qed.

Lemma run_length (calls : list Spec.Call) (h : History) :
  (List.length h <= 5)%nat ->
  (List.length (fold_left Spec.step calls h) <= 5)%nat.
Proof.
  revert h; induction calls as [|c calls IH]; intros h Hh; cbn; [exact Hh|].
  apply IH. destruct c; cbn.
  - apply checkStability_length, Hh.
  - lia.
Qed.

(** The loop over the history adds the displacement against each retained
    set and counts four comparisons for it. *)
Lemma accumulate_all (corners : list Point2f) (h : History) (total : R) (n : Z) :
  Forall (fun prev => List.length prev = 4%nat) h ->
  fold_left (accumulate corners) h (total, n)
  = (total + fold_right (fun prev acc => Spec.displacement corners prev + acc) 0 h,
     (n + 4 * Z.of_nat (List.length h))%Z).
Proof.
  intro H; revert total n; induction H as [|prev h Hp _ IH]; intros total n.
  - cbn. f_equal; [lra | lia].
  - cbn [fold_left fold_right List.length].
    unfold accumulate at 2. rewrite Hp; cbn [Nat.eqb negb seq fold_left].
    rewrite IH. unfold Spec.displacement. f_equal; [lra | lia].
Qed.

Lemma displacement_nonneg (corners prev : list Point2f) :
  0 <= Spec.displacement corners prev.
Proof.
  unfold Spec.displacement.
  pose proof (norm_nonneg (psub (at_ origin corners 0) (at_ origin prev 0))).
  pose proof (norm_nonneg (psub (at_ origin corners 1) (at_ origin prev 1))).
  pose proof (norm_nonneg (psub (at_ origin corners 2) (at_ origin prev 2))).
  pose proof (norm_nonneg (psub (at_ origin corners 3) (at_ origin prev 3))).
  lra.
Qed.

Lemma avgDisplacement_nonneg (corners : list Point2f) (h : History) :
  0 <= Spec.avgDisplacement corners h.
Proof.
  unfold Spec.avgDisplacement.
  assert (Hs : 0 <= fold_right
                      (fun prev acc => Spec.displacement corners prev + acc) 0 h).
  { induction h as [|prev h IH]; cbn; [lra|].
    pose proof (displacement_nonneg corners prev); lra. }
  destruct h as [|prev h]; [cbn; lra|].
  apply Rmult_le_pos; [exact Hs|].
  left; apply Rinv_0_lt_compat. apply lt_0_INR. cbn; lia.
Qed.

(** Past warm-up: the score is the mapped mean displacement, and the
    history is pushed with FIFO eviction beyond five. *)
Lemma checkStability_steady (corners : list Point2f) (h : History) :
  List.length corners = 4%nat -> (3 <= List.length h)%nat ->
  Forall (fun prev => List.length prev = 4%nat) h ->
  checkStability corners h
  = (Rmax 0 (1 - Spec.avgDisplacement corners h / 20),
     if (5 <? List.length (h ++ [corners]))%nat
     then tl (h ++ [corners]) else h ++ [corners]).
Proof.
  intros Hc Hh Hall. unfold checkStability.
  rewrite Hc; cbn [Nat.eqb negb].
  destruct (Nat.ltb_spec (List.length h) 3) as [H3|_]; [lia|].
  rewrite (accumulate_all corners h 0 0%Z Hall).
  assert (Hpos : (0 <? 0 + 4 * Z.of_nat (List.length h))%Z = true)
    by (apply Z.ltb_lt; lia).
  rewrite Hpos, std_max_Rmax. unfold MAX_HISTORY, Spec.avgDisplacement.
  f_equal. f_equal. f_equal. f_equal.
  rewrite Rplus_0_l. f_equal.
  rewrite Z.add_0_l, INR_IZR_INZ. f_equal. lia.
Qed.

Lemma checkStability_range (corners : list Point2f) (h : History) :
  Forall (fun prev => List.length prev = 4%nat) h ->
  0 <= fst (checkStability corners h) <= 1.
Proof.
  intro Hall.
  destruct (Nat.eq_dec (List.length corners) 4) as [Hc|Hc].
  - destruct (Nat.lt_ge_cases (List.length h) 3) as [H3|H3].
    + rewrite checkStability_warmup by assumption. cbn; lra.
    + rewrite checkStability_steady by assumption. cbn [fst].
      pose proof (avgDisplacement_nonneg corners h).
      unfold Rmax; destruct (Rle_dec 0 _); lra.
  - unfold checkStability. apply Nat.eqb_neq in Hc; rewrite Hc. cbn; lra.
Qed.

Lemma checkStability_keeps_4 (corners : list Point2f) (h : History) :
  Forall (fun prev => List.length prev = 4%nat) h ->
  Forall (fun prev => List.length prev = 4%nat) (snd (checkStability corners h)).
Proof.
  intro Hall. unfold checkStability.
  destruct (Nat.eqb_spec (List.length corners) 4) as [Hc|Hc]; cbn [negb];
    [|exact Hall].
  assert (Hpush : Forall (fun prev => List.length prev = 4%nat) (h ++ [corners]))
    by (apply Forall_app; split; [exact Hall | repeat constructor; exact Hc]).
  destruct (List.length h <? 3)%nat; [exact Hpush|].
  destruct (fold_left _ _ _) as [total comparisons]; cbn [snd].
  destruct (MAX_HISTORY <? _)%nat; [|exact Hpush].
  destruct (h ++ [corners]); [constructor|].
  inversion Hpush; assumption.
Qed.

End Stability.

Section StabilityTrace.

Import QualityAssessor.

Let four := fun prev : list Point2f => List.length prev = 4%nat.

Lemma firstn_snoc {A : Type} (d : A) (l : list A) (n : nat) :
  (n < List.length l)%nat -> firstn (S n) l = firstn n l ++ [nth n l d].
Proof.
  revert n; induction l as [|a l IH]; intros n Hn; cbn in Hn; [lia|].
  destruct n as [|n]; [reflexivity|].
  cbn [firstn nth app]. f_equal. apply IH; lia.
Qed.

Lemma tl_skipn {A : Type} (l : list A) (k : nat) :
  tl (skipn k l) = skipn (S k) l.
Proof.
  revert l; induction k as [|k IH]; intro l.
  - destruct l; reflexivity.
  - destruct l as [|a l]; [reflexivity|]. cbn [skipn]. rewrite IH.
    destruct l; reflexivity.
Qed.

Lemma In_firstn {A : Type} (x : A) (l : list A) (n : nat) :
  In x (firstn n l) -> In x l.
Proof.
  intro H. rewrite <- (firstn_skipn n l). apply in_or_app; left; exact H.
Qed.

Lemma In_skipn {A : Type} (x : A) (l : list A) (n : nat) :
  In x (skipn n l) -> In x l.
Proof.
  intro H. rewrite <- (firstn_skipn n l). apply in_or_app; right; exact H.
Qed.

Lemma retained_length (n : nat) (inputs : list (list Point2f)) :
  (n <= List.length inputs)%nat ->
  List.length (Spec.retained n inputs) = Nat.min n 5.
Proof.
  intro Hn. unfold Spec.retained.
  rewrite length_skipn, length_firstn. lia.
Qed.

Lemma retained_four (n : nat) (inputs : list (list Point2f)) :
  Forall four inputs -> Forall four (Spec.retained n inputs).
Proof.
  intro H. rewrite Forall_forall in *. intros x Hx. apply H.
  unfold Spec.retained in Hx.
  eapply In_firstn, In_skipn, Hx.
Qed.

(** The history when call number [n] is made after a reset. *)
Lemma history_retained (inputs : list (list Point2f)) (n : nat) :
  Forall four inputs -> (n <= List.length inputs)%nat ->
  fold_left Spec.step (map Spec.CheckStability (firstn n inputs)) []
  = Spec.retained n inputs.
Proof.
  intros Hall. induction n as [|n IH]; intro Hn; [reflexivity|].
  rewrite (firstn_snoc [] inputs n) by lia.
  rewrite map_app, fold_left_app, IH by lia.
  cbn [map fold_left Spec.step].
  assert (Hx : List.length (nth n inputs []) = 4%nat).
  { rewrite Forall_forall in Hall. apply Hall, nth_In. lia. }
  pose proof (retained_length n inputs ltac:(lia)) as Hlen.
  destruct (Nat.lt_ge_cases n 3) as [H3|H3].
  - rewrite checkStability_warmup by (try assumption; lia). cbn [snd].
    unfold Spec.retained.
    replace (n - 5)%nat with 0%nat by lia.
    replace (S n - 5)%nat with 0%nat by lia.
    cbn [skipn]. rewrite (firstn_snoc [] inputs n) by lia. reflexivity.
  - rewrite checkStability_steady
      by (try assumption; try lia; apply retained_four, Hall).
    cbn [snd]. rewrite length_app, Hlen. cbn [List.length].
    unfold Spec.retained at 3. rewrite (firstn_snoc [] inputs n) by lia.
    destruct (Nat.ltb_spec 5 (Nat.min n 5 + 1)) as [H5|H5].
    + unfold Spec.retained.
      replace (S n - 5)%nat with (S (n - 5)) by lia.
      rewrite <- tl_skipn, skipn_app.
      replace (n - 5 - List.length (firstn n inputs))%nat with 0%nat
        by (rewrite length_firstn; lia).
      reflexivity.
    + unfold Spec.retained.
      replace (n - 5)%nat with 0%nat by lia.
      replace (S n - 5)%nat with 0%nat by lia.
      reflexivity.
Qed.

Lemma scores_nth (inputs : list (list Point2f)) (h : History) (n : nat) :
  (n < List.length inputs)%nat ->
  nth n (Spec.scores h inputs) 0
  = fst (checkStability (nth n inputs [])
           (fold_left Spec.step (map Spec.CheckStability (firstn n inputs)) h)).
Proof.
  revert h n; induction inputs as [|c rest IH]; intros h n Hn; cbn in Hn; [lia|].
  cbn [Spec.scores].
  destruct (checkStability c h) as [s h'] eqn:E.
  destruct n as [|n]; cbn [nth firstn map fold_left].
  - rewrite E; reflexivity.
  - rewrite IH by lia. cbn [Spec.step]. rewrite E; reflexivity.
Qed.

End StabilityTrace.

(** C5.  After any sequence of [checkStability] and [reset] calls on a
    fresh assessor the history holds at most 5 entries; and after six
    [checkStability] calls with distinct 4-point inputs the history is the
    last five inputs in order of arrival: the first one was evicted, the
    five most recent are retained. *)
Theorem corner_history_bounded_fifo :
  (forall calls : list Spec.Call, (List.length (Spec.run calls) <= 5)%nat) /\
  (forall c1 c2 c3 c4 c5 c6 : list Point2f,
     Forall (fun c => List.length c = 4%nat) [c1; c2; c3; c4; c5; c6] ->
     NoDup [c1; c2; c3; c4; c5; c6] ->
     let h := Spec.run (map Spec.CheckStability [c1; c2; c3; c4; c5; c6]) in
     h = [c2; c3; c4; c5; c6] /\
     ~ In c1 h /\
     (forall c, In c [c2; c3; c4; c5; c6] -> In c h)).
Proof.
  split.
  - intro calls. unfold Spec.run. apply run_length. cbn; lia.
  - intros c1 c2 c3 c4 c5 c6 Hall Hnd h.
    assert (Hh : h = [c2; c3; c4; c5; c6]).
    { unfold h, Spec.run, QualityAssessor.fresh.
      change [c1; c2; c3; c4; c5; c6]
        with (firstn 6 [c1; c2; c3; c4; c5; c6]) at 1.
      rewrite history_retained; [reflexivity | exact Hall | cbn; lia]. }
    rewrite Hh. split; [reflexivity|]. split.
    + inversion Hnd; assumption.
    + intros c Hc; exact Hc.
Qed.

Lemma shifted_inj (a b : R) : Sample.shifted a = Sample.shifted b -> a = b.
Proof. unfold Sample.shifted; intro H; injection H; intros; assumption. Qed.

Lemma drift_four : Forall (fun c => List.length c = 4%nat) Sample.drift.
Proof. repeat constructor. Qed.

Lemma drift_distinct : NoDup Sample.drift.
Proof.
  unfold Sample.drift.
  repeat (apply NoDup_cons;
          [ cbn [In]; intro H;
            repeat (destruct H as [H|H]; [apply shifted_inj in H; lra|]);
            exact H
          | ]).
  apply NoDup_nil.
Qed.

(** The six drifting squares: the first is evicted. *)
Lemma corner_history_fifo_witness :
  Forall (fun c => List.length c = 4%nat) Sample.drift /\
  NoDup Sample.drift /\
  Spec.run (map Spec.CheckStability Sample.drift)
  = [Sample.shifted 2; Sample.shifted 3; Sample.shifted 4;
     Sample.shifted 5; Sample.shifted 6].
Proof.
  split; [exact drift_four|]. split; [exact drift_distinct|].
  exact (proj1 (proj2 corner_history_bounded_fifo
                  (Sample.shifted 1) (Sample.shifted 2) (Sample.shifted 3)
                  (Sample.shifted 4) (Sample.shifted 5) (Sample.shifted 6)
                  drift_four drift_distinct)).
Defined.

(** The third call after a reset is still answered [0]: only two samples
    are retained when it is made. *)
Lemma checkStability_third_call (h0 : QualityAssessor.History)
    (inputs : list (list Point2f)) :
  Forall (fun c => List.length c = 4%nat) inputs ->
  (2 < List.length inputs)%nat ->
  nth 2 (Spec.scores (QualityAssessor.reset h0) inputs) 0 = 0.
Proof.
  intros Hall Hn. unfold QualityAssessor.reset.
  rewrite scores_nth, history_retained by (try assumption; lia).
  rewrite checkStability_warmup; [reflexivity | |].
  - rewrite Forall_forall in Hall. apply Hall, nth_In; lia.
  - rewrite retained_length by lia. cbn; lia.
Qed.

(** C6.  After a reset, with 4-point inputs: the first two calls return
    exactly [0]; every call returns a value in [[0, 1]]; and every call
    made once warm-up is over, that is with at least three retained
    samples (the fourth call onward), returns
    [max(0, 1 - avgDisplacement / 20)] for the mean corner displacement
    against all the retained sets. *)
Theorem checkStability_after_reset (h0 : QualityAssessor.History)
    (inputs : list (list Point2f)) (n : nat) :
  Forall (fun c => List.length c = 4%nat) inputs ->
  (n < List.length inputs)%nat ->
  let s := nth n (Spec.scores (QualityAssessor.reset h0) inputs) 0 in
  ((n < 2)%nat -> s = 0) /\
  0 <= s <= 1 /\
  ((3 <= n)%nat ->
   s = Rmax 0 (1 - Spec.avgDisplacement (nth n inputs [])
                                         (Spec.retained n inputs) / 20)).
Proof.
  intros Hall Hn s. unfold s, QualityAssessor.reset.
  rewrite scores_nth, history_retained by (try assumption; lia).
  assert (Hx : List.length (nth n inputs []) = 4%nat).
  { rewrite Forall_forall in Hall. apply Hall, nth_In; lia. }
  pose proof (retained_length n inputs ltac:(lia)) as Hlen.
  split; [|split].
  - intro H2. rewrite checkStability_warmup; [reflexivity | exact Hx | lia].
  - apply checkStability_range, retained_four, Hall.
  - intro H3. rewrite checkStability_steady;
      [reflexivity | exact Hx | lia | apply retained_four, Hall].
Qed.

(** The fourth call on the drifting squares. *)
Lemma checkStability_after_reset_witness :
  let s := nth 3 (Spec.scores (QualityAssessor.reset []) Sample.drift) 0 in
  Forall (fun c => List.length c = 4%nat) Sample.drift /\
  (3 < List.length Sample.drift)%nat /\
  0 <= s <= 1 /\
  s = Rmax 0 (1 - Spec.avgDisplacement (Sample.shifted 4)
                     [Sample.shifted 1; Sample.shifted 2; Sample.shifted 3] / 20).
Proof.
  pose proof (checkStability_after_reset [] Sample.drift 3 drift_four
                ltac:(cbn; lia)) as H.
  cbv zeta in *. destruct H as (_ & Hr & Hf).
  split; [exact drift_four|]. split; [cbn; lia|].
  split; [exact Hr | exact (Hf (le_n 3))].
Defined.

(** The drifting squares move by one pixel per frame: against the three
    retained sets the fourth detection is displaced by 3, 2 and 1 pixels,
    2 on average, and scores [1 - 2/20]. *)
Lemma displacement_shifted (a b : R) :
  b <= a -> Spec.displacement (Sample.shifted a) (Sample.shifted b) = 4 * (a - b).
Proof.
  intro H. unfold Spec.displacement, Sample.shifted, at_, norm, psub.
  cbn [nth px py].
  rewrite !(sqrt_eq _ (a - b)) by (try lra; ring). lra.
Qed.

Lemma checkStability_drift_fourth :
  nth 3 (Spec.scores (QualityAssessor.reset []) Sample.drift) 0 = 0.9.
Proof.
  unfold QualityAssessor.reset.
  rewrite scores_nth, history_retained by (try exact drift_four; cbn; lia).
  rewrite checkStability_steady;
    [| reflexivity | cbn; lia | repeat constructor].
  cbn [fst]. unfold Spec.avgDisplacement, Spec.retained, Sample.drift.
  cbn [firstn skipn Nat.sub nth fold_right List.length Nat.mul Nat.add].
  rewrite !displacement_shifted by lra.
  replace (INR 12) with 12 by (simpl; lra).
  rewrite Rmax_right; lra.
Qed.

(** ** Skew metrics *)

Section Skew.

Import CaptureEngine.

Lemma edge_nonneg (a b : Point2f) : 0 <= edge a b.
Proof. apply sqrt_pos. Qed.

Lemma edge_scale (k : R) (a b : Point2f) :
  0 <= k -> edge (pscale k a) (pscale k b) = k * edge a b.
Proof.
  intro Hk. unfold edge, pscale; cbn [px py].
  replace ((k * px a - k * px b) ^ 2 + (k * py a - k * py b) ^ 2)
    with ((k * k) * ((px a - px b) ^ 2 + (py a - py b) ^ 2)) by ring.
  rewrite sqrt_mult;
    [| apply Rmult_le_pos; exact Hk
     | apply Rplus_le_le_0_compat; apply pow2_ge_0].
  rewrite sqrt_square by exact Hk. reflexivity.
Qed.

(** One skew component: scaling both opposite edges leaves it as it is. *)
Lemma skew_component_scale (k p q : R) :
  0 < k -> 0 <= p -> 0 <= q ->
  (if (k * p + k * q) / 2 >? 0
   then Num.fabs (k * p - k * q) / ((k * p + k * q) / 2) else 0)
  = (if (p + q) / 2 >? 0 then Num.fabs (p - q) / ((p + q) / 2) else 0).
Proof.
  intros Hk Hp Hq. rewrite !fabs_Rabs.
  replace (k * p - k * q) with (k * (p - q)) by ring.
  rewrite Rabs_mult, (Rabs_pos_eq k) by lra.
  unfold Num.ltb; cmp; try reflexivity; try (exfalso; nra).
  field; repeat split; lra.
Qed.

End Skew.

(** C7.  The skew metrics of an ordered corner set do not change when all
    four corners are scaled by the same [k > 0]: [vertical_skew],
    [horizontal_skew], [skew_ratio] and [is_trapezoid] are the same; where
    the average width (height) is not zero the vertical (horizontal) skew
    is [|top - bottom| / avg(top, bottom)] ([|left - right| /
    avg(left, right)]); [skew_ratio] is the larger of the two and
    [is_trapezoid] holds exactly when [skew_ratio > 0.05]. *)
Theorem skew_scale_invariant (c0 c1 c2 c3 : Point2f) (k : R) :
  0 < k ->
  let m := CaptureEngine.trapezoidMetrics [c0; c1; c2; c3] in
  let m' := CaptureEngine.trapezoidMetrics (map (pscale k) [c0; c1; c2; c3]) in
  let top := CaptureEngine.m_top_width m in
  let bottom := CaptureEngine.m_bottom_width m in
  let left := CaptureEngine.m_left_height m in
  let right := CaptureEngine.m_right_height m in
  CaptureEngine.m_vertical_skew m' = CaptureEngine.m_vertical_skew m /\
  CaptureEngine.m_horizontal_skew m' = CaptureEngine.m_horizontal_skew m /\
  CaptureEngine.m_skew_ratio m' = CaptureEngine.m_skew_ratio m /\
  CaptureEngine.m_is_trapezoid m' = CaptureEngine.m_is_trapezoid m /\
  ((top + bottom) / 2 <> 0 ->
   CaptureEngine.m_vertical_skew m = Rabs (top - bottom) / ((top + bottom) / 2)) /\
  ((left + right) / 2 <> 0 ->
   CaptureEngine.m_horizontal_skew m = Rabs (left - right) / ((left + right) / 2)) /\
  CaptureEngine.m_skew_ratio m
  = Rmax (CaptureEngine.m_vertical_skew m) (CaptureEngine.m_horizontal_skew m) /\
  (CaptureEngine.m_is_trapezoid m = true <-> CaptureEngine.m_skew_ratio m > 0.05).
Proof.
  intros Hk m m' top bottom left right.
  subst top bottom left right m m'.
  set (c := [c0; c1; c2; c3]).
  assert (Hv : CaptureEngine.m_vertical_skew
                 (CaptureEngine.trapezoidMetrics (map (pscale k) c))
               = CaptureEngine.m_vertical_skew (CaptureEngine.trapezoidMetrics c)).
  { unfold c, CaptureEngine.trapezoidMetrics, at_.
    cbn [map nth CaptureEngine.m_vertical_skew].
    rewrite !edge_scale by lra.
    apply skew_component_scale; [exact Hk | apply edge_nonneg | apply edge_nonneg]. }
  assert (Hh : CaptureEngine.m_horizontal_skew
                 (CaptureEngine.trapezoidMetrics (map (pscale k) c))
               = CaptureEngine.m_horizontal_skew (CaptureEngine.trapezoidMetrics c)).
  { unfold c, CaptureEngine.trapezoidMetrics, at_.
    cbn [map nth CaptureEngine.m_horizontal_skew].
    rewrite !edge_scale by lra.
    apply skew_component_scale; [exact Hk | apply edge_nonneg | apply edge_nonneg]. }
  assert (Hr : forall x, CaptureEngine.m_skew_ratio (CaptureEngine.trapezoidMetrics x)
               = Num.std_max
                   (CaptureEngine.m_vertical_skew (CaptureEngine.trapezoidMetrics x))
                   (CaptureEngine.m_horizontal_skew (CaptureEngine.trapezoidMetrics x)))
    by reflexivity.
  assert (Ht : forall x, CaptureEngine.m_is_trapezoid (CaptureEngine.trapezoidMetrics x)
               = (CaptureEngine.m_skew_ratio (CaptureEngine.trapezoidMetrics x) >? 0.05))
    by reflexivity.
  assert (Hratio : CaptureEngine.m_skew_ratio
                     (CaptureEngine.trapezoidMetrics (map (pscale k) c))
                   = CaptureEngine.m_skew_ratio (CaptureEngine.trapezoidMetrics c)).
  { rewrite !Hr, Hv, Hh. reflexivity. }
  repeat split.
  - exact Hv.
  - exact Hh.
  - exact Hratio.
  - rewrite !Ht, Hratio. reflexivity.
  - pose proof (edge_nonneg c1 c0). pose proof (edge_nonneg c2 c3).
    unfold c, CaptureEngine.trapezoidMetrics, at_.
    cbn [nth CaptureEngine.m_vertical_skew CaptureEngine.m_top_width
         CaptureEngine.m_bottom_width].
    intro Havg. rewrite fabs_Rabs. unfold Num.ltb; cmp;
      [reflexivity | exfalso; apply Havg; lra].
  - pose proof (edge_nonneg c3 c0). pose proof (edge_nonneg c2 c1).
    unfold c, CaptureEngine.trapezoidMetrics, at_.
    cbn [nth CaptureEngine.m_horizontal_skew CaptureEngine.m_left_height
         CaptureEngine.m_right_height].
    intro Havg. rewrite fabs_Rabs. unfold Num.ltb; cmp;
      [reflexivity | exfalso; apply Havg; lra].
  - rewrite Hr. apply std_max_Rmax.
  - rewrite Ht. intro H; apply ltb_true in H; lra.
  - rewrite Ht. intro H; apply ltb_true; lra.
Qed.

(** The skew of a trapezoid and of the same trapezoid twice as large. *)
Lemma skew_scale_invariant_witness :
  0 < 2 /\
  CaptureEngine.m_vertical_skew
    (CaptureEngine.trapezoidMetrics (map (pscale 2) Sample.trapezoid))
  = CaptureEngine.m_vertical_skew (CaptureEngine.trapezoidMetrics Sample.trapezoid).
Proof.
  split; [lra|].
  exact (proj1 (skew_scale_invariant
                  (mkPoint 0 0) (mkPoint 100 0) (mkPoint 90 50) (mkPoint 10 50)
                  2 ltac:(lra))).
Defined.

(** ** The capture engine *)

Section Engine.

Import CaptureEngine.
Context `{P : ImagePrimitives}.

(** The guide rectangle as [calculateVirtualTrapezoid] lays it out. *)
Lemma virtual_trapezoid_cases (e : Engine) (l t r b : R) :
  calculateVirtualTrapezoid e l t r b = [l; t; r; t; r; b; l; b]
  \/ (table_found (last_analysis_ e) = true
      /\ is_trapezoid (last_analysis_ e) = true).
Proof.
  unfold calculateVirtualTrapezoid.
  destruct (table_found (last_analysis_ e)), (is_trapezoid (last_analysis_ e));
    cbn [andb]; auto.
Qed.

(** [reset] touches the history only. *)
Lemma reset_last_analysis (e : Engine) :
  last_analysis_ (reset e) = last_analysis_ e.
Proof. reflexivity. Qed.

(** The guide-frame routines read nothing of the engine but
    [last_analysis_]. *)
Lemma guide_frame_reads_last_analysis (e e' : Engine)
    (image_data : option (list Z)) (width height format : Z)
    (l t r b : R) (options : EnhancementOptions) (rotation : Z) :
  last_analysis_ e' = last_analysis_ e ->
  calculateVirtualTrapezoid e' l t r b = calculateVirtualTrapezoid e l t r b /\
  enhanceImageWithGuideFrame e' image_data width height format l t r b
                             options rotation
  = enhanceImageWithGuideFrame e image_data width height format l t r b
                               options rotation.
Proof.
  intro H.
  assert (Hv : forall l t r b,
             calculateVirtualTrapezoid e' l t r b
             = calculateVirtualTrapezoid e l t r b)
    by (intros; unfold calculateVirtualTrapezoid; rewrite H; reflexivity).
  split; [apply Hv|].
  unfold enhanceImageWithGuideFrame. rewrite H, Hv. reflexivity.
Qed.

Lemma analyzeFrame_rejects (image_data : option (list Z))
    (width height format rotation crop_x crop_y crop_w crop_h : Z) (e : Engine) :
  image_data = None \/ (width <= 0)%Z \/ (height <= 0)%Z ->
  analyzeFrame image_data width height format rotation
               crop_x crop_y crop_w crop_h e = (noAnalysis, e).
Proof.
  intro H. unfold analyzeFrame.
  destruct image_data as [data|]; [|reflexivity].
  destruct H as [H|H]; [discriminate|].
  assert (Hb : ((width <=? 0) || (height <=? 0))%Z = true).
  { apply orb_true_iff. destruct H; [left | right]; apply Z.leb_le; assumption. }
  rewrite Hb. reflexivity.
Qed.

End Engine.

(** C8.  When the stored analysis does not have both [table_found] and
    [is_trapezoid] set, [calculateVirtualTrapezoid] writes the guide
    rectangle's corners TL, TR, BR, BL as they are; so the output differs
    from them only when both flags are set. *)
Theorem virtual_trapezoid_rectangle (e : CaptureEngine.Engine) (l t r b : R) :
  (~ (CaptureEngine.table_found (CaptureEngine.last_analysis_ e) = true
      /\ CaptureEngine.is_trapezoid (CaptureEngine.last_analysis_ e) = true) ->
   CaptureEngine.calculateVirtualTrapezoid e l t r b = [l; t; r; t; r; b; l; b])
  /\
  (CaptureEngine.calculateVirtualTrapezoid e l t r b <> [l; t; r; t; r; b; l; b] ->
   CaptureEngine.table_found (CaptureEngine.last_analysis_ e) = true
   /\ CaptureEngine.is_trapezoid (CaptureEngine.last_analysis_ e) = true).
Proof.
  destruct (virtual_trapezoid_cases e l t r b) as [H|H]; split; intro H';
    solve [assumption | contradiction].
Qed.

(** A table that was found but is not a trapezoid: the guide
    [(10, 20) - (110, 70)] comes back unchanged. *)
Lemma virtual_trapezoid_rectangle_witness :
  let e := CaptureEngine.mkEngine [] Sample.upright in
  ~ (CaptureEngine.table_found (CaptureEngine.last_analysis_ e) = true
     /\ CaptureEngine.is_trapezoid (CaptureEngine.last_analysis_ e) = true) /\
  CaptureEngine.calculateVirtualTrapezoid e 10 20 110 70
  = [10; 20; 110; 20; 110; 70; 10; 70].
Proof.
  cbv zeta.
  assert (H : ~ (CaptureEngine.table_found
                   (CaptureEngine.last_analysis_
                      (CaptureEngine.mkEngine [] Sample.upright)) = true
                 /\ CaptureEngine.is_trapezoid
                      (CaptureEngine.last_analysis_
                         (CaptureEngine.mkEngine [] Sample.upright)) = true))
    by (intros [_ H]; discriminate H).
  split; [exact H|].
  exact (proj1 (virtual_trapezoid_rectangle
                  (CaptureEngine.mkEngine [] Sample.upright) 10 20 110 70) H).
Defined.

(** With both flags set the corners do move: a table whose bottom edge is
    wider pulls the top corners of the guide inward. *)
Lemma virtual_trapezoid_tilted :
  CaptureEngine.calculateVirtualTrapezoid
    (CaptureEngine.mkEngine [] Sample.tilted) 0 0 100 50
  = [10; 0; 90; 0; 100; 50; 0; 50].
Proof.
  unfold CaptureEngine.calculateVirtualTrapezoid, Sample.tilted.
  cbn [CaptureEngine.last_analysis_ CaptureEngine.table_found
       CaptureEngine.is_trapezoid CaptureEngine.vertical_skew
       CaptureEngine.horizontal_skew CaptureEngine.top_width
       CaptureEngine.bottom_width CaptureEngine.left_height
       CaptureEngine.right_height andb].
  unfold Num.fabs, Num.ltb; cmp; try lra.
  repeat (f_equal; try lra).
Qed.

(** C10.  [CaptureEngine::reset] empties the stability history and leaves
    [last_analysis_] as it was: after a reset [getLastAnalysis], the
    virtual trapezoid and a guide-frame enhance call give what they gave
    before it, so that the analysis stored by the last accepted
    [analyzeFrame] call is still observed; and an [analyzeFrame] call that
    rejects its input (null buffer, non-positive width or height) leaves
    the engine, [last_analysis_] included, unchanged. *)
Theorem reset_keeps_last_analysis `{P : ImagePrimitives}
    (e : CaptureEngine.Engine) (image_data : option (list Z))
    (width height format rotation crop_x crop_y crop_w crop_h : Z)
    (l t r b : R) (options : CaptureEngine.EnhancementOptions) :
  let analyzed :=
    CaptureEngine.analyzeFrame image_data width height format rotation
                               crop_x crop_y crop_w crop_h e in
  CaptureEngine.assessor_ (CaptureEngine.reset e) = [] /\
  CaptureEngine.last_analysis_ (CaptureEngine.reset e)
  = CaptureEngine.last_analysis_ e /\
  CaptureEngine.getLastAnalysis (CaptureEngine.reset e)
  = CaptureEngine.getLastAnalysis e /\
  CaptureEngine.calculateVirtualTrapezoid (CaptureEngine.reset e) l t r b
  = CaptureEngine.calculateVirtualTrapezoid e l t r b /\
  CaptureEngine.enhanceImageWithGuideFrame (CaptureEngine.reset e)
    image_data width height format l t r b options rotation
  = CaptureEngine.enhanceImageWithGuideFrame e
      image_data width height format l t r b options rotation /\
  CaptureEngine.getLastAnalysis (CaptureEngine.reset (snd analyzed))
  = match CaptureEngine.preparedFrame image_data width height format rotation
                                      crop_x crop_y crop_w crop_h with
    | Some _ => fst analyzed
    | None => CaptureEngine.getLastAnalysis e
    end /\
  (image_data = None \/ (width <= 0)%Z \/ (height <= 0)%Z ->
   analyzed = (CaptureEngine.noAnalysis, e)).
Proof.
  intro analyzed.
  split; [reflexivity|]. split; [reflexivity|]. split; [reflexivity|].
  split.
  { exact (proj1 (guide_frame_reads_last_analysis e (CaptureEngine.reset e)
                    image_data width height format l t r b options rotation
                    eq_refl)). }
  split.
  { exact (proj2 (guide_frame_reads_last_analysis e (CaptureEngine.reset e)
                    image_data width height format l t r b options rotation
                    eq_refl)). }
  split; [|apply analyzeFrame_rejects].
  unfold analyzed, CaptureEngine.analyzeFrame, CaptureEngine.preparedFrame,
    CaptureEngine.getLastAnalysis, CaptureEngine.reset.
  destruct image_data as [data|]; [|reflexivity].
  destruct ((width <=? 0)%Z || (height <=? 0)%Z); [reflexivity|].
  destruct (cv.empty _); [reflexivity|].
  destruct (DocumentDetector.found _ && _).
  - destruct (QualityAssessor.assess _ _ _ _); reflexivity.
  - destruct (trs_found _); [|reflexivity].
    destruct (List.length (overallCorners _) =? 4)%nat; [|reflexivity].
    destruct (QualityAssessor.assess _ _ _ _); reflexivity.
Qed.

(** A call with a null buffer on an engine that holds the tilted table. *)
Lemma reset_keeps_last_analysis_witness :
  let e := CaptureEngine.mkEngine [Sample.shifted 1] Sample.tilted in
  (@None (list Z) = None \/ (640 <= 0)%Z \/ (480 <= 0)%Z) /\
  @CaptureEngine.analyzeFrame nullPrimitives
    None 640 480 1 0 0 0 0 0 e = (CaptureEngine.noAnalysis, e).
Proof.
  cbv zeta.
  assert (H : @None (list Z) = None \/ (640 <= 0)%Z \/ (480 <= 0)%Z)
    by (left; reflexivity).
  split; [exact H|].
  exact (proj2 (proj2 (proj2 (proj2 (proj2 (proj2
           (@reset_keeps_last_analysis nullPrimitives
              (CaptureEngine.mkEngine [Sample.shifted 1] Sample.tilted)
              None 640 480 1 0 0 0 0 0 0 0 100 50 Sample.options)))))) H).
Defined.

(** C1.  In the result of [analyzeFrame], [table_found] is set exactly when
    a 4-corner quadrilateral was found; then [capture_ready] holds if and
    only if [blur_score > 0.6], [brightness_score > 0.5] and
    [stability_score > 0.8]; on every other path (the text-region
    fallback) it holds if and only if [blur_score > 0.6],
    [brightness_score > 0.5] and [stability_score > 0.9]. *)
Theorem analyzeFrame_capture_ready `{P : ImagePrimitives}
    (image_data : option (list Z))
    (width height format rotation crop_x crop_y crop_w crop_h : Z)
    (e : CaptureEngine.Engine) :
  let result :=
    fst (CaptureEngine.analyzeFrame image_data width height format rotation
                                    crop_x crop_y crop_w crop_h e) in
  let quadrilateral :=
    CaptureEngine.quadrilateralFound
      (CaptureEngine.preparedFrame image_data width height format rotation
                                   crop_x crop_y crop_w crop_h) in
  CaptureEngine.table_found result = quadrilateral /\
  (CaptureEngine.capture_ready result = true <->
   CaptureEngine.blur_score result > 0.6 /\
   CaptureEngine.brightness_score result > 0.5 /\
   CaptureEngine.stability_score result
   > (if quadrilateral then 0.8 else 0.9)).
Proof.
  assert (Hnone :
    CaptureEngine.capture_ready CaptureEngine.noAnalysis = true <->
    CaptureEngine.blur_score CaptureEngine.noAnalysis > 0.6 /\
    CaptureEngine.brightness_score CaptureEngine.noAnalysis > 0.5 /\
    CaptureEngine.stability_score CaptureEngine.noAnalysis > 0.9).
  { cbn. split; [discriminate | intros (H & _); lra]. }
  assert (Hready : forall blur brightness stability gate : R,
    (blur >? 0.6) && (brightness >? 0.5) && (stability >? gate) = true <->
    blur > 0.6 /\ brightness > 0.5 /\ stability > gate).
  { intros. rewrite !andb_true_iff, !ltb_true. unfold Rgt. tauto. }
  cbv zeta.
  unfold CaptureEngine.analyzeFrame, CaptureEngine.preparedFrame,
    CaptureEngine.quadrilateralFound.
  destruct image_data as [data|]; [|split; [reflexivity | exact Hnone]].
  destruct ((width <=? 0)%Z || (height <=? 0)%Z);
    [split; [reflexivity | exact Hnone]|].
  destruct (cv.empty _); [split; [reflexivity | exact Hnone]|].
  destruct (DocumentDetector.found _ && _).
  - destruct (QualityAssessor.assess _ _ _ _) as [quality history].
    cbn [fst CaptureEngine.table_found CaptureEngine.capture_ready
         CaptureEngine.blur_score CaptureEngine.brightness_score
         CaptureEngine.stability_score].
    split; [reflexivity | apply Hready].
  - destruct (trs_found _).
    + destruct (List.length (overallCorners _) =? 4)%nat;
        [destruct (QualityAssessor.assess _ _ _ _) as [quality history]|];
        cbn [fst CaptureEngine.table_found CaptureEngine.capture_ready
             CaptureEngine.blur_score CaptureEngine.brightness_score
             CaptureEngine.stability_score];
        (split; [reflexivity | apply Hready]).
    + cbn [fst CaptureEngine.table_found CaptureEngine.capture_ready
           CaptureEngine.blur_score CaptureEngine.brightness_score
           CaptureEngine.stability_score].
      split; [reflexivity | apply Hready].
Qed.

(** ** Rectification failure in [enhanceImage] *)

Section Rectification.

Import CaptureEngine PerspectiveCorrector.
Context `{P : ImagePrimitives}.


Lemma failed_result (msg : string) :
  msg <> ""%string ->
  esuccess (failed msg) = false /\ image_data (failed msg) = None
  /\ error_message (failed msg) <> ""%string.
Proof. intro H; cbn; auto. Qed.



End Rectification.





(** ** Sauvola binarization *)

Section Sums.

Import ImageEnhancer.

Lemma sum_n_ext (f g : nat -> R) (n : nat) :
  (forall i, (i < n)%nat -> f i = g i) -> sum_n f n = sum_n g n.
Proof.
  induction n as [|n IH]; intro H; cbn; [reflexivity|].
  rewrite IH, (H n) by auto with arith. reflexivity.
Qed.

Lemma sum_n_split (f : nat -> R) (a b : nat) :
  sum_n f (a + b) = sum_n f a + sum_n (fun i => f (a + i)%nat) b.
Proof.
  induction b as [|b IH]; cbn.
  - rewrite Nat.add_0_r; lra.
  - rewrite Nat.add_succ_r; cbn. rewrite IH; lra.
Qed.

Lemma sum_n_affine (f g : nat -> R) (k c : R) (n : nat) :
  sum_n (fun i => f i + k * g i + c) n
  = sum_n f n + k * sum_n g n + INR n * c.
Proof.
  induction n as [|n IH]; [cbn; lra|].
  cbn [sum_n]. rewrite IH, S_INR. lra.
Qed.

Lemma sum_n_minus (f g : nat -> R) (n : nat) :
  sum_n (fun i => f i - g i) n = sum_n f n - sum_n g n.
Proof. induction n as [|n IH]; cbn; [lra | rewrite IH; lra]. Qed.

Lemma sum_n_nonneg (f : nat -> R) (n : nat) :
  (forall i, 0 <= f i) -> 0 <= sum_n f n.
Proof.
  intro H; induction n as [|n IH]; cbn; [lra|]. pose proof (H n); lra.
Qed.

(** A difference of two prefix sums is the sum over the range between. *)
Lemma sum_below_range (f : Z -> R) (a b : Z) :
  (0 <= a <= b + 1)%Z ->
  sum_below f (b + 1) - sum_below f a = Spec.sum_range f a b.
Proof.
  intro H. unfold sum_below, Spec.sum_range.
  replace (Z.to_nat (b + 1)) with (Z.to_nat a + Z.to_nat (b - a + 1))%nat by lia.
  rewrite sum_n_split.
  rewrite (sum_n_ext (fun i => f (Z.of_nat (Z.to_nat a + i)))
                     (fun i => f (a + Z.of_nat i)%Z)).
  - lra.
  - intros i _. f_equal. lia.
Qed.

Lemma sum_range_ext (f g : Z -> R) (a b : Z) :
  (forall i, (a <= i <= b)%Z -> f i = g i) ->
  Spec.sum_range f a b = Spec.sum_range g a b.
Proof.
  intro H. unfold Spec.sum_range. apply sum_n_ext.
  intros i Hi. apply H. lia.
Qed.

Lemma sum_range_minus (f g : Z -> R) (a b : Z) :
  Spec.sum_range (fun i => f i - g i) a b
  = Spec.sum_range f a b - Spec.sum_range g a b.
Proof. unfold Spec.sum_range. apply sum_n_minus. Qed.

(** Four entries of the integral image give the sum over a rectangle. *)
Lemma integral_rectangle (src : Z -> Z -> R) (x1 x2 y1 y2 : Z) :
  (0 <= x1 <= x2 + 1)%Z -> (0 <= y1 <= y2 + 1)%Z ->
  integral src (y2 + 1) (x2 + 1) - integral src y1 (x2 + 1)
  - integral src (y2 + 1) x1 + integral src y1 x1
  = Spec.sum_range (fun y => Spec.sum_range (fun x => src y x) x1 x2) y1 y2.
Proof.
  intros Hx Hy. unfold integral.
  transitivity
    (Spec.sum_range (fun y => sum_below (fun x => src y x) (x2 + 1)) y1 y2
     - Spec.sum_range (fun y => sum_below (fun x => src y x) x1) y1 y2).
  - rewrite <- !sum_below_range by exact Hy. lra.
  - rewrite <- sum_range_minus. apply sum_range_ext.
    intros y _. apply sum_below_range, Hx.
Qed.

(** The sum of squared deviations from any [m], by the sums of the values
    and of their squares. *)
Lemma sum_range_deviation (f : Z -> Z -> R) (m : R) (x1 x2 y1 y2 : Z) :
  (x1 <= x2 + 1)%Z -> (y1 <= y2 + 1)%Z ->
  Spec.sum_range (fun y => Spec.sum_range (fun x => (f y x - m) ^ 2) x1 x2) y1 y2
  = Spec.sum_range (fun y => Spec.sum_range (fun x => f y x * f y x) x1 x2) y1 y2
    - 2 * m * Spec.sum_range (fun y => Spec.sum_range (fun x => f y x) x1 x2) y1 y2
    + IZR ((x2 - x1 + 1) * (y2 - y1 + 1)) * (m * m).
Proof.
  intros Hx Hy. unfold Spec.sum_range.
  rewrite (sum_n_ext _
    (fun j =>
       sum_n (fun i => f (y1 + Z.of_nat j)%Z (x1 + Z.of_nat i)%Z
                       * f (y1 + Z.of_nat j)%Z (x1 + Z.of_nat i)%Z)
             (Z.to_nat (x2 - x1 + 1))
       + (- 2 * m) * sum_n (fun i => f (y1 + Z.of_nat j)%Z (x1 + Z.of_nat i)%Z)
                           (Z.to_nat (x2 - x1 + 1))
       + INR (Z.to_nat (x2 - x1 + 1)) * (m * m))).
  - rewrite sum_n_affine, mult_IZR, !INR_IZR_INZ, !Z2Nat.id by lia. lra.
  - intros j _. rewrite <- sum_n_affine. apply sum_n_ext. intros i _. ring.
Qed.

Lemma sum_range_nonneg (f : Z -> R) (a b : Z) :
  (forall i, 0 <= f i) -> 0 <= Spec.sum_range f a b.
Proof. intro H. unfold Spec.sum_range. apply sum_n_nonneg. intro; apply H. Qed.

End Sums.

Section Sauvola.

Import ImageEnhancer.

Lemma zmax_max (a b : Z) : Num.zmax a b = Z.max a b.
Proof. unfold Num.zmax; destruct (Z.ltb_spec a b); lia. Qed.

Lemma zmin_min (a b : Z) : Num.zmin a b = Z.min a b.
Proof. unfold Num.zmin; destruct (Z.ltb_spec b a); lia. Qed.

(** The half-window the code computes with [%] and [/] on [int]. *)
Lemma halfWindow_halfWidth (windowSize : Z) :
  (0 <= windowSize)%Z ->
  Z.quot (if (Z.rem windowSize 2 =? 0)%Z then windowSize + 1 else windowSize) 2
  = Spec.halfWidth windowSize
  /\ (0 <= Spec.halfWidth windowSize)%Z.
Proof.
  intro H. unfold Spec.halfWidth.
  rewrite Z.rem_mod_nonneg by lia.
  assert (He : Z.even windowSize = (windowSize mod 2 =? 0)%Z).
  { rewrite Zeven_mod. reflexivity. }
  rewrite He.
  destruct (Z.eqb_spec (windowSize mod 2) 0) as [E|E];
    (split; [rewrite Z.quot_div_nonneg by lia; reflexivity|]);
    Z.div_mod_to_equations; lia.
Qed.

(** The threshold of the loop body is the Sauvola threshold over the
    clipped window: the four-entry differences of the two integral images
    are the window sums, and the clamped variance is the mean squared
    deviation. *)
Lemma sauvolaThreshold_spec (img : Mat) (windowSize : Z) (k R_ : R) (y x : Z) :
  (0 <= windowSize)%Z -> (0 <= y < rows img)%Z -> (0 <= x < cols img)%Z ->
  sauvolaThreshold img
    (Z.quot (if (Z.rem windowSize 2 =? 0)%Z then windowSize + 1 else windowSize) 2)
    k R_ y x
  = Spec.sauvola img windowSize k R_ y x.
Proof.
  intros Hw Hy Hx.
  destruct (halfWindow_halfWidth windowSize Hw) as [-> Hhalf].
  unfold sauvolaThreshold, window, Spec.sauvola, Spec.windowStdDev,
    Spec.windowMean, Spec.windowSum, Spec.count, Spec.clippedWindow.
  rewrite !zmax_max, !zmin_min.
  cbn [Spec.x1 Spec.x2 Spec.y1 Spec.y2].
  set (half := Spec.halfWidth windowSize) in *.
  set (x1 := Z.max 0 (x - half)). set (x2 := Z.min (cols img - 1) (x + half)).
  set (y1 := Z.max 0 (y - half)). set (y2 := Z.min (rows img - 1) (y + half)).
  assert (Hx12 : (0 <= x1 <= x2)%Z) by (unfold x1, x2; lia).
  assert (Hy12 : (0 <= y1 <= y2)%Z) by (unfold y1, y2; lia).
  unfold integralSq.
  rewrite !integral_rectangle by lia.
  set (S := Spec.sum_range
              (fun y => Spec.sum_range (fun x => IZR (pix img y x 0%Z)) x1 x2)
              y1 y2).
  set (Q := Spec.sum_range
              (fun y => Spec.sum_range
                          (fun x => IZR (pix img y x 0%Z) * IZR (pix img y x 0%Z))
                          x1 x2) y1 y2).
  set (n := IZR ((x2 - x1 + 1) * (y2 - y1 + 1))).
  assert (Hn : 0 < n).
  { unfold n. apply IZR_lt. nia. }
  assert (Hdev :
    Spec.sum_range
      (fun y => Spec.sum_range (fun x => (IZR (pix img y x 0%Z) - S / n) ^ 2) x1 x2)
      y1 y2
    = Q - 2 * (S / n) * S + n * (S / n * (S / n))).
  { unfold Q, S at 3, n at 3.
    apply (sum_range_deviation (fun y x => IZR (pix img y x 0%Z))); lia. }
  assert (Hpos :
    0 <= Spec.sum_range
           (fun y => Spec.sum_range
                       (fun x => (IZR (pix img y x 0%Z) - S / n) ^ 2) x1 x2)
           y1 y2).
  { apply sum_range_nonneg; intro. apply sum_range_nonneg; intro.
    apply pow2_ge_0. }
  rewrite Hdev in *.
  assert (Hvar : Q / n - S / n * (S / n)
                 = (Q - 2 * (S / n) * S + n * (S / n * (S / n))) / n)
    by (field; lra).
  rewrite Hvar, std_max_Rmax, Rmax_right; [reflexivity|].
  apply Rmult_le_pos; [exact Hpos | left; apply Rinv_0_lt_compat, Hn].
Qed.

End Sauvola.

(** C4.  On a single-channel image of fewer than [2^30] pixels, for a
    window size in [[0, 2^30)] and a range [R] other than 0 (so that the
    window bounds and area fit an [int] and [stddev / R] is a number):
    each pixel of the output, in each of its three channels, is
    the foreground value 255 exactly when the pixel's intensity exceeds
    [mean * (1 + k * (stddev / R - 1))], and the background value 0
    otherwise, where mean and stddev are the mean and the standard
    deviation of the intensities over the window of the (odd-forced) size
    centred at the pixel and clipped to the image; the output has the
    size of the input and holds no other value. *)
Theorem sauvolaBinarize_threshold `{P : ImagePrimitives}
    (input : Mat) (windowSize : Z) (k R_ : R) (y x c : Z) :
  channels input = 1%Z -> (0 <= windowSize < 2 ^ 30)%Z ->
  (rows input * cols input < 2 ^ 30)%Z -> R_ <> 0 ->
  (0 <= y < rows input)%Z -> (0 <= x < cols input)%Z -> (0 <= c < 3)%Z ->
  let out := ImageEnhancer.sauvolaBinarize input windowSize k R_ in
  let threshold := Spec.sauvola input windowSize k R_ y x in
  (pix out y x c = 255%Z <-> IZR (pix input y x 0%Z) > threshold) /\
  (pix out y x c = 0%Z <-> IZR (pix input y x 0%Z) <= threshold) /\
  (pix out y x c = 0%Z \/ pix out y x c = 255%Z) /\
  rows out = rows input /\ cols out = cols input /\ channels out = 3%Z.
Proof.
  intros Hch [Hw _] _ _ Hy Hx Hc out threshold.
  assert (Hout :
    out = cv.gray2bgr
            (mkMat (rows input) (cols input) 1
               (fun y x _ =>
                  if IZR (pix input y x 0%Z)
                     >? ImageEnhancer.sauvolaThreshold input
                          (Z.quot (if (Z.rem windowSize 2 =? 0)%Z
                                   then windowSize + 1 else windowSize) 2)
                          k R_ y x
                  then 255%Z else 0%Z))).
  { unfold out, ImageEnhancer.sauvolaBinarize, cv.empty.
    destruct (Z.leb_spec (rows input) 0); [lia|].
    destruct (Z.leb_spec (cols input) 0); [lia|].
    cbn [orb]. rewrite Hch. reflexivity. }
  rewrite Hout. unfold cv.gray2bgr. cbn [pix rows cols channels].
  rewrite sauvolaThreshold_spec by assumption. fold threshold.
  unfold Num.ltb. destruct (Rlt_dec threshold (IZR (pix input y x 0%Z))).
  - repeat split; auto; try discriminate; try lra.
  - repeat split; auto; try discriminate; try lra.
Qed.

(** The top-left pixel of a 2 x 2 image under the engine's parameters. *)
Lemma sauvolaBinarize_threshold_witness :
  let out := @ImageEnhancer.sauvolaBinarize nullPrimitives Sample.gray 15 0.2 128 in
  channels Sample.gray = 1%Z /\ (0 <= 15 < 2 ^ 30)%Z /\
  (rows Sample.gray * cols Sample.gray < 2 ^ 30)%Z /\ 128 <> 0 /\
  (0 <= 0 < rows Sample.gray)%Z /\ (0 <= 0 < cols Sample.gray)%Z /\
  (0 <= 0 < 3)%Z /\
  (pix out 0 0 0 = 255%Z
   <-> IZR (pix Sample.gray 0 0 0) > Spec.sauvola Sample.gray 15 0.2 128 0 0).
Proof.
  cbv zeta.
  assert (H1 : channels Sample.gray = 1%Z) by reflexivity.
  assert (H2 : (0 <= 15 < 2 ^ 30)%Z) by lia.
  assert (Hn : (rows Sample.gray * cols Sample.gray < 2 ^ 30)%Z)
    by (cbn; lia).
  assert (HR : 128 <> 0) by lra.
  assert (H3 : (0 <= 0 < rows Sample.gray)%Z) by (cbn; lia).
  assert (H4 : (0 <= 0 < cols Sample.gray)%Z) by (cbn; lia).
  assert (H5 : (0 <= 0 < 3)%Z) by lia.
  repeat (split; [assumption|]).
  exact (proj1 (@sauvolaBinarize_threshold nullPrimitives
                  Sample.gray 15 0.2 128 0 0 0 H1 H2 Hn HR H3 H4 H5)).
Defined.

(* ================================================================== *)
(** * Part III: further properties of the code                         *)
(* ================================================================== *)

(** ** Corner ordering *)

(** A permutation of at most four named elements. *)
Ltac perm_solve :=
  repeat first
    [ apply Permutation_refl
    | apply perm_skip
    | match goal with
      | |- Permutation (?x :: ?l) (?y :: ?x :: ?r) =>
          change (Permutation (x :: l) ([y] ++ x :: r));
          apply Permutation_cons_app; cbn [app]
      | |- Permutation (?x :: ?l) (?y :: ?z :: ?x :: ?r) =>
          change (Permutation (x :: l) ([y; z] ++ x :: r));
          apply Permutation_cons_app; cbn [app]
      | |- Permutation (?x :: ?l) (?y :: ?z :: ?w :: ?x :: ?r) =>
          change (Permutation (x :: l) ([y; z; w] ++ x :: r));
          apply Permutation_cons_app; cbn [app]
      end ].

(** Exhibit two points of the same quadrant among four classified ones. *)
Ltac find_collision :=
  unfold Spec.collision, at_;
  first
    [ exists 0%nat, 1%nat; split; [lia | cbn [nth]; congruence]
    | exists 0%nat, 2%nat; split; [lia | cbn [nth]; congruence]
    | exists 0%nat, 3%nat; split; [lia | cbn [nth]; congruence]
    | exists 1%nat, 2%nat; split; [lia | cbn [nth]; congruence]
    | exists 1%nat, 3%nat; split; [lia | cbn [nth]; congruence]
    | exists 2%nat, 3%nat; split; [lia | cbn [nth]; congruence] ].

(** Case analysis on the quadrants of four points around their centroid. *)
Ltac quadrants a b c d :=
  destruct (classify (centroid [a; b; c; d]) a) eqn:?Ha;
  destruct (classify (centroid [a; b; c; d]) b) eqn:?Hb;
  destruct (classify (centroid [a; b; c; d]) c) eqn:?Hc;
  destruct (classify (centroid [a; b; c; d]) d) eqn:?Hd.

Lemma orderCorners_perm (corners : list Point2f) :
  Permutation (PerspectiveCorrector.orderCorners corners) corners.
Proof.
  unfold PerspectiveCorrector.orderCorners, PerspectiveCorrector.classified.
  destruct corners as [|a [|b [|c [|d [|e rest]]]]];
    cbn [List.length Nat.eqb negb]; try apply Permutation_refl.
  cbn [fold_left]. unfold PerspectiveCorrector.assign.
  quadrants a b c d; cbn; perm_solve.
Qed.

(** X1.  [PerspectiveCorrector::orderCorners] returns a permutation of its
    input, whatever the input: no corner is dropped, repeated or
    invented. *)
Theorem PerspectiveCorrector_orderCorners_permutation
    (corners : list Point2f) :
  Permutation (PerspectiveCorrector.orderCorners corners) corners.
Proof. apply orderCorners_perm. Qed.

(** X2.  When the four points fall into four different quadrants around
    their centroid, [PerspectiveCorrector::orderCorners] puts each point
    into the slot of its quadrant: TL, TR, BR, BL in this order. *)
Theorem PerspectiveCorrector_orderCorners_slots
    (corners : list Point2f) (q : Quadrant) :
  List.length corners = 4%nat -> ~ Spec.collision corners ->
  classify (centroid corners)
           (at_ origin (PerspectiveCorrector.orderCorners corners) (slot q))
  = q.
Proof.
  intros Hlen Hnc.
  destruct corners as [|a [|b [|c [|d [|e rest]]]]]; try discriminate Hlen.
  unfold PerspectiveCorrector.orderCorners, PerspectiveCorrector.classified.
  cbn [List.length Nat.eqb negb fold_left].
  unfold PerspectiveCorrector.assign.
  quadrants a b c d;
    try (exfalso; apply Hnc; find_collision);
    destruct q; cbn; assumption.
Qed.

(** X3.  On such an input the two implementations agree:
    [DocumentDetector::orderCorners] returns what
    [PerspectiveCorrector::orderCorners] returns. *)
Theorem orderCorners_agree (corners : list Point2f) :
  List.length corners = 4%nat -> ~ Spec.collision corners ->
  DocumentDetector.orderCorners corners
  = PerspectiveCorrector.orderCorners corners.
Proof.
  intros Hlen Hnc.
  destruct corners as [|a [|b [|c [|d [|e rest]]]]]; try discriminate Hlen.
  unfold DocumentDetector.orderCorners, PerspectiveCorrector.orderCorners,
    PerspectiveCorrector.classified.
  cbn [List.length Nat.eqb negb fold_left].
  unfold PerspectiveCorrector.assign.
  quadrants a b c d;
    try (exfalso; apply Hnc; find_collision);
    reflexivity.
Qed.

Lemma centroid_eq (l l' : list Point2f) :
  fold_left padd l origin = fold_left padd l' origin -> centroid l = centroid l'.
Proof. unfold centroid; intros ->; reflexivity. Qed.

(** The centroid of four points listed in another order. *)
Ltac same_centroid :=
  apply centroid_eq; unfold padd, origin; cbn [fold_left px py];
  f_equal; lra.

(** X4.  [PerspectiveCorrector::orderCorners] is idempotent: ordering its
    own output gives that output again. *)
Theorem PerspectiveCorrector_orderCorners_idempotent
    (corners : list Point2f) :
  PerspectiveCorrector.orderCorners
    (PerspectiveCorrector.orderCorners corners)
  = PerspectiveCorrector.orderCorners corners.
Proof.
  destruct corners as [|a [|b [|c [|d [|e rest]]]]]; try reflexivity.
  remember (PerspectiveCorrector.orderCorners [a; b; c; d]) as r eqn:Er.
  unfold PerspectiveCorrector.orderCorners, PerspectiveCorrector.classified in Er.
  cbn [List.length Nat.eqb negb fold_left] in Er.
  unfold PerspectiveCorrector.assign in Er.
  quadrants a b c d; cbn in Er; subst r;
    first
      [ apply PerspectiveCorrector_orderCorners_fallback;
        [reflexivity | find_collision]
      | unfold PerspectiveCorrector.orderCorners,
          PerspectiveCorrector.classified;
        cbn [List.length Nat.eqb negb fold_left];
        match goal with
        | |- context [centroid ?l] =>
            replace (centroid l) with (centroid [a; b; c; d])
              by same_centroid
        end;
        unfold PerspectiveCorrector.assign;
        rewrite ?Ha, ?Hb, ?Hc, ?Hd; reflexivity ].
Qed.

Lemma wide_quadrants :
  classify (centroid Sample.wide) (mkPoint 0 0) = TL /\
  classify (centroid Sample.wide) (mkPoint 100 0) = TR /\
  classify (centroid Sample.wide) (mkPoint 100 90) = BR /\
  classify (centroid Sample.wide) (mkPoint 0 90) = BL.
Proof. unfold Sample.wide. repeat split; classify_eval. Qed.

Lemma wide_no_collision : ~ Spec.collision Sample.wide.
Proof.
  destruct wide_quadrants as (Ha & Hb & Hc & Hd).
  intros (i & j & Hij & H). unfold at_ in H.
  assert (Hcases :
    ((i = 0 /\ j = 1) \/ (i = 0 /\ j = 2) \/ (i = 0 /\ j = 3) \/
     (i = 1 /\ j = 2) \/ (i = 1 /\ j = 3) \/ (i = 2 /\ j = 3))%nat) by lia.
  destruct Hcases as [E|[E|[E|[E|[E|E]]]]]; destruct E as [-> ->];
    cbn [nth Sample.wide] in H; congruence.
Qed.

(** The 100 x 90 rectangle: its first output corner is the top-left one. *)
Lemma PerspectiveCorrector_orderCorners_slots_witness :
  List.length Sample.wide = 4%nat /\ ~ Spec.collision Sample.wide /\
  classify (centroid Sample.wide)
           (at_ origin (PerspectiveCorrector.orderCorners Sample.wide) (slot TL))
  = TL.
Proof.
  split; [reflexivity|]. split; [exact wide_no_collision|].
  exact (PerspectiveCorrector_orderCorners_slots Sample.wide TL
           eq_refl wide_no_collision).
Defined.

Lemma orderCorners_agree_witness :
  List.length Sample.wide = 4%nat /\ ~ Spec.collision Sample.wide /\
  DocumentDetector.orderCorners Sample.wide
  = PerspectiveCorrector.orderCorners Sample.wide.
Proof.
  split; [reflexivity|]. split; [exact wide_no_collision|].
  exact (orderCorners_agree Sample.wide eq_refl wide_no_collision).
Defined.

(** ** Detection *)

Lemma store_length {A : Type} (v : list A) (i : nat) (x : A) :
  List.length (store v i x) = List.length v.
Proof.
  revert i; induction v as [|h t IH]; intro i; [reflexivity|].
  destruct i; cbn; [reflexivity | rewrite IH; reflexivity].
Qed.

Lemma DocumentDetector_orderCorners_length (corners : list Point2f) :
  List.length (DocumentDetector.orderCorners corners) = List.length corners.
Proof.
  unfold DocumentDetector.orderCorners.
  destruct (Nat.eqb_spec (List.length corners) 4) as [E|E]; cbn [negb];
    [|reflexivity].
  rewrite E.
  assert (H : forall (f : list Point2f -> Point2f -> nat) l acc,
             List.length (fold_left (fun o pt => store o (f o pt) pt) l acc)
             = List.length acc).
  { intros f l; induction l as [|p l IH]; intro acc; cbn; [reflexivity|].
    rewrite IH, store_length; reflexivity. }
  exact (H (fun _ pt => slot (classify (centroid corners) pt)) corners
           (repeat origin 4)).
Qed.

Lemma pairDistances_nonneg (corners : list Point2f) :
  Forall (fun d => 0 <= d) (DocumentDetector.pairDistances corners).
Proof.
  unfold DocumentDetector.pairDistances.
  repeat (apply Forall_cons; [apply norm_nonneg|]); apply Forall_nil.
Qed.

Lemma confidence_unit_interval (corners : list Point2f) (frame : Size) :
  (0 < width frame)%Z -> (0 < height frame)%Z ->
  0 <= DocumentDetector.calculateConfidence corners frame <= 1.
Proof.
  intros Hw Hh. unfold DocumentDetector.calculateConfidence.
  destruct (negb _); [lra|].
  set (ratio := cv.contourArea corners / IZR (width frame * height frame)).
  assert (Harea :
    0 <= (if (ratio >=? 0.2) && (ratio <=? 0.8)
          then 1 - Num.fabs (ratio - 0.5)
          else if ratio >? 0.1 then 0.5 else 0) <= 1).
  { unfold Num.fabs, Num.ltb, Num.leb; cmp; cbn [andb]; lra. }
  assert (Hmin :
    0 <= fold_left (fun minDist dist => Num.std_min minDist dist)
           (DocumentDetector.pairDistances corners) FLT_MAX).
  { rewrite fold_std_min. apply fold_Rmin_lower.
    - pose proof FLT_MAX_large; lra.
    - apply pairDistances_nonneg. }
  assert (Hexp : 0 < sqrt (IZR (width frame * height frame)) * 0.1).
  { apply Rmult_lt_0_compat; [|lra]. apply sqrt_lt_R0, IZR_lt. nia. }
  set (m := fold_left _ _ FLT_MAX) in *.
  set (e := sqrt _ * 0.1) in *.
  assert (Hq : 0 <= m / e).
  { apply Rmult_le_pos; [exact Hmin | left; apply Rinv_0_lt_compat, Hexp]. }
  assert (Hdist : 0 <= Num.std_min 1 (m / e) <= 1).
  { rewrite std_min_Rmin. split.
    - apply Rmin_glb; lra.
    - apply Rmin_l. }
  lra.
Qed.

(** X5.  [calculateConfidence] is a value in [[0, 1]] for every corner
    list and every frame of positive size. *)
Theorem calculateConfidence_range (corners : list Point2f) (frame : Size) :
  (0 < width frame)%Z -> (0 < height frame)%Z ->
  0 <= DocumentDetector.calculateConfidence corners frame <= 1.
Proof. apply confidence_unit_interval. Qed.

Lemma calculateConfidence_range_witness :
  (0 < width Sample.frame)%Z /\ (0 < height Sample.frame)%Z /\
  0 <= DocumentDetector.calculateConfidence Sample.wide Sample.frame <= 1.
Proof.
  assert (Hw : (0 < width Sample.frame)%Z) by (cbn; lia).
  assert (Hh : (0 < height Sample.frame)%Z) by (cbn; lia).
  split; [exact Hw|]. split; [exact Hh|].
  exact (calculateConfidence_range Sample.wide Sample.frame Hw Hh).
Defined.

Lemma detect_shape `{P : ImagePrimitives} (frame : Mat) :
  let d := DocumentDetector.detect frame in
  let resized :=
    if (480 <? cols frame)%Z
    then resize (IZR 480 / IZR (cols frame)) frame else frame in
  DocumentDetector.found d
  = negb (cv.empty frame)
    && (List.length (largestQuadrilateral resized) =? 4)%nat /\
  (if DocumentDetector.found d
   then List.length (DocumentDetector.corners d) = 4%nat
   else DocumentDetector.corners d = []
        /\ DocumentDetector.confidence d = 0) /\
  0 <= DocumentDetector.confidence d <= 1.
Proof.
  cbv zeta. unfold DocumentDetector.detect.
  destruct (cv.empty frame) eqn:He; cbn [negb andb].
  { cbn. repeat split; lra. }
  unfold cv.empty in He. apply orb_false_iff in He as [Hr Hc].
  apply Z.leb_gt in Hr, Hc.
  destruct (480 <? cols frame)%Z;
    (destruct (List.length (largestQuadrilateral _) =? 4)%nat eqn:Hq;
     cbn [DocumentDetector.found DocumentDetector.corners
          DocumentDetector.confidence];
     [ split; [reflexivity|]; split;
       [ rewrite DocumentDetector_orderCorners_length, length_map;
         apply Nat.eqb_eq, Hq
       | apply confidence_unit_interval; cbn; assumption ]
     | repeat split; lra ]).
Qed.

(** X6.  [DocumentDetector::detect] reports a quadrilateral exactly when
    the frame is not empty and the contour search returned 4 points; a
    reported quadrilateral has exactly 4 corners, anything else comes with
    no corners and confidence 0; the confidence is always in [[0, 1]]. *)
Theorem detect_result `{P : ImagePrimitives} (frame : Mat) :
  let d := DocumentDetector.detect frame in
  let resized :=
    if (480 <? cols frame)%Z
    then resize (IZR 480 / IZR (cols frame)) frame else frame in
  DocumentDetector.found d
  = negb (cv.empty frame)
    && (List.length (largestQuadrilateral resized) =? 4)%nat /\
  (if DocumentDetector.found d
   then List.length (DocumentDetector.corners d) = 4%nat
   else DocumentDetector.corners d = []
        /\ DocumentDetector.confidence d = 0) /\
  0 <= DocumentDetector.confidence d <= 1.
Proof. apply detect_shape. Qed.

(** ** Sharpness and exposure *)

Lemma scores_unit_interval `{P : ImagePrimitives} (gray : Mat) (region : Rect) :
  0 <= QualityAssessor.detectBlur gray <= 1 /\
  0 <= QualityAssessor.checkBrightness gray <= 1 /\
  0 <= QualityAssessor.detectBlurInRegion gray region <= 1 /\
  0 <= QualityAssessor.checkBrightnessInRegion gray region <= 1 /\
  (QualityAssessor.detectBlur gray = 1
   <-> 500 <= laplacianStdDev gray * laplacianStdDev gray).
Proof.
  assert (Hb : forall g, 0 <= QualityAssessor.detectBlur g <= 1).
  { intro g. unfold QualityAssessor.detectBlur, Num.std_min, Num.ltb.
    pose proof (Rle_0_sqr (laplacianStdDev g)) as H. unfold Rsqr in H.
    cmp; lra. }
  assert (Hc : forall g, 0 <= QualityAssessor.checkBrightness g <= 1).
  { intro g. unfold QualityAssessor.checkBrightness, Num.std_max, Num.fabs,
      Num.ltb.
    cmp; lra. }
  split; [apply Hb|]. split; [apply Hc|]. split; [|split].
  - unfold QualityAssessor.detectBlurInRegion. destruct (_ || _); apply Hb.
  - unfold QualityAssessor.checkBrightnessInRegion. destruct (_ || _); apply Hc.
  - unfold QualityAssessor.detectBlur, Num.std_min, Num.ltb.
    cmp; split; intros; lra.
Qed.

(** X7.  The blur score and the brightness score, over the whole frame or
    over a region, are values in [[0, 1]]; the blur score is 1 exactly
    when the variance of the Laplacian is at least 500. *)
Theorem blur_brightness_range `{P : ImagePrimitives} (gray : Mat) (region : Rect) :
  0 <= QualityAssessor.detectBlur gray <= 1 /\
  0 <= QualityAssessor.checkBrightness gray <= 1 /\
  0 <= QualityAssessor.detectBlurInRegion gray region <= 1 /\
  0 <= QualityAssessor.checkBrightnessInRegion gray region <= 1 /\
  (QualityAssessor.detectBlur gray = 1
   <-> 500 <= laplacianStdDev gray * laplacianStdDev gray).
Proof. apply scores_unit_interval. Qed.

(** X8.  For a mean intensity in [[0, 255]] the brightness score is the
    triangle [1 - |mean - 127.5| / 127.5]: 1 at mid-grey, 0 for a black
    and for a white frame. *)
Theorem checkBrightness_triangle `{P : ImagePrimitives} (gray : Mat) :
  0 <= meanIntensity gray <= 255 ->
  QualityAssessor.checkBrightness gray
  = 1 - Rabs (meanIntensity gray - 127.5) / 127.5.
Proof.
  intro H. unfold QualityAssessor.checkBrightness.
  rewrite std_max_Rmax, fabs_Rabs.
  unfold Rabs, Rmax.
  destruct (Rcase_abs (meanIntensity gray / 255 - 0.5));
    destruct (Rcase_abs (meanIntensity gray - 127.5));
    destruct (Rle_dec 0 _); lra.
Qed.

Lemma checkBrightness_triangle_witness :
  0 <= @meanIntensity nullPrimitives Sample.gray <= 255 /\
  @QualityAssessor.checkBrightness nullPrimitives Sample.gray
  = 1 - Rabs (@meanIntensity nullPrimitives Sample.gray - 127.5) / 127.5.
Proof.
  assert (H : 0 <= @meanIntensity nullPrimitives Sample.gray <= 255)
    by (cbn; lra).
  split; [exact H|].
  exact (@checkBrightness_triangle nullPrimitives Sample.gray H).
Defined.

(** ** Stability *)

Section StabilityMore.

Import QualityAssessor.

Lemma accumulate_nonneg (corners : list Point2f) (h : History) (t : R) (n : Z) :
  0 <= t -> (0 <= n)%Z ->
  0 <= fst (fold_left (accumulate corners) h (t, n))
  /\ (0 <= snd (fold_left (accumulate corners) h (t, n)))%Z.
Proof.
  revert t n; induction h as [|prev h IH]; intros t n Ht Hn; cbn [fold_left].
  - cbn; split; assumption.
  - unfold accumulate at 2 4. destruct (negb _); [apply IH; assumption|].
    cbn [seq fold_left]. apply IH; [|lia].
    pose proof (norm_nonneg (psub (at_ origin corners 0) (at_ origin prev 0))).
    pose proof (norm_nonneg (psub (at_ origin corners 1) (at_ origin prev 1))).
    pose proof (norm_nonneg (psub (at_ origin corners 2) (at_ origin prev 2))).
    pose proof (norm_nonneg (psub (at_ origin corners 3) (at_ origin prev 3))).
    lra.
Qed.

(** The stability score is in [[0, 1]] whatever the history holds. *)
Lemma checkStability_unit_interval (corners : list Point2f) (h : History) :
  0 <= fst (checkStability corners h) <= 1.
Proof.
  unfold checkStability.
  destruct (negb _); [cbn; lra|].
  destruct (_ <? 3)%nat; [cbn; lra|].
  pose proof (accumulate_nonneg corners h 0 0%Z (Rle_refl 0) (Z.le_refl 0))
    as [Ht Hn].
  destruct (fold_left _ _ _) as [total comparisons]. cbn [fst snd] in *.
  rewrite std_max_Rmax.
  assert (Havg : 0 <= (if (0 <? comparisons)%Z
                       then total / IZR comparisons else 0)).
  { destruct (Z.ltb_spec 0 comparisons) as [Hc|Hc]; [|lra].
    apply Rmult_le_pos; [exact Ht|].
    left; apply Rinv_0_lt_compat, IZR_lt, Hc. }
  unfold Rmax; destruct (Rle_dec 0 _); lra.
Qed.

Lemma norm_self (p : Point2f) : norm (psub p p) = 0.
Proof.
  unfold norm, psub; cbn [px py].
  replace ((px p - px p) * (px p - px p) + (py p - py p) * (py p - py p))
    with 0 by ring.
  apply sqrt_0.
Qed.

Lemma avgDisplacement_still (corners : list Point2f) (h : History) :
  Forall (fun prev => prev = corners) h -> Spec.avgDisplacement corners h = 0.
Proof.
  intro H. unfold Spec.avgDisplacement.
  assert (Hs : fold_right
                 (fun prev acc => Spec.displacement corners prev + acc) 0 h = 0).
  { induction H as [|prev h Hp _ IH]; cbn; [reflexivity|].
    rewrite IH, Hp. unfold Spec.displacement. rewrite !norm_self. lra. }
  rewrite Hs. apply Rdiv_0_l.
Qed.

Lemma run_four (calls : list Spec.Call) (h : History) :
  Forall (fun prev => List.length prev = 4%nat) h ->
  Forall (fun prev => List.length prev = 4%nat) (fold_left Spec.step calls h).
Proof.
  revert h; induction calls as [|c calls IH]; intros h Hh; cbn; [exact Hh|].
  apply IH. destruct c; cbn.
  - apply checkStability_keeps_4, Hh.
  - constructor.
Qed.

End StabilityMore.

(** X9.  A document that does not move: with the same 4 corners given on
    every call after a reset, the first three calls score 0 and every
    later call scores 1. *)
Theorem still_scene_scores (h0 : QualityAssessor.History)
    (corners : list Point2f) (calls n : nat) :
  List.length corners = 4%nat -> (n < calls)%nat ->
  nth n (Spec.scores (QualityAssessor.reset h0) (repeat corners calls)) 0
  = if (n <? 3)%nat then 0 else 1.
Proof.
  intros Hc Hn. unfold QualityAssessor.reset.
  assert (Hall : Forall (fun c => List.length c = 4%nat) (repeat corners calls)).
  { apply Forall_forall. intros x Hx. apply repeat_spec in Hx. subst; exact Hc. }
  assert (Hnth : nth n (repeat corners calls) [] = corners).
  { apply (repeat_spec calls corners). apply nth_In. rewrite repeat_length; lia. }
  rewrite scores_nth, history_retained, Hnth
    by (try exact Hall; rewrite repeat_length; lia).
  pose proof (retained_length n (repeat corners calls)
                ltac:(rewrite repeat_length; lia)) as Hlen.
  destruct (Nat.ltb_spec n 3) as [H3|H3].
  - rewrite checkStability_warmup; [reflexivity | exact Hc | lia].
  - rewrite checkStability_steady;
      [| exact Hc | lia | apply retained_four, Hall].
    cbn [fst]. rewrite avgDisplacement_still.
    + rewrite Rmax_right; lra.
    + apply Forall_forall. intros x Hx.
      apply (repeat_spec calls). eapply In_firstn, In_skipn, Hx.
Qed.

Lemma still_scene_scores_witness :
  List.length (Sample.shifted 1) = 4%nat /\ (3 < 5)%nat /\
  nth 3 (Spec.scores (QualityAssessor.reset []) (repeat (Sample.shifted 1) 5)) 0
  = 1.
Proof.
  split; [reflexivity|]. split; [lia|].
  exact (still_scene_scores [] (Sample.shifted 1) 5 3 eq_refl ltac:(lia)).
Defined.

(** X10.  After any number of [checkStability] calls with 4-point inputs
    on a fresh assessor, the history is the last five inputs, oldest
    first (all of them when there are fewer than five). *)
Theorem history_last_five (inputs : list (list Point2f)) :
  Forall (fun c => List.length c = 4%nat) inputs ->
  Spec.run (map Spec.CheckStability inputs)
  = skipn (List.length inputs - 5) inputs.
Proof.
  intro Hall. unfold Spec.run, QualityAssessor.fresh.
  rewrite <- (firstn_all inputs) at 1.
  rewrite history_retained by (try exact Hall; lia).
  unfold Spec.retained. rewrite firstn_all. reflexivity.
Qed.

Lemma history_last_five_witness :
  Forall (fun c => List.length c = 4%nat) Sample.drift /\
  Spec.run (map Spec.CheckStability Sample.drift)
  = skipn (List.length Sample.drift - 5) Sample.drift.
Proof.
  split; [exact drift_four|].
  exact (history_last_five Sample.drift drift_four).
Defined.

(** X11.  Whatever is passed to [checkStability], and however calls and
    resets alternate, only 4-point sets are ever retained: the size test
    inside the loop over the history never skips an entry. *)
Theorem history_only_four_points (calls : list Spec.Call) :
  Forall (fun prev => List.length prev = 4%nat) (Spec.run calls).
Proof. unfold Spec.run. apply run_four. constructor. Qed.

(** ** Frame analysis *)

Section Analysis.

Import CaptureEngine.
Context `{P : ImagePrimitives}.

(** What one [assess] call returns and does to the history. *)
Lemma assess_facts (frame : Mat) (corners : list Point2f) (conf : R)
    (h : QualityAssessor.History) :
  let q := fst (QualityAssessor.assess frame corners conf h) in
  let h' := snd (QualityAssessor.assess frame corners conf h) in
  0 <= QualityAssessor.blur_score q <= 1 /\
  0 <= QualityAssessor.brightness_score q <= 1 /\
  0 <= QualityAssessor.stability_score q <= 1 /\
  QualityAssessor.corner_confidence q = conf /\
  ((List.length h < 3)%nat -> QualityAssessor.stability_score q = 0) /\
  ((List.length h <= 5)%nat -> (List.length h' <= 5)%nat) /\
  (Forall (fun prev => List.length prev = 4%nat) h ->
   Forall (fun prev => List.length prev = 4%nat) h').
Proof.
  cbv zeta. unfold QualityAssessor.assess.
  destruct (cv.empty frame).
  { cbn. repeat split; auto; lra. }
  pose proof (scores_unit_interval (toGray frame) (mkRect 0 0 0 0))
    as (Hb & Hc & _).
  destruct (negb _ && (List.length corners =? 4)%nat) eqn:E.
  - apply andb_true_iff in E as [_ E]. apply Nat.eqb_eq in E.
    pose proof (checkStability_unit_interval corners h) as Hs.
    pose proof (checkStability_length corners h) as Hl.
    pose proof (checkStability_keeps_4 corners h) as H4.
    pose proof (checkStability_warmup corners h E) as Hw.
    destruct (QualityAssessor.checkStability corners h) as [s h'].
    cbn [fst snd QualityAssessor.blur_score QualityAssessor.brightness_score
         QualityAssessor.stability_score QualityAssessor.corner_confidence] in *.
    repeat split; auto; try lra.
    intro H3. specialize (Hw H3). injection Hw as -> _. reflexivity.
  - cbn. repeat split; auto; lra.
Qed.

End Analysis.

(** Split [analyzeFrame] into its paths: rejected input (three goals),
    quadrilateral found, text regions with and without four overall
    corners, nothing found. *)
Ltac analyze_cases :=
  unfold CaptureEngine.analyzeFrame;
  match goal with
  | |- context [match ?d with Some _ => _ | None => _ end] =>
      destruct d as [?data|]
  end;
  [ destruct (_ || _)%bool;
    [ | destruct (cv.empty _) eqn:?Hempty;
        [ | destruct (DocumentDetector.found _ && _) eqn:?Hquad;
            [ match goal with
              | |- context [QualityAssessor.assess ?f ?c ?k ?h] =>
                  pose proof (assess_facts f c k h) as Hassess;
                  cbv zeta in Hassess;
                  destruct (QualityAssessor.assess f c k h) as [?q ?h']
              end
            | destruct (trs_found _);
              [ destruct (List.length (overallCorners _) =? 4)%nat;
                [ match goal with
                  | |- context [QualityAssessor.assess ?f ?c ?k ?h] =>
                      pose proof (assess_facts f c k h) as Hassess;
                      cbv zeta in Hassess;
                      destruct (QualityAssessor.assess f c k h) as [?q ?h']
                  end
                | ]
              | ] ] ] ]
  | ];
  cbn [fst snd CaptureEngine.table_found CaptureEngine.text_region_found
       CaptureEngine.document_found CaptureEngine.capture_ready
       CaptureEngine.blur_score CaptureEngine.brightness_score
       CaptureEngine.stability_score CaptureEngine.corner_confidence
       CaptureEngine.overall_score CaptureEngine.assessor_
       CaptureEngine.last_analysis_ CaptureEngine.noAnalysis] in *.

Lemma gate_closed (blur brightness gate : R) :
  0 <= gate -> (blur >? 0.6) && (brightness >? 0.5) && (0 >? gate) = false.
Proof.
  intro H. rewrite andb_false_iff. right. apply ltb_false. exact H.
Qed.

(** X12.  While fewer than three corner sets are in the stability
    history, [analyzeFrame] never reports [capture_ready]: after a reset
    at least three frames are analysed before a capture can be
    triggered. *)
Theorem analyzeFrame_warmup `{P : ImagePrimitives}
    (image_data : option (list Z))
    (width height format rotation crop_x crop_y crop_w crop_h : Z)
    (e : CaptureEngine.Engine) :
  (List.length (CaptureEngine.assessor_ e) < 3)%nat ->
  CaptureEngine.capture_ready
    (fst (CaptureEngine.analyzeFrame image_data width height format rotation
                                     crop_x crop_y crop_w crop_h e))
  = false.
Proof.
  intro H3. analyze_cases; try reflexivity.
  - destruct Hassess as (_ & _ & _ & _ & Hw & _). rewrite (Hw H3).
    apply gate_closed; lra.
  - destruct Hassess as (_ & _ & _ & _ & Hw & _). rewrite (Hw H3).
    apply gate_closed; lra.
  - apply gate_closed; lra.
  - apply gate_closed; lra.
Qed.

Lemma analyzeFrame_warmup_witness :
  (List.length (CaptureEngine.assessor_ CaptureEngine.new) < 3)%nat /\
  CaptureEngine.capture_ready
    (fst (@CaptureEngine.analyzeFrame nullPrimitives
            (Some Sample.pixel) 1 1 1 0 0 0 0 0 CaptureEngine.new))
  = false.
Proof.
  assert (H : (List.length (CaptureEngine.assessor_ CaptureEngine.new) < 3)%nat)
    by (cbn; lia).
  split; [exact H|].
  exact (@analyzeFrame_warmup nullPrimitives
           (Some Sample.pixel) 1 1 1 0 0 0 0 0 CaptureEngine.new H).
Defined.

(** X13.  In every result of [analyzeFrame]: [capture_ready] is set only
    together with [table_found] or [text_region_found]; these two are
    never set together; and [table_found] comes with [document_found]. *)
Theorem analyzeFrame_flags `{P : ImagePrimitives}
    (image_data : option (list Z))
    (width height format rotation crop_x crop_y crop_w crop_h : Z)
    (e : CaptureEngine.Engine) :
  let r :=
    fst (CaptureEngine.analyzeFrame image_data width height format rotation
                                    crop_x crop_y crop_w crop_h e) in
  (CaptureEngine.capture_ready r = false
   \/ CaptureEngine.table_found r = true
   \/ CaptureEngine.text_region_found r = true) /\
  (CaptureEngine.table_found r = false
   \/ CaptureEngine.text_region_found r = false) /\
  (CaptureEngine.table_found r = false
   \/ CaptureEngine.document_found r = true).
Proof.
  cbv zeta. analyze_cases; auto.
  - apply andb_true_iff in Hquad as [-> _]. auto.
  - split; [left; apply gate_closed; lra | auto].
Qed.

(** X14.  [analyzeFrame] keeps the engine's stability history within its
    bounds: at most five entries, each of exactly 4 points. *)
Theorem analyzeFrame_history_invariant `{P : ImagePrimitives}
    (image_data : option (list Z))
    (width height format rotation crop_x crop_y crop_w crop_h : Z)
    (e : CaptureEngine.Engine) :
  (List.length (CaptureEngine.assessor_ e) <= 5)%nat ->
  Forall (fun prev => List.length prev = 4%nat) (CaptureEngine.assessor_ e) ->
  let e' :=
    snd (CaptureEngine.analyzeFrame image_data width height format rotation
                                    crop_x crop_y crop_w crop_h e) in
  (List.length (CaptureEngine.assessor_ e') <= 5)%nat /\
  Forall (fun prev => List.length prev = 4%nat) (CaptureEngine.assessor_ e').
Proof.
  intros H5 H4. cbv zeta. analyze_cases; auto.
  - destruct Hassess as (_ & _ & _ & _ & _ & Hl & Hf). auto.
  - destruct Hassess as (_ & _ & _ & _ & _ & Hl & Hf). auto.
Qed.

Lemma analyzeFrame_history_invariant_witness :
  (List.length (CaptureEngine.assessor_ CaptureEngine.new) <= 5)%nat /\
  Forall (fun prev => List.length prev = 4%nat)
         (CaptureEngine.assessor_ CaptureEngine.new) /\
  (List.length
     (CaptureEngine.assessor_
        (snd (@CaptureEngine.analyzeFrame nullPrimitives
                (Some Sample.pixel) 1 1 1 0 0 0 0 0 CaptureEngine.new)))
   <= 5)%nat.
Proof.
  assert (H5 : (List.length (CaptureEngine.assessor_ CaptureEngine.new) <= 5)%nat)
    by (cbn; lia).
  assert (H4 : Forall (fun prev => List.length prev = 4%nat)
                      (CaptureEngine.assessor_ CaptureEngine.new))
    by constructor.
  split; [exact H5|]. split; [exact H4|].
  exact (proj1 (@analyzeFrame_history_invariant nullPrimitives
                  (Some Sample.pixel) 1 1 1 0 0 0 0 0 CaptureEngine.new H5 H4)).
Defined.

(** X15.  In every result of [analyzeFrame] the blur, brightness and
    stability scores are in [[0, 1]]; when a quadrilateral was found, so
    are the corner confidence and the overall score. *)
Theorem analyzeFrame_scores_range `{P : ImagePrimitives}
    (image_data : option (list Z))
    (width height format rotation crop_x crop_y crop_w crop_h : Z)
    (e : CaptureEngine.Engine) :
  let r :=
    fst (CaptureEngine.analyzeFrame image_data width height format rotation
                                    crop_x crop_y crop_w crop_h e) in
  0 <= CaptureEngine.blur_score r <= 1 /\
  0 <= CaptureEngine.brightness_score r <= 1 /\
  0 <= CaptureEngine.stability_score r <= 1 /\
  (CaptureEngine.table_found r = false
   \/ (0 <= CaptureEngine.corner_confidence r <= 1
       /\ 0 <= CaptureEngine.overall_score r <= 1)).
Proof.
  cbv zeta. analyze_cases; try (repeat split; auto; lra).
  - destruct Hassess as (Hb & Hc & Hs & Hk & _).
    match goal with
    | |- context [DocumentDetector.confidence (DocumentDetector.detect ?f)] =>
        pose proof (detect_shape f) as (_ & _ & Hconf); cbv zeta in Hconf
    end.
    split; [exact Hb|]. split; [exact Hc|]. split; [exact Hs|].
    right. split; [exact Hconf|].
    unfold QualityAssessor.overall. rewrite Hk. lra.
  - destruct Hassess as (_ & _ & Hs & _).
    match goal with
    | |- context [QualityAssessor.detectBlurInRegion ?g ?r] =>
        pose proof (scores_unit_interval g r) as (_ & _ & Hb & Hc & _)
    end.
    repeat split; auto; lra.
  - match goal with
    | |- context [QualityAssessor.detectBlurInRegion ?g ?r] =>
        pose proof (scores_unit_interval g r) as (_ & _ & Hb & Hc & _)
    end.
    repeat split; auto; lra.
  - match goal with
    | |- context [QualityAssessor.detectBlur ?g] =>
        pose proof (scores_unit_interval g (mkRect 0 0 0 0)) as (Hb & Hc & _)
    end.
    repeat split; auto; lra.
Qed.

(** ** Output size of the rectification *)

Lemma float_to_int_lower (z : Z) (x : R) :
  0 <= x -> IZR z <= x -> (z <= float_to_int x)%Z.
Proof.
  intros H0 Hz. unfold float_to_int.
  destruct (proj2 (leb_true 0 x) H0).
  replace (0 <=? x) with true by (symmetry; apply leb_true, H0).
  unfold Int_part. destruct (archimed x) as [Hup _].
  assert (H : (z < up x)%Z) by (apply lt_IZR; lra).
  lia.
Qed.

Lemma float_to_int_IZR (z : Z) : (0 <= z)%Z -> float_to_int (IZR z) = z.
Proof.
  intro H. unfold float_to_int.
  replace (0 <=? IZR z) with true
    by (symmetry; apply leb_true, IZR_le, H).
  symmetry. apply Int_part_spec. lra.
Qed.

Lemma float_to_int_upper (z : Z) (x : R) :
  0 <= x -> x < IZR z -> (float_to_int x < z)%Z.
Proof.
  intros H0 Hz. unfold float_to_int.
  replace (0 <=? x) with true by (symmetry; apply leb_true, H0).
  unfold Int_part. destruct (archimed x) as [_ Hup].
  assert (H : (up x - 1 < z)%Z).
  { apply lt_IZR. rewrite minus_IZR. lra. }
  lia.
Qed.

Lemma at_Forall {A : Type} (Q : A -> Prop) (d : A) (l : list A) (i : nat) :
  Q d -> Forall Q l -> Q (at_ d l i).
Proof.
  intros Hd Hl. unfold at_.
  destruct (Nat.lt_ge_cases i (List.length l)) as [Hi|Hi].
  - rewrite Forall_forall in Hl. apply Hl, nth_In, Hi.
  - rewrite nth_overflow by exact Hi. exact Hd.
Qed.

Lemma norm_bound (a b : Point2f) (B : R) :
  Rabs (px a) <= B /\ Rabs (py a) <= B ->
  Rabs (px b) <= B /\ Rabs (py b) <= B ->
  0 <= norm (psub a b) <= 4 * B.
Proof.
  intros [Hax Hay] [Hbx Hby]. split; [apply norm_nonneg|].
  assert (HB : 0 <= B) by (pose proof (Rabs_pos (px a)); lra).
  assert (Hi : forall x, Rabs x <= B -> - B <= x <= B).
  { intros x Hx. unfold Rabs in Hx. destruct (Rcase_abs x); lra. }
  apply Hi in Hax, Hay, Hbx, Hby.
  unfold norm, psub. cbn [px py].
  rewrite <- (sqrt_square (4 * B)) by lra.
  apply sqrt_le_1_alt. nra.
Qed.

Lemma outputSize_at_least_100 (corners : list Point2f) :
  (100 <= width (PerspectiveCorrector.calculateOutputSize corners))%Z /\
  (100 <= height (PerspectiveCorrector.calculateOutputSize corners))%Z.
Proof.
  unfold PerspectiveCorrector.calculateOutputSize. cbn [width height].
  rewrite !std_max_Rmax.
  split; (apply float_to_int_lower;
          [ eapply Rle_trans; [|apply Rmax_r]; lra | apply Rmax_r ]).
Qed.

(** Corners within [10^8] of the origin in each coordinate: far beyond
    any frame, and near enough for every edge length to fit an [int]. *)
Lemma outputSize_fits_int (corners : list Point2f) :
  Forall (fun p => Rabs (px p) <= 10 ^ 8 /\ Rabs (py p) <= 10 ^ 8) corners ->
  (width (PerspectiveCorrector.calculateOutputSize corners) < 2 ^ 31)%Z /\
  (height (PerspectiveCorrector.calculateOutputSize corners) < 2 ^ 31)%Z.
Proof.
  intro Hc.
  assert (H0 : Rabs (px origin) <= 10 ^ 8 /\ Rabs (py origin) <= 10 ^ 8).
  { cbn [origin px py]. rewrite Rabs_R0. split; apply pow_le; lra. }
  assert (Hat : forall i,
             Rabs (px (at_ origin corners i)) <= 10 ^ 8
             /\ Rabs (py (at_ origin corners i)) <= 10 ^ 8).
  { intro i.
    exact (at_Forall (fun p => Rabs (px p) <= 10 ^ 8 /\ Rabs (py p) <= 10 ^ 8)
                     origin corners i H0 Hc). }
  assert (Hn : forall i j,
             0 <= norm (psub (at_ origin corners i) (at_ origin corners j))
             <= 4 * 10 ^ 8).
  { intros i j. apply norm_bound; apply Hat. }
  unfold PerspectiveCorrector.calculateOutputSize. cbn [width height].
  rewrite !std_max_Rmax.
  pose proof (Hn 1%nat 0%nat) as H10. pose proof (Hn 2%nat 3%nat) as H23.
  pose proof (Hn 3%nat 0%nat) as H30. pose proof (Hn 2%nat 1%nat) as H21.
  assert (E8 : (10 ^ 8 = 100000000)%R) by (simpl; lra).
  rewrite E8 in H10, H23, H30, H21.
  split; (apply float_to_int_upper;
          [ eapply Rle_trans; [|apply Rmax_r]; lra
          | change (2 ^ 31)%Z with 2147483648%Z;
            apply Rmax_case; lra ]).
Qed.

(** X16.  For four corners within [10^8] of the origin, the output size
    estimated from them is at least 100 x 100 and fits an [int]: the
    conversion of the two averaged edge lengths never overflows. *)
Theorem calculateOutputSize_minimum (corners : list Point2f) :
  List.length corners = 4%nat ->
  Forall (fun p => Rabs (px p) <= 10 ^ 8 /\ Rabs (py p) <= 10 ^ 8) corners ->
  (100 <= width (PerspectiveCorrector.calculateOutputSize corners) < 2 ^ 31)%Z /\
  (100 <= height (PerspectiveCorrector.calculateOutputSize corners) < 2 ^ 31)%Z.
Proof.
  intros _ Hc.
  destruct (outputSize_at_least_100 corners) as [Hw Hh].
  destruct (outputSize_fits_int corners Hc) as [Hw' Hh'].
  split; split; assumption.
Qed.

Lemma calculateOutputSize_minimum_witness :
  List.length Sample.wide = 4%nat /\
  (100 <= width (PerspectiveCorrector.calculateOutputSize Sample.wide)
   < 2 ^ 31)%Z.
Proof.
  split; [reflexivity|].
  refine (proj1 (calculateOutputSize_minimum Sample.wide eq_refl _)).
  unfold Sample.wide.
  assert (E8 : (10 ^ 8 = 100000000)%R) by (simpl; lra).
  repeat constructor; cbn [px py]; rewrite E8;
    unfold Rabs; destruct (Rcase_abs _); lra.
Defined.

Lemma outputSize_rectangle (x0 y0 : R) (w h : Z) :
  (100 <= w)%Z -> (100 <= h)%Z ->
  PerspectiveCorrector.calculateOutputSize
    [ mkPoint x0 y0; mkPoint (x0 + IZR w) y0;
      mkPoint (x0 + IZR w) (y0 + IZR h); mkPoint x0 (y0 + IZR h) ]
  = mkSize w h.
Proof.
  intros Hw Hh.
  assert (Hw' : 100 <= IZR w) by (apply IZR_le in Hw; exact Hw).
  assert (Hh' : 100 <= IZR h) by (apply IZR_le in Hh; exact Hh).
  unfold PerspectiveCorrector.calculateOutputSize, at_, norm, psub.
  cbn [nth px py].
  rewrite !(sqrt_eq _ (IZR w)), !(sqrt_eq _ (IZR h)) by (try lra; ring).
  replace ((IZR w + IZR w) / 2) with (IZR w) by lra.
  replace ((IZR h + IZR h) / 2) with (IZR h) by lra.
  rewrite !std_max_Rmax, !Rmax_left by lra.
  rewrite !float_to_int_IZR by lia. reflexivity.
Qed.

(** X17.  For an upright rectangle on the integer grid, of width and
    height at least 100, with all four corners between the origin and
    [2^24] in both coordinates (where a [float] holds every integer), given
    in TL, TR, BR, BL order, the estimated output size is exactly that
    width and height, wherever in that range the rectangle lies. *)
Theorem calculateOutputSize_rectangle (x0 y0 w h : Z) :
  (0 <= x0)%Z -> (0 <= y0)%Z -> (100 <= w)%Z -> (100 <= h)%Z ->
  (x0 + w <= 2 ^ 24)%Z -> (y0 + h <= 2 ^ 24)%Z ->
  PerspectiveCorrector.calculateOutputSize
    [ mkPoint (IZR x0) (IZR y0); mkPoint (IZR (x0 + w)) (IZR y0);
      mkPoint (IZR (x0 + w)) (IZR (y0 + h)); mkPoint (IZR x0) (IZR (y0 + h)) ]
  = mkSize w h.
Proof.
  intros _ _ Hw Hh _ _. rewrite !plus_IZR.
  apply outputSize_rectangle; assumption.
Qed.

Lemma calculateOutputSize_rectangle_witness :
  (0 <= 20)%Z /\ (0 <= 10)%Z /\ (100 <= 640)%Z /\ (100 <= 480)%Z /\
  (20 + 640 <= 2 ^ 24)%Z /\ (10 + 480 <= 2 ^ 24)%Z /\
  PerspectiveCorrector.calculateOutputSize
    [ mkPoint (IZR 20) (IZR 10); mkPoint (IZR (20 + 640)) (IZR 10);
      mkPoint (IZR (20 + 640)) (IZR (10 + 480));
      mkPoint (IZR 20) (IZR (10 + 480)) ]
  = mkSize 640 480.
Proof.
  repeat (split; [lia|]).
  exact (calculateOutputSize_rectangle 20 10 640 480
           ltac:(lia) ltac:(lia) ltac:(lia) ltac:(lia) ltac:(lia) ltac:(lia)).
Defined.

(** X18.  A successful [correct] reports the requested output size when
    both of its dimensions are non-zero, and otherwise, for corners within
    [10^8] of the origin, an estimated size of at least 100 x 100 that
    fits an [int]. *)
Theorem correct_size `{P : ImagePrimitives}
    (img : Mat) (pts : list Point2f) (sz : Size) :
  let c := PerspectiveCorrector.correct img pts sz in
  PerspectiveCorrector.success c = true ->
  Forall (fun p => Rabs (px p) <= 10 ^ 8 /\ Rabs (py p) <= 10 ^ 8) pts ->
  (if (width sz =? 0)%Z || (height sz =? 0)%Z
   then (100 <= PerspectiveCorrector.cwidth c < 2 ^ 31)%Z
        /\ (100 <= PerspectiveCorrector.cheight c < 2 ^ 31)%Z
   else PerspectiveCorrector.cwidth c = width sz
        /\ PerspectiveCorrector.cheight c = height sz).
Proof.
  cbv zeta. unfold PerspectiveCorrector.correct.
  destruct (cv.empty img || negb _); [discriminate|]. intros _ Hc.
  cbn [PerspectiveCorrector.cwidth PerspectiveCorrector.cheight].
  destruct ((width sz =? 0)%Z || (height sz =? 0)%Z).
  - assert (Ho : Forall (fun p => Rabs (px p) <= 10 ^ 8 /\ Rabs (py p) <= 10 ^ 8)
                        (PerspectiveCorrector.orderCorners pts)).
    { apply (Permutation_Forall (Permutation_sym (orderCorners_perm pts))), Hc. }
    destruct (outputSize_at_least_100 (PerspectiveCorrector.orderCorners pts))
      as [Hw Hh].
    destruct (outputSize_fits_int _ Ho) as [Hw' Hh'].
    split; split; assumption.
  - split; reflexivity.
Qed.

Lemma correct_size_witness :
  let c := @PerspectiveCorrector.correct nullPrimitives
             Sample.gray Sample.wide (mkSize 0 0) in
  PerspectiveCorrector.success c = true /\
  (100 <= PerspectiveCorrector.cwidth c < 2 ^ 31)%Z /\
  (100 <= PerspectiveCorrector.cheight c < 2 ^ 31)%Z.
Proof.
  cbv zeta. split; [reflexivity|].
  refine (@correct_size nullPrimitives Sample.gray Sample.wide (mkSize 0 0)
            eq_refl _).
  unfold Sample.wide.
  assert (E8 : (10 ^ 8 = 100000000)%R) by (simpl; lra).
  repeat constructor; cbn [px py]; rewrite E8;
    unfold Rabs; destruct (Rcase_abs _); lra.
Defined.

(** ** Skew and the virtual trapezoid *)

Lemma relative_difference_bound (p q : R) :
  0 <= p -> 0 <= q -> 0 < (p + q) / 2 ->
  0 <= Num.fabs (q - p) / ((p + q) / 2) <= 2.
Proof.
  intros Hp Hq Havg. rewrite fabs_Rabs.
  assert (Ha : 0 <= Rabs (q - p) <= p + q).
  { unfold Rabs; destruct (Rcase_abs (q - p)); lra. }
  split.
  - apply Rmult_le_pos; [lra | left; apply Rinv_0_lt_compat, Havg].
  - apply (Rmult_le_reg_r ((p + q) / 2)); [exact Havg|].
    unfold Rdiv at 1. rewrite Rmult_assoc, Rinv_l by lra. lra.
Qed.

Lemma skew_component_range (p q : R) :
  0 <= p -> 0 <= q ->
  0 <= (if (p + q) / 2 >? 0 then Num.fabs (p - q) / ((p + q) / 2) else 0) <= 2.
Proof.
  intros Hp Hq. destruct ((p + q) / 2 >? 0) eqn:E; [|lra].
  apply ltb_true in E. rewrite (Rplus_comm p q) in *.
  apply relative_difference_bound; assumption.
Qed.

(** X19.  The two skew components and the skew ratio computed by
    [analyzeFrame] lie in [[0, 2]] for every four corners. *)
Theorem skew_range (c0 c1 c2 c3 : Point2f) :
  let m := CaptureEngine.trapezoidMetrics [c0; c1; c2; c3] in
  0 <= CaptureEngine.m_vertical_skew m <= 2 /\
  0 <= CaptureEngine.m_horizontal_skew m <= 2 /\
  0 <= CaptureEngine.m_skew_ratio m <= 2.
Proof.
  cbv zeta. unfold CaptureEngine.trapezoidMetrics.
  cbn [CaptureEngine.m_vertical_skew CaptureEngine.m_horizontal_skew
       CaptureEngine.m_skew_ratio].
  set (c := at_ origin [c0; c1; c2; c3]).
  pose proof (skew_component_range _ _ (edge_nonneg (c 1%nat) (c 0%nat))
                (edge_nonneg (c 2%nat) (c 3%nat))) as Hv.
  pose proof (skew_component_range _ _ (edge_nonneg (c 3%nat) (c 0%nat))
                (edge_nonneg (c 2%nat) (c 1%nat))) as Hh.
  split; [exact Hv|]. split; [exact Hh|].
  rewrite std_max_Rmax. unfold Rmax; destruct (Rle_dec _ _); lra.
Qed.

(** X20.  A parallelogram (so every rectangle, upright or rotated) has
    skew ratio 0 and is not flagged as a trapezoid. *)
Theorem parallelogram_not_trapezoid (c0 c1 c2 c3 : Point2f) :
  px c1 - px c0 = px c2 - px c3 -> py c1 - py c0 = py c2 - py c3 ->
  let m := CaptureEngine.trapezoidMetrics [c0; c1; c2; c3] in
  CaptureEngine.m_skew_ratio m = 0 /\ CaptureEngine.m_is_trapezoid m = false.
Proof.
  intros Hx Hy. cbv zeta. unfold CaptureEngine.trapezoidMetrics, at_.
  cbn [nth CaptureEngine.m_skew_ratio CaptureEngine.m_is_trapezoid].
  assert (Hw : CaptureEngine.edge c1 c0 = CaptureEngine.edge c2 c3).
  { unfold CaptureEngine.edge. rewrite Hx, Hy. reflexivity. }
  assert (Hh : CaptureEngine.edge c3 c0 = CaptureEngine.edge c2 c1).
  { unfold CaptureEngine.edge.
    replace (px c3 - px c0) with (px c2 - px c1) by lra.
    replace (py c3 - py c0) with (py c2 - py c1) by lra. reflexivity. }
  rewrite Hw, Hh.
  replace (CaptureEngine.edge c2 c3 - CaptureEngine.edge c2 c3) with 0 by ring.
  replace (CaptureEngine.edge c2 c1 - CaptureEngine.edge c2 c1) with 0 by ring.
  assert (Hz : Num.fabs 0 = 0) by (rewrite fabs_Rabs; apply Rabs_R0).
  rewrite Hz.
  assert (Hs : forall a, (if a >? 0 then 0 / a else 0) = 0)
    by (intro a; destruct (a >? 0); lra).
  rewrite !Hs.
  assert (Hm : Num.std_max 0 0 = 0) by (rewrite std_max_Rmax; apply Rmax_left; lra).
  rewrite Hm. split; [reflexivity | apply ltb_false; lra].
Qed.

Lemma parallelogram_not_trapezoid_witness :
  100 - 0 = 130 - 30 /\ 20 - 0 = 80 - 60 /\
  CaptureEngine.m_is_trapezoid
    (CaptureEngine.trapezoidMetrics
       [mkPoint 0 0; mkPoint 100 20; mkPoint 130 80; mkPoint 30 60])
  = false.
Proof.
  assert (Hx : px (mkPoint 100 20) - px (mkPoint 0 0)
               = px (mkPoint 130 80) - px (mkPoint 30 60)) by (cbn; lra).
  assert (Hy : py (mkPoint 100 20) - py (mkPoint 0 0)
               = py (mkPoint 130 80) - py (mkPoint 30 60)) by (cbn; lra).
  split; [lra|]. split; [lra|].
  exact (proj2 (parallelogram_not_trapezoid
                  (mkPoint 0 0) (mkPoint 100 20) (mkPoint 130 80) (mkPoint 30 60)
                  Hx Hy)).
Defined.

(** Decide every [if] of the goal whose test is a comparison of reals. *)
Ltac split_ifs :=
  repeat match goal with
  | |- context [if ?a <? ?b then _ else _] =>
      let E := fresh "E" in
      destruct (a <? b) eqn:E;
      [apply ltb_true in E | apply ltb_false in E]
  end.

(** X21.  The virtual trapezoid is symmetric about the guide rectangle's
    axes: whatever the stored skew, the top corners and the bottom corners
    keep the horizontal midpoint of the guide, the left corners and the
    right corners keep its vertical midpoint. *)
Theorem virtual_trapezoid_midpoints (e : CaptureEngine.Engine) (l t r b : R) :
  let o := at_ 0 (CaptureEngine.calculateVirtualTrapezoid e l t r b) in
  List.length (CaptureEngine.calculateVirtualTrapezoid e l t r b) = 8%nat /\
  o 0%nat + o 2%nat = l + r /\ o 6%nat + o 4%nat = l + r /\
  o 1%nat + o 7%nat = t + b /\ o 3%nat + o 5%nat = t + b.
Proof.
  cbv zeta. unfold CaptureEngine.calculateVirtualTrapezoid, at_.
  destruct (CaptureEngine.table_found _ && CaptureEngine.is_trapezoid _);
    split_ifs; cbn [List.length nth]; repeat split; lra.
Qed.

Lemma adjustment_bound (g p q : R) :
  0 <= g -> 0 <= p -> 0 <= q -> 0 < (p + q) / 2 ->
  0 <= g * Num.fabs ((q - p) / ((p + q) / 2)) / 2 <= g.
Proof.
  intros Hg Hp Hq Havg.
  assert (H : Num.fabs ((q - p) / ((p + q) / 2))
              = Num.fabs (q - p) / ((p + q) / 2)).
  { rewrite !fabs_Rabs. unfold Rdiv. rewrite Rabs_mult.
    rewrite (Rabs_pos_eq (/ _));
      [reflexivity | left; apply Rinv_0_lt_compat, Havg]. }
  rewrite H.
  pose proof (relative_difference_bound p q Hp Hq Havg) as Hs.
  set (s := Num.fabs (q - p) / ((p + q) / 2)) in *. nra.
Qed.

(** X22.  With a guide rectangle given left-to-right and top-to-bottom
    and non-negative stored edge lengths, every corner of the virtual
    trapezoid lies inside the guide rectangle. *)
Theorem virtual_trapezoid_inside_guide (e : CaptureEngine.Engine)
    (l t r b : R) :
  l <= r -> t <= b ->
  0 <= CaptureEngine.top_width (CaptureEngine.last_analysis_ e) ->
  0 <= CaptureEngine.bottom_width (CaptureEngine.last_analysis_ e) ->
  0 <= CaptureEngine.left_height (CaptureEngine.last_analysis_ e) ->
  0 <= CaptureEngine.right_height (CaptureEngine.last_analysis_ e) ->
  let o := at_ 0 (CaptureEngine.calculateVirtualTrapezoid e l t r b) in
  (forall i, In i [0; 2; 4; 6]%nat -> l <= o i <= r) /\
  (forall i, In i [1; 3; 5; 7]%nat -> t <= o i <= b).
Proof.
  intros Hlr Htb Htw Hbw Hlh Hrh. cbv zeta.
  assert (Hg : 0 <= r - l) by lra. assert (Hgh : 0 <= b - t) by lra.
  pose proof (adjustment_bound (r - l) _ _ Hg Htw Hbw) as Hx.
  pose proof (adjustment_bound (b - t) _ _ Hgh Hlh Hrh) as Hy.
  unfold CaptureEngine.calculateVirtualTrapezoid, at_.
  destruct (CaptureEngine.table_found _ && CaptureEngine.is_trapezoid _);
    split_ifs;
    repeat match goal with
    | H : 0 < ?x -> _, H' : 0 < ?x |- _ => specialize (H H')
    end;
    (split; intros i Hi; cbn [In] in Hi;
     repeat (destruct Hi as [<-|Hi]; [cbn [nth]; lra|]); contradiction).
Qed.

Lemma virtual_trapezoid_inside_guide_witness :
  let e := CaptureEngine.mkEngine [] Sample.tilted in
  let o := at_ 0 (CaptureEngine.calculateVirtualTrapezoid e 0 0 100 50) in
  0 <= 100 /\ 0 <= 50 /\ 0 <= o 0%nat <= 100.
Proof.
  cbv zeta. split; [lra|]. split; [lra|].
  refine (proj1 (virtual_trapezoid_inside_guide
                   (CaptureEngine.mkEngine [] Sample.tilted) 0 0 100 50
                   _ _ _ _ _ _) 0%nat _);
    cbn; try lra. left; reflexivity.
Defined.

(** ** Cropping *)

(** A frame is a window of another one: same channels, an offset inside
    the other frame, and the other frame's pixels at that offset. *)
Lemma window_refl (frame : Mat) :
  exists ox oy : Z,
    (0 <= ox /\ 0 <= oy /\ ox + cols frame <= cols frame
     /\ oy + rows frame <= rows frame)%Z /\
    forall y x c, pix frame y x c = pix frame (y + oy)%Z (x + ox)%Z c.
Proof.
  exists 0%Z, 0%Z. split; [lia|]. intros. rewrite !Z.add_0_r. reflexivity.
Qed.

Lemma window_roi (frame : Mat) (x y w h : Z) :
  (0 <= x)%Z -> (0 <= y)%Z -> (0 < w <= cols frame - x)%Z ->
  (0 < h <= rows frame - y)%Z ->
  let f' := cv.roi frame (mkRect x y w h) in
  cv.empty f' = false /\ channels f' = channels frame /\
  exists ox oy : Z,
    (0 <= ox /\ 0 <= oy /\ ox + cols f' <= cols frame
     /\ oy + rows f' <= rows frame)%Z /\
    forall y' x' c, pix f' y' x' c = pix frame (y' + oy)%Z (x' + ox)%Z c.
Proof.
  intros Hx Hy Hw Hh. cbv zeta. unfold cv.roi, cv.empty.
  cbn [rows cols channels pix rx ry rw rh].
  split; [apply orb_false_iff; split; apply Z.leb_gt; lia|].
  split; [reflexivity|].
  exists x, y. split; [lia|]. reflexivity.
Qed.

Lemma applyCrop_window (crop_x crop_y crop_w crop_h : Z) (frame : Mat) :
  cv.empty frame = false ->
  let f' := CaptureEngine.applyCrop crop_x crop_y crop_w crop_h frame in
  cv.empty f' = false /\ channels f' = channels frame /\
  exists ox oy : Z,
    (0 <= ox /\ 0 <= oy /\ ox + cols f' <= cols frame
     /\ oy + rows f' <= rows frame)%Z /\
    forall y x c, pix f' y x c = pix frame (y + oy)%Z (x + ox)%Z c.
Proof.
  intro He. cbv zeta. unfold CaptureEngine.applyCrop.
  destruct ((0 <? crop_w)%Z && (0 <? crop_h)%Z);
    [|split; [exact He | split; [reflexivity | apply window_refl]]].
  rewrite !zmax_max, !zmin_min.
  destruct (_ && _) eqn:E;
    [|split; [exact He | split; [reflexivity | apply window_refl]]].
  apply andb_true_iff in E as [Ew Eh]. apply Z.ltb_lt in Ew, Eh.
  apply window_roi; lia.
Qed.

Lemma cropToCorners_window (corners : list R) (frame : Mat) :
  cv.empty frame = false ->
  let f' := CaptureEngine.cropToCorners corners frame in
  cv.empty f' = false /\ channels f' = channels frame /\
  exists ox oy : Z,
    (0 <= ox /\ 0 <= oy /\ ox + cols f' <= cols frame
     /\ oy + rows f' <= rows frame)%Z /\
    forall y x c, pix f' y x c = pix frame (y + oy)%Z (x + ox)%Z c.
Proof.
  intro He. cbv zeta. unfold CaptureEngine.cropToCorners.
  rewrite !zmax_max, !zmin_min.
  destruct (_ && _) eqn:E;
    [|split; [exact He | split; [reflexivity | apply window_refl]]].
  apply andb_true_iff in E as [Ew Eh]. apply Z.ltb_lt in Ew, Eh.
  apply window_roi; lia.
Qed.

(** X23.  The crop [analyzeFrame] applies after rotation never leaves the
    frame and never empties it: the result is a non-empty window of the
    frame, whatever the crop rectangle (negative origin, oversized,
    outside the frame, zero-sized). *)
Theorem applyCrop_inside (crop_x crop_y crop_w crop_h : Z) (frame : Mat) :
  cv.empty frame = false ->
  let f' := CaptureEngine.applyCrop crop_x crop_y crop_w crop_h frame in
  cv.empty f' = false /\ channels f' = channels frame /\
  exists ox oy : Z,
    (0 <= ox /\ 0 <= oy /\ ox + cols f' <= cols frame
     /\ oy + rows f' <= rows frame)%Z /\
    forall y x c, pix f' y x c = pix frame (y + oy)%Z (x + ox)%Z c.
Proof. apply applyCrop_window. Qed.

Lemma applyCrop_inside_witness :
  cv.empty Sample.gray = false /\
  cv.empty (CaptureEngine.applyCrop (-3) 1 10 10 Sample.gray) = false.
Proof.
  split; [reflexivity|].
  exact (proj1 (applyCrop_inside (-3) 1 10 10 Sample.gray eq_refl)).
Defined.

(** X24.  The crop to the bounding box of the eight corner coordinates,
    used by both enhance routines, never leaves the frame and never
    empties it, whatever the coordinates are. *)
Theorem cropToCorners_inside (corners : list R) (frame : Mat) :
  List.length corners = 8%nat ->
  cv.empty frame = false ->
  let f' := CaptureEngine.cropToCorners corners frame in
  cv.empty f' = false /\ channels f' = channels frame /\
  exists ox oy : Z,
    (0 <= ox /\ 0 <= oy /\ ox + cols f' <= cols frame
     /\ oy + rows f' <= rows frame)%Z /\
    forall y x c, pix f' y x c = pix frame (y + oy)%Z (x + ox)%Z c.
Proof. intros _. apply cropToCorners_window. Qed.

Lemma cropToCorners_inside_witness :
  List.length Sample.coinciding = 8%nat /\
  cv.empty Sample.gray = false /\
  cv.empty (CaptureEngine.cropToCorners Sample.coinciding Sample.gray) = false.
Proof.
  split; [reflexivity|]. split; [reflexivity|].
  exact (proj1 (cropToCorners_inside Sample.coinciding Sample.gray
                  eq_refl eq_refl)).
Defined.

(** ** The output buffer *)

Lemma map_nth_seq {A : Type} (d : A) (l : list A) :
  map (fun i => nth i l d) (seq 0 (List.length l)) = l.
Proof.
  induction l as [|a l IH]; [reflexivity|].
  cbn [List.length seq map nth]. f_equal.
  rewrite <- seq_shift, map_map. exact IH.
Qed.

Lemma interleaved_index (i w ch : Z) :
  (0 <= i)%Z -> (0 < w)%Z -> (0 < ch)%Z ->
  ((i / (w * ch) * w + (i / ch) mod w) * ch + i mod ch = i)%Z.
Proof.
  intros Hi Hw Hch.
  assert (Hq : (i / (w * ch) = i / ch / w)%Z).
  { rewrite Z.mul_comm. symmetry. apply Z.div_div; lia. }
  rewrite Hq.
  pose proof (Z.div_mod (i / ch) w ltac:(lia)) as H1.
  pose proof (Z.div_mod i ch ltac:(lia)) as H2.
  rewrite (Z.mul_comm (i / ch / w) w), <- H1, (Z.mul_comm (i / ch) ch), <- H2.
  reflexivity.
Qed.

(** The bytes copied out of a frame made from a packed buffer are the
    buffer. *)
Lemma matBytes_ofBuffer (h w ch : Z) (data : list Z) :
  (0 < w)%Z -> (0 < ch)%Z ->
  List.length data = Z.to_nat (h * w * ch) ->
  CaptureEngine.matBytes (cv.ofBuffer h w ch data) = data.
Proof.
  intros Hw Hch Hlen. unfold CaptureEngine.matBytes, cv.ofBuffer.
  cbn [rows cols channels pix]. rewrite <- Hlen.
  rewrite <- (map_nth_seq 0%Z data) at 2.
  apply map_ext. intro i.
  rewrite interleaved_index by lia. rewrite Nat2Z.id. reflexivity.
Qed.

(** X25.  With every processing step switched off, [enhanceImage] hands a
    packed BGR frame whose rows are shorter than [2^31] bytes back
    unchanged: the same bytes, width and height, three channels, a stride
    of three bytes per pixel, success and no message. *)
Theorem enhanceImage_identity `{P : ImagePrimitives}
    (data : list Z) (width height : Z) (corners : list R)
    (options : CaptureEngine.EnhancementOptions) :
  (0 < width)%Z -> (0 < height)%Z -> (width * 3 < 2 ^ 31)%Z ->
  List.length data = Z.to_nat (height * width * 3) ->
  CaptureEngine.apply_crop options = false ->
  CaptureEngine.apply_perspective_correction options = false ->
  CaptureEngine.apply_auto_enhance options = false ->
  CaptureEngine.apply_sharpening options = false ->
  CaptureEngine.enhance_mode options = CaptureEngine.ENHANCE_NONE ->
  CaptureEngine.enhanceImage (Some data) width height 1 (Some corners) options
  = CaptureEngine.mkEnhancement (Some data) width height 3 (width * 3)
                                true "".
Proof.
  intros Hw Hh _ Hlen Hcrop Hpersp Hauto Hsharp Hmode.
  unfold CaptureEngine.enhanceImage, CaptureEngine.bufferToMat.
  assert (Hb : ((width <=? 0)%Z || (height <=? 0)%Z) = false).
  { apply orb_false_iff; split; apply Z.leb_gt; assumption. }
  rewrite Hb. cbn [Z.eqb Pos.eqb].
  assert (He : cv.empty (cv.ofBuffer height width 3 data) = false).
  { unfold cv.empty, cv.ofBuffer; cbn [rows cols].
    apply orb_false_iff; split; apply Z.leb_gt; assumption. }
  rewrite He, Hcrop, Hpersp. cbn [andb].
  unfold CaptureEngine.postProcess. rewrite Hauto, Hsharp, Hmode.
  cbn [cv.ofBuffer channels Z.eqb Pos.eqb CaptureEngine.applyEnhanceMode].
  unfold CaptureEngine.output.
  rewrite (matBytes_ofBuffer height width 3 data Hw ltac:(lia) Hlen).
  reflexivity.
Qed.

Lemma enhanceImage_identity_witness :
  (0 < 1)%Z /\ (1 * 3 < 2 ^ 31)%Z /\
  List.length Sample.pixel = Z.to_nat (1 * 1 * 3) /\
  @CaptureEngine.enhanceImage nullPrimitives
    (Some Sample.pixel) 1 1 1 (Some Sample.coinciding)
    (CaptureEngine.mkOptions false false false false false 0.5
       CaptureEngine.ENHANCE_NONE 0 0)
  = CaptureEngine.mkEnhancement (Some Sample.pixel) 1 1 3 (1 * 3) true "".
Proof.
  split; [lia|]. split; [lia|]. split; [reflexivity|].
  exact (@enhanceImage_identity nullPrimitives Sample.pixel 1 1
           Sample.coinciding
           (CaptureEngine.mkOptions false false false false false 0.5
              CaptureEngine.ENHANCE_NONE 0 0)
           eq_refl eq_refl eq_refl eq_refl eq_refl eq_refl eq_refl eq_refl
           eq_refl).
Defined.

(** ** Sauvola on a flat image *)

Section Uniform.

Import ImageEnhancer.

Lemma sum_n_const (c : R) (n : nat) : sum_n (fun _ => c) n = INR n * c.
Proof.
  induction n as [|n IH]; [cbn; lra|]. cbn [sum_n]. rewrite IH, S_INR. lra.
Qed.

Lemma sum_range_const (f : Z -> R) (a b : Z) (c : R) :
  (a <= b + 1)%Z -> (forall i, (a <= i <= b)%Z -> f i = c) ->
  Spec.sum_range f a b = IZR (b - a + 1) * c.
Proof.
  intros Hab H. rewrite (sum_range_ext f (fun _ => c) a b H).
  unfold Spec.sum_range. rewrite sum_n_const, INR_IZR_INZ, Z2Nat.id by lia.
  reflexivity.
Qed.

(** Over a window inside a flat image, the sum of [g] over the pixels. *)
Lemma windowSum_flat (img : Mat) (w : Spec.Window) (g : R -> R) (p : Z) :
  (0 <= Spec.x1 w <= Spec.x2 w + 1)%Z -> (Spec.x2 w < cols img)%Z ->
  (0 <= Spec.y1 w <= Spec.y2 w + 1)%Z -> (Spec.y2 w < rows img)%Z ->
  (forall y x, (0 <= y < rows img)%Z -> (0 <= x < cols img)%Z ->
               pix img y x 0%Z = p) ->
  Spec.windowSum img w g = Spec.count w * g (IZR p).
Proof.
  intros Hx Hx2 Hy Hy2 Hflat. unfold Spec.windowSum, Spec.count.
  rewrite (sum_range_const _ _ _
             (IZR (Spec.x2 w - Spec.x1 w + 1) * g (IZR p))).
  - rewrite mult_IZR. ring.
  - lia.
  - intros y Hyr. apply sum_range_const; [lia|].
    intros x Hxr. rewrite Hflat by lia. reflexivity.
Qed.

Lemma sauvolaBinarize_pixel `{P : ImagePrimitives}
    (input : Mat) (windowSize : Z) (k R_ : R) (y x c : Z) :
  channels input = 1%Z -> cv.empty input = false ->
  pix (sauvolaBinarize input windowSize k R_) y x c
  = if IZR (pix input y x 0%Z)
       >? sauvolaThreshold input
            (Z.quot (if (Z.rem windowSize 2 =? 0)%Z
                     then windowSize + 1 else windowSize) 2) k R_ y x
    then 255%Z else 0%Z.
Proof.
  intros Hch He. unfold sauvolaBinarize. rewrite He, Hch. reflexivity.
Qed.

Lemma sauvola_flat (img : Mat) (windowSize : Z) (k R_ : R) (p y x : Z) :
  (0 <= windowSize)%Z -> (0 <= y < rows img)%Z -> (0 <= x < cols img)%Z ->
  (forall y x, (0 <= y < rows img)%Z -> (0 <= x < cols img)%Z ->
               pix img y x 0%Z = p) ->
  Spec.sauvola img windowSize k R_ y x = IZR p * (1 - k).
Proof.
  intros Hw Hy Hx Hflat.
  destruct (halfWindow_halfWidth windowSize Hw) as [_ Hhalf].
  unfold Spec.sauvola, Spec.windowStdDev, Spec.windowMean.
  set (win := Spec.clippedWindow _ _ _ _ _).
  assert (Hx1 : (0 <= Spec.x1 win <= Spec.x2 win + 1)%Z)
    by (unfold win, Spec.clippedWindow; cbn; lia).
  assert (Hx2 : (Spec.x2 win < cols img)%Z)
    by (unfold win, Spec.clippedWindow; cbn; lia).
  assert (Hy1 : (0 <= Spec.y1 win <= Spec.y2 win + 1)%Z)
    by (unfold win, Spec.clippedWindow; cbn; lia).
  assert (Hy2 : (Spec.y2 win < rows img)%Z)
    by (unfold win, Spec.clippedWindow; cbn; lia).
  assert (Hn : 0 < Spec.count win).
  { unfold Spec.count. apply IZR_lt.
    unfold win, Spec.clippedWindow; cbn. nia. }
  rewrite !(windowSum_flat img win _ p) by assumption.
  replace (Spec.count win * IZR p / Spec.count win) with (IZR p)
    by (field; lra).
  replace (Spec.count win * (IZR p - IZR p) ^ 2 / Spec.count win) with 0
    by (field; lra).
  rewrite sqrt_0. lra.
Qed.

End Uniform.

(** X26.  On a single-channel image of one intensity [p] (fewer than
    [2^30] pixels, a window size in [[0, 2^30)]) the Sauvola binarizer
    gives one value everywhere: foreground 255 when [p * k] is positive
    (any non-black flat image, for a positive sensitivity), background 0
    otherwise; the window size and the range, as long as it is not 0,
    play no part. *)
Theorem sauvolaBinarize_flat `{P : ImagePrimitives}
    (input : Mat) (windowSize : Z) (k R_ : R) (p y x c : Z) :
  channels input = 1%Z -> (0 <= windowSize < 2 ^ 30)%Z ->
  (rows input * cols input < 2 ^ 30)%Z -> R_ <> 0 ->
  (forall y x, (0 <= y < rows input)%Z -> (0 <= x < cols input)%Z ->
               pix input y x 0%Z = p) ->
  (0 <= y < rows input)%Z -> (0 <= x < cols input)%Z ->
  pix (ImageEnhancer.sauvolaBinarize input windowSize k R_) y x c
  = if 0 <? IZR p * k then 255%Z else 0%Z.
Proof.
  intros Hch [Hw _] _ _ Hflat Hy Hx.
  assert (He : cv.empty input = false).
  { unfold cv.empty. apply orb_false_iff; split; apply Z.leb_gt; lia. }
  rewrite sauvolaBinarize_pixel, sauvolaThreshold_spec by assumption.
  rewrite (sauvola_flat input windowSize k R_ p) by assumption.
  rewrite (Hflat y x Hy Hx).
  unfold Num.ltb.
  destruct (Rlt_dec (IZR p * (1 - k)) (IZR p));
    destruct (Rlt_dec 0 (IZR p * k)); try reflexivity; exfalso; lra.
Qed.

Lemma sauvolaBinarize_flat_witness :
  channels Scene.flat = 1%Z /\ (0 <= 15 < 2 ^ 30)%Z /\
  (rows Scene.flat * cols Scene.flat < 2 ^ 30)%Z /\ 128 <> 0 /\
  (0 <= 1 < rows Scene.flat)%Z /\ (0 <= 1 < cols Scene.flat)%Z /\
  pix (@ImageEnhancer.sauvolaBinarize nullPrimitives Scene.flat 15 0.2 128) 1 1 0
  = (if 0 <? IZR 200 * 0.2 then 255%Z else 0%Z).
Proof.
  assert (H3 : (0 <= 1 < rows Scene.flat)%Z) by (cbn; lia).
  assert (H4 : (0 <= 1 < cols Scene.flat)%Z) by (cbn; lia).
  assert (Hn : (rows Scene.flat * cols Scene.flat < 2 ^ 30)%Z) by (cbn; lia).
  assert (HR : 128 <> 0) by lra.
  split; [reflexivity|]. split; [lia|]. split; [exact Hn|].
  split; [exact HR|]. split; [exact H3|]. split; [exact H4|].
  exact (@sauvolaBinarize_flat nullPrimitives Scene.flat 15 0.2 128 200 1 1 0
           eq_refl ltac:(lia) Hn HR (fun _ _ _ _ => eq_refl) H3 H4).
Defined.

(** ** Text regions in the analysis result *)

(** X27.  The region bounds copied into [text_regions_bounds], when the
    region list holds at least as many regions as the count (the loop
    indexes it unchecked): the count is at most 8, the bounds
    [x, y, width, height] of region [i] are at positions [4i .. 4i+3] for
    the regions below the count, and the rest of the 32 floats is 0. *)
Theorem copyRegionBounds_layout (regionCount : Z) (regions : list TextRegion) :
  let count := Num.zmin regionCount 8 in
  let n := Z.to_nat count in
  (n <= List.length regions)%nat ->
  (count <= 8)%Z /\
  CaptureEngine.copyRegionBounds count regions
  = flat_map
      (fun i => CaptureEngine.rectFloats
                  (tr_bounds (nth i regions (mkTextRegion (mkRect 0 0 0 0) 0))))
      (seq 0 n)
    ++ repeat 0 (32 - 4 * n).
Proof.
  cbv zeta. rewrite zmin_min. intros _.
  split; [lia|].
  assert (H : (Z.to_nat (Z.min regionCount 8) <= 8)%nat) by lia.
  unfold CaptureEngine.copyRegionBounds.
  destruct (Z.to_nat (Z.min regionCount 8)) as [|[|[|[|[|[|[|[|[|n]]]]]]]]];
    try lia; reflexivity.
Qed.

Lemma copyRegionBounds_layout_witness :
  (Z.to_nat (Num.zmin 2 8) <= List.length Scene.regions)%nat /\
  CaptureEngine.copyRegionBounds (Num.zmin 2 8) Scene.regions
  = flat_map
      (fun i => CaptureEngine.rectFloats
                  (tr_bounds
                     (nth i Scene.regions (mkTextRegion (mkRect 0 0 0 0) 0))))
      (seq 0 (Z.to_nat (Num.zmin 2 8)))
    ++ repeat 0 (32 - 4 * Z.to_nat (Num.zmin 2 8)).
Proof.
  assert (H : (Z.to_nat (Num.zmin 2 8) <= List.length Scene.regions)%nat)
    by (rewrite zmin_min; cbn; lia).
  split; [exact H|].
  exact (proj2 (copyRegionBounds_layout 2 Scene.regions H)).
Defined.

(** ** Background whitening *)

(** X28.  On a single-channel image [whitenBackground] is idempotent; it
    leaves a pixel as it is or makes it 255, and for 8-bit pixel values it
    never darkens a pixel. *)
Theorem whitenBackground_gray `{P : ImagePrimitives}
    (input : Mat) (threshold y x : Z) :
  channels input = 1%Z -> cv.empty input = false ->
  let out := Pixels.whitenBackground input threshold in
  pix (Pixels.whitenBackground out threshold) y x 0 = pix out y x 0 /\
  (pix out y x 0 = 255%Z \/ pix out y x 0 = pix input y x 0) /\
  (pix out y x 0 = 255%Z <-> (threshold < pix input y x 0
                              \/ pix input y x 0 = 255)%Z) /\
  ((pix input y x 0 <= 255)%Z -> (pix input y x 0 <= pix out y x 0)%Z) /\
  rows out = rows input /\ cols out = cols input.
Proof.
  intros Hch He. cbv zeta. unfold Pixels.whitenBackground.
  rewrite He, Hch. cbn [Z.eqb Pos.eqb].
  unfold cv.empty in *. cbn [rows cols channels pix].
  rewrite He. cbn [Z.eqb Pos.eqb pix].
  destruct (Z.ltb_spec threshold (pix input y x 0)) as [Hlt|Hge].
  - destruct (Z.ltb_spec threshold 255); repeat split; auto; lia.
  - destruct (Z.ltb_spec threshold (pix input y x 0)); [lia|].
    repeat split; auto; lia.
Qed.

Lemma whitenBackground_gray_witness :
  channels Scene.flat = 1%Z /\ cv.empty Scene.flat = false /\
  pix (@Pixels.whitenBackground nullPrimitives
         (@Pixels.whitenBackground nullPrimitives Scene.flat 128) 128) 1 1 0
  = pix (@Pixels.whitenBackground nullPrimitives Scene.flat 128) 1 1 0.
Proof.
  split; [reflexivity|]. split; [reflexivity|].
  exact (proj1 (@whitenBackground_gray nullPrimitives Scene.flat 128 1 1
                  eq_refl eq_refl)).
Defined.

(** ** The enhance entry points *)

Section EnhanceOutcome.

Import CaptureEngine PerspectiveCorrector.
Context `{P : ImagePrimitives}.

(** When [enhanceImage] succeeds, for every setting of the options, and
    what it returns either way. *)
Lemma enhanceImage_outcome (data : option (list Z)) (width height format : Z)
    (corners : option (list R)) (options : EnhancementOptions) :
  let r := enhanceImage data width height format corners options in
  (esuccess r = true <->
   exists d c, data = Some d /\ corners = Some c /\ (0 < width)%Z
               /\ (0 < height)%Z
               /\ cv.empty (bufferToMat d width height format) = false) /\
  (esuccess r = true -> image_data r <> None /\ error_message r = ""%string) /\
  (esuccess r = false -> image_data r = None /\ error_message r <> ""%string).
Proof.
  cbv zeta. unfold enhanceImage.
  assert (Hfail : forall msg : string, msg <> ""%string ->
    (esuccess (failed msg) = true -> image_data (failed msg) <> None
                                     /\ error_message (failed msg) = ""%string)
    /\ (esuccess (failed msg) = false ->
        image_data (failed msg) = None /\ error_message (failed msg) <> ""%string)).
  { intros msg Hm. cbn. split; [discriminate | auto]. }
  destruct data as [d|].
  2:{ split; [|apply Hfail; discriminate].
      split; [discriminate | intros (d & c & H & _); discriminate]. }
  destruct (Z.leb_spec width 0) as [Hw|Hw].
  { split; [|apply Hfail; discriminate].
    split; [discriminate | intros (d' & c & _ & _ & H & _); lia]. }
  destruct (Z.leb_spec height 0) as [Hh|Hh].
  { split; [|apply Hfail; discriminate].
    split; [discriminate | intros (d' & c & _ & _ & _ & H & _); lia]. }
  cbn [orb].
  destruct corners as [c|].
  2:{ split; [|apply Hfail; discriminate].
      split; [discriminate | intros (d' & c & _ & H & _); discriminate]. }
  destruct (cv.empty (bufferToMat d width height format)) eqn:He.
  { split; [|apply Hfail; discriminate].
    split; [discriminate|].
    intros (d' & c' & Hd & _ & _ & _ & H). injection Hd as <-. congruence. }
  assert (Hout : forall m,
    esuccess (postProcess (apply_auto_enhance options) options m) = true
    /\ image_data (postProcess (apply_auto_enhance options) options m) <> None
    /\ error_message (postProcess (apply_auto_enhance options) options m)
       = ""%string).
  { intro m. unfold postProcess, output. cbn. repeat split. discriminate. }
  assert (Hex : exists d' c', Some d = Some d' /\ Some c = Some c'
                 /\ (0 < width)%Z /\ (0 < height)%Z
                 /\ cv.empty (bufferToMat d' width height format) = false)
    by (exists d, c; auto).
  destruct (apply_perspective_correction options).
  - cbn [negb]. rewrite andb_false_r.
    unfold correct. rewrite He.
    cbn [List.length cornerPoints Nat.eqb negb orb success image].
    match goal with
    | |- context [postProcess _ _ ?m] => destruct (Hout m) as (H1 & H2 & H3)
    end.
    split; [split; [intros _; exact Hex | intros _; exact H1]|].
    split; [intros _; split; assumption | rewrite H1; discriminate].
  - match goal with
    | |- context [postProcess _ _ ?m] => destruct (Hout m) as (H1 & H2 & H3)
    end.
    split; [split; [intros _; exact Hex | intros _; exact H1]|].
    split; [intros _; split; assumption | rewrite H1; discriminate].
Qed.



End EnhanceOutcome.

(** X29.  Through the C interface, [enhance_image] reports success
    exactly when the engine and the image are not null, the corner array
    is given, both dimensions are positive and the frame is not empty,
    whatever the flags and the mode (a given corner array holds its 8
    floats); a successful result carries an output buffer and an empty
    message, a failed one no buffer and a message; and a null result
    reads as failure. *)
Theorem enhance_image_outcome `{P : ImagePrimitives}
    (engine : option CaptureEngine.Engine) (image_data : option (list Z))
    (width height format : Z) (corners : option (list R))
    (apply_perspective apply_deskew apply_enhance apply_sharpening : Z)
    (sharpening_strength : R) (enhance_mode output_width output_height : Z) :
  (forall c, corners = Some c -> List.length c = 8%nat) ->
  let r :=
    FFI.enhance_image engine image_data width height format corners
      apply_perspective apply_deskew apply_enhance apply_sharpening
      sharpening_strength enhance_mode output_width output_height in
  (FFI.get_enhancement_success (Some r) = 1%Z <->
   engine <> None /\
   exists d c, image_data = Some d /\ corners = Some c /\ (0 < width)%Z
               /\ (0 < height)%Z
               /\ cv.empty (CaptureEngine.bufferToMat d width height format)
                  = false) /\
  (FFI.get_enhancement_success (Some r) = 1%Z ->
   FFI.get_enhancement_image_data (Some r) <> None
   /\ CaptureEngine.error_message r = ""%string) /\
  (FFI.get_enhancement_success (Some r) = 0%Z ->
   FFI.get_enhancement_image_data (Some r) = None
   /\ CaptureEngine.error_message r <> ""%string) /\
  FFI.get_enhancement_success None = 0%Z.
Proof.
  intros _.
  cbv zeta. unfold FFI.enhance_image, FFI.get_enhancement_success,
    FFI.get_enhancement_image_data.
  destruct engine as [e|].
  2:{ cbn. repeat split; try discriminate; auto.
      intros (H & _); contradiction. }
  destruct image_data as [d|].
  2:{ cbn. repeat split; try discriminate; auto.
      intros (_ & d & c & H & _); discriminate. }
  match goal with
  | |- context [CaptureEngine.enhanceImage ?a ?w ?h ?f ?c ?o] =>
      pose proof (enhanceImage_outcome a w h f c o) as (Hiff & Hok & Hko);
      cbv zeta in Hiff, Hok, Hko;
      destruct (CaptureEngine.esuccess
                  (CaptureEngine.enhanceImage a w h f c o)) eqn:Es
  end.
  - repeat split; auto; try discriminate; try (apply Hok; reflexivity).
    apply Hiff; reflexivity.
  - repeat split; auto; try discriminate; try (apply Hko; reflexivity).
    intros (_ & H). apply Hiff in H. discriminate.
Qed.

Lemma enhance_image_outcome_witness :
  let r := @FFI.enhance_image nullPrimitives
             (Some CaptureEngine.new) (Some Sample.pixel) 1 1 1
             (Some Sample.coinciding) 1 0 0 0 0.5 0 0 0 in
  (forall c, Some Sample.coinciding = Some c -> List.length c = 8%nat) /\
  FFI.get_enhancement_success (Some r) = 1%Z /\
  FFI.get_enhancement_image_data (Some r) <> None.
Proof.
  cbv zeta.
  assert (Hc : forall c, Some Sample.coinciding = Some c
                         -> List.length c = 8%nat).
  { intros c Ec. injection Ec as <-. reflexivity. }
  split; [exact Hc|].
  assert (H : FFI.get_enhancement_success
                (Some (@FFI.enhance_image nullPrimitives
                         (Some CaptureEngine.new) (Some Sample.pixel) 1 1 1
                         (Some Sample.coinciding) 1 0 0 0 0.5 0 0 0)) = 1%Z).
  { apply (proj1 (@enhance_image_outcome nullPrimitives
                    (Some CaptureEngine.new) (Some Sample.pixel) 1 1 1
                    (Some Sample.coinciding) 1 0 0 0 0.5 0 0 0 Hc)).
    split; [discriminate|].
    exists Sample.pixel, Sample.coinciding. repeat split; reflexivity. }
  split; [exact H|].
  exact (proj1 (proj1 (proj2 (@enhance_image_outcome nullPrimitives
                    (Some CaptureEngine.new) (Some Sample.pixel) 1 1 1
                    (Some Sample.coinciding) 1 0 0 0 0.5 0 0 0 Hc)) H)).
Defined.


